(** * Self-supervision notebooks: MoCo on CIFAR-10, SimCLR on a Detectron2
      backbone, and the compose service of the development container.

    The development has two layers.

    - A data-level embedding of the two LightningModule subclasses of
      [MoCo_cifar-10.ipynb] ([MocoModel], [Classifier]) and of the SimCLR
      training loop: parameter tensors live in a shared heap indexed by
      object identity, modules are lists of parameter ids, and the hooks
      are functions on that heap. A library call either returns or raises.
    - A control skeleton of every code cell and method of both notebooks,
      with an interpreter that records the calls a run makes, and the
      compose file as a YAML tree.

    Parameter values are IEEE 754 binary32 numbers and Python floats are
    binary64 numbers, with the operations of [SpecFloat]. The counts and
    means the notebooks log or print are kept as exact numbers. *)

From Stdlib Require Import QArith ZArith Lia Lqa.
From Stdlib Require SpecFloat.
From stdpp Require Import base option list sorting strings gmap.

Set Default Proof Using "Type".

(* ================================================================== *)
(** * Part I. Definitions                                              *)
(* ================================================================== *)

(** ** Exceptions *)

Module Exn.

Inductive t :=
| KeyError (key : string)
| ZeroDivisionError
| TypeError
| IndexError
| ValueError
| RuntimeError.

(** [e] is raised where [x] has no value. *)
Definition lift {A} (e : t) (x : option A) : t + A :=
  match x with
  | Some a => inr a
  | None => inl e
  end.

End Exn.

(** A call returns a value or raises; [x ← call; rest] runs [rest] only
    when [call] returned. *)
#[export] Instance exn_ret : MRet (sum Exn.t) := λ A a, inr a.

#[export] Instance exn_bind : MBind (sum Exn.t) := λ A B f x,
  match x with
  | inl e => inl e
  | inr a => f a
  end.

(** ** Floating-point numbers *)

Module Float.

(** A [torch.float32] element and a Python [float]. *)
Definition float32 : Type := SpecFloat.spec_float.
Definition float64 : Type := SpecFloat.spec_float.

Definition mul32 : float32 → float32 → float32 := SpecFloat.SFmul 24 128.
Definition add32 : float32 → float32 → float32 := SpecFloat.SFadd 24 128.
Definition sub32 : float32 → float32 → float32 := SpecFloat.SFsub 24 128.
Definition sub64 : float64 → float64 → float64 := SpecFloat.SFsub 53 1024.
Definition div64 : float64 → float64 → float64 := SpecFloat.SFdiv 53 1024.

Definition of_Z32 (z : Z) : float32 := SpecFloat.binary_normalize 24 128 z 0 false.
Definition of_Z64 (z : Z) : float64 := SpecFloat.binary_normalize 53 1024 z 0 false.

(** The Python float written as the decimal [num / den]: the binary64
    number nearest to it. [0.99] is [literal 99 100]. *)
Definition literal (num den : Z) : float64 := div64 (of_Z64 num) (of_Z64 den).

(** A Python float that meets a [float32] tensor in an operation is
    converted to [float32] first, rounding to nearest. *)
Definition to_float32 (x : float64) : float32 :=
  match x with
  | SpecFloat.S754_finite s m e => SpecFloat.binary_round 24 128 s m e
  | _ => x
  end.

(** The number a finite float stands for. *)
Definition to_Q (x : SpecFloat.spec_float) : option Q :=
  match x with
  | SpecFloat.S754_zero _ => Some 0%Q
  | SpecFloat.S754_finite s m e =>
      let z := if s then Z.neg m else Z.pos m in
      Some (Qred match e with
                 | Z0 => z # 1
                 | Z.pos p => (z * 2 ^ Z.pos p) # 1
                 | Z.neg p => z # (2 ^ p)
                 end)
  | _ => None
  end.

End Float.

(** ** Parameter heap and the library operations the notebooks call *)

Module Torch.
Export Float.

(** One scalar parameter: its value and its [requires_grad] flag. *)
Record tensor := Tensor { data : float32; requires_grad : bool }.

(** The heap of parameter tensors; an id is an index. *)
Abbreviation heap := (list tensor).

(** [module.parameters()]: the ids of a module's parameters, in order. *)
Abbreviation module := (list nat).

(** Values of a module's parameters, in order. *)
Definition read (h : heap) (m : module) : list float32 :=
  omap (λ i, data <$> h !! i) m.

(** Constructing a module allocates fresh parameters that require
    gradients. *)
Definition new_module (h : heap) (init : list float32) : heap * module :=
  (h ++ ((λ v, Tensor v true) <$> init), seq (length h) (length init)).

(** [copy.deepcopy(module)]: every parameter is copied to a fresh id. *)
Definition deepcopy (h : heap) (m : module) : heap * module :=
  let ts := omap (λ i, h !! i) m in
  (h ++ ts, seq (length h) (length ts)).

(** Autograd: after [backward], a parameter has a gradient only if it
    requires one; [g] is the gradient the loss assigns to each id. *)
Definition backward (h : heap) (g : nat → float32) (p : nat) : option float32 :=
  t ← h !! p; if requires_grad t then Some (g p) else None.

(** [optimizer.step()]: every parameter handed to the optimizer that has
    a gradient is rewritten by the update rule [upd]; a parameter whose
    gradient is [None] is skipped. The rule takes the parameter, its
    value and its gradient: an optimizer may keep a state per parameter
    (the momentum buffer of SGD, the moments of Adam). *)
Definition optimizer_step (h : heap) (params : module)
    (grad : nat → option float32) (upd : nat → float32 → float32 → float32) : heap :=
  foldl (λ h' p,
           match grad p with
           | Some gv => alter (λ t, Tensor (upd p (data t) gv) (requires_grad t)) p h'
           | None => h'
           end) h params.

(** What a round of training receives from outside once the loss is
    there: [loss.backward()] raises or leaves the gradients [g];
    [optimizer.step()] applies its rule, or raises when only the
    parameters [written] have been rewritten. *)
Record descent := Descent {
  gradients : Exn.t + (nat → float32);
  rule : nat → float32 → float32 → float32;
  interrupted : option (module * Exn.t)
}.

(** [loss.backward(); optimizer.step()]. *)
Definition backward_step (h : heap) (params : module) (d : descent)
    : heap * option Exn.t :=
  match gradients d with
  | inl e => (h, Some e)
  | inr g =>
      match interrupted d with
      | Some (written, e) =>
          (optimizer_step h (filter (λ p, p ∈ written) params) (backward h g) (rule d),
           Some e)
      | None => (optimizer_step h params (backward h g) (rule d), None)
      end
  end.

(** [batch[index]]: row selection; an index out of range raises. *)
Definition index_select {A} (batch : list A) (index : list nat) : option (list A) :=
  mapM (λ i, batch !! i) index.

(** A network applied to a batch returns one row per input row. *)
Definition returns_rows {A B} (f : list A → Exn.t + list B) : Prop :=
  ∀ batch, ∃ out, f batch = inr out ∧ length out = length batch.

(** Broadcasting of two one-dimensional tensors in an elementwise
    operation: equal sizes pair up, a size of one is repeated, any other
    pair of sizes raises. *)
Definition broadcast {A B} (a : list A) (b : list B) : Exn.t + list (A * B) :=
  if decide (length a = length b) then inr (zip a b)
  else match a, b with
       | [x], _ => inr ((λ y, (x, y)) <$> b)
       | _, [y] => inr ((λ x, (x, y)) <$> a)
       | _, _ => inl Exn.RuntimeError
       end.

(** Order on (key, position) pairs used by [argsort]. *)
Definition key_le (a b : nat * nat) : Prop := a.1 ≤ b.1.

#[export] Instance key_le_dec a b : Decision (key_le a b) :=
  decide (a.1 ≤ b.1).

(** [torch.argsort(v)]: the positions of [v] ordered by value. *)
Definition argsort (v : list nat) : list nat :=
  snd <$> merge_sort key_le (zip v (seq 0 (length v))).

(** Batches a [DataLoader] yields when it does not shuffle: consecutive
    runs of [batch_size] samples, the last one shorter unless
    [drop_last]. [cur] holds the current batch, newest sample first. *)
Fixpoint batches_from {A} (batch_size : nat) (drop_last : bool)
    (cur : list A) (samples : list A) : list (list A) :=
  match samples with
  | [] => match cur with
          | [] => []
          | _ :: _ => if drop_last then [] else [rev cur]
          end
  | x :: rest =>
      if decide (length (x :: cur) = batch_size)
      then rev (x :: cur) :: batches_from batch_size drop_last [] rest
      else batches_from batch_size drop_last (x :: cur) rest
  end.

(** [DataLoader(dataset, batch_size=batch_size, shuffle=False,
    drop_last=drop_last)]: the constructor raises [ValueError] unless
    the batch size is positive. *)
Definition DataLoader {A} (dataset : list A) (batch_size : nat)
    (drop_last : bool) : Exn.t + list (list A) :=
  if decide (batch_size = 0) then inl Exn.ValueError
  else inr (batches_from batch_size drop_last [] dataset).

End Torch.

Module Lightly.
Import Torch.

(** [deactivate_requires_grad(model)]:
    [for param in model.parameters(): param.requires_grad = False]. *)
Definition deactivate_requires_grad (h : heap) (model : module) : heap :=
  foldl (λ h' p, alter (λ t, Tensor (data t) false) p h') h model.

(** The right-hand side of the assignment of [update_momentum],
    [model_ema.data * m + (1 - m) * model.data]: [1 - m] is computed on
    Python floats, the two products and the sum on [float32]. *)
Definition momentum_rule (m : float64) (old online : float32) : float32 :=
  add32 (mul32 old (to_float32 m))
        (mul32 (to_float32 (sub64 (of_Z64 1) m)) online).

(** One assignment of [update_momentum]:
    [model_ema.data = model_ema.data * m + (1 - m) * model.data]. *)
Definition momentum_assign (m : float64) (h : heap) (pair : nat * nat) : heap :=
  let '(ema, p) := pair in
  match h !! p with
  | Some tp =>
      alter (λ te, Tensor (momentum_rule m (data te) (data tp)) (requires_grad te)) ema h
  | None => h
  end.

(** [update_momentum(model, model_ema, m)], over
    [zip(model_ema.parameters(), model.parameters())]. *)
Definition update_momentum (h : heap) (model model_ema : module) (m : float64) : heap :=
  foldl (momentum_assign m) h (zip model_ema model).

(** [batch_shuffle(batch)]: draws [shuffle = torch.randperm(batch_size)]
    and returns [batch[shuffle], shuffle]. The draw is the argument
    [randperm]. *)
Definition batch_shuffle {A} (randperm : nat → list nat) (batch : list A)
    : option (list A * list nat) :=
  let shuffle := randperm (length batch) in
  b ← index_select batch shuffle; Some (b, shuffle).

(** [batch_unshuffle(batch, shuffle)]:
    [unshuffle = torch.argsort(shuffle); return batch[unshuffle]]. *)
Definition batch_unshuffle {A} (batch : list A) (shuffle : list nat)
    : option (list A) :=
  let unshuffle := argsort shuffle in
  index_select batch unshuffle.

End Lightly.

(** ** [class MocoModel(pl.LightningModule)] *)

Module MocoModel.
Import Torch Lightly.

Record t := Build {
  backbone : module;
  projection_head : module;
  backbone_momentum : module;
  projection_head_momentum : module
}.

(** [self.parameters()], in registration order. *)
Definition parameters (self : t) : module :=
  backbone self ++ projection_head self ++
  backbone_momentum self ++ projection_head_momentum self.

Definition online_parameters (self : t) : module :=
  backbone self ++ projection_head self.

Definition momentum_parameters (self : t) : module :=
  backbone_momentum self ++ projection_head_momentum self.

(** [__init__]: [backbone_init] and [head_init] are the initial values
    of the Mobilenet-v2 backbone and of the MoCo projection head. *)
Definition __init__ (h : heap) (backbone_init head_init : list float32) : heap * t :=
  let '(h, backbone) := new_module h backbone_init in
  let '(h, projection_head) := new_module h head_init in
  let '(h, backbone_momentum) := deepcopy h backbone in
  let '(h, projection_head_momentum) := deepcopy h projection_head in
  let h := deactivate_requires_grad h backbone_momentum in
  let h := deactivate_requires_grad h projection_head_momentum in
  (h, Build backbone projection_head backbone_momentum projection_head_momentum).

(** [configure_optimizers]: SGD with momentum and weight decay over
    [self.parameters()]. *)
Definition configure_optimizers (self : t) : module := parameters self.

(** A well-formed model on a heap: its parameters are distinct allocated
    tensors, each momentum network has the shape of its online network,
    and the momentum parameters are frozen. *)
Record wf (h : heap) (self : t) : Prop := Wf {
  wf_nodup : NoDup (parameters self);
  wf_alloc : Forall (λ i, i < length h) (parameters self);
  wf_backbone : length (backbone_momentum self) = length (backbone self);
  wf_head : length (projection_head_momentum self) = length (projection_head self);
  wf_frozen :
    Forall (λ i, requires_grad <$> h !! i = Some false) (momentum_parameters self)
}.

Section Forward.
(** The forward computations of the networks, as functions of the
    parameter values, and the loss; each of these calls returns or
    raises. [backbone_fwd] includes [.flatten(start_dim=1)]. The memory
    bank the loss object keeps holds no parameter and is left out. *)
Context {image feature embedding : Type}.
Variable backbone_fwd : list float32 → list image → Exn.t + list feature.
Variable head_fwd : list float32 → list feature → Exn.t + list embedding.
Variable criterion : list embedding → list embedding → Exn.t + float32.

Record step_output := StepOutput {
  q_out : list embedding;
  k_out : list embedding;
  loss : float32
}.

(** The key branch of [training_step]. *)
Definition keys (h : heap) (self : t) (randperm : nat → list nat)
    (x_k : list image) : Exn.t + list embedding :=
  '(k, shuffle) ← Exn.lift Exn.IndexError (batch_shuffle randperm x_k);
  k ← backbone_fwd (read h (backbone_momentum self)) k;
  k ← head_fwd (read h (projection_head_momentum self)) k;
  Exn.lift Exn.IndexError (batch_unshuffle k shuffle).

(** [training_step(batch, batch_idx)] with [(x_q, x_k), _, _ = batch].
    The heap is returned even when a later call raises: the momentum
    update has already been written. *)
Definition training_step (h : heap) (self : t)
    (randperm : nat → list nat) (x_q x_k : list image)
    : heap * (Exn.t + step_output) :=
  let h := update_momentum h (backbone self) (backbone_momentum self)
             (literal 99 100) in
  let h := update_momentum h (projection_head self) (projection_head_momentum self)
             (literal 99 100) in
  (h, q ← backbone_fwd (read h (backbone self)) x_q;
      q ← head_fwd (read h (projection_head self)) q;
      k ← keys h self randperm x_k;
      loss ← criterion q k;
      mret (StepOutput q k loss)).

(** What one iteration of the trainer receives from outside: the
    batch, the permutation drawn, what [backward] and the optimizer do
    at this step, and whether the gradient scaler of [precision=16]
    found an infinite or NaN gradient. *)
Record iteration := Iteration {
  it_x_q : list image;
  it_x_k : list image;
  it_randperm : nat → list nat;
  it_descent : descent;
  it_found_inf : bool
}.

(** One iteration of [trainer.fit] under [precision=16]:
    [training_step], [backward], and [optimizer.step()] unless the
    scaler found an overflow. The exception of the call that raised
    ends the iteration. *)
Definition fit_iteration (self : t) (h : heap) (it : iteration)
    : heap * option Exn.t :=
  match training_step h self (it_randperm it) (it_x_q it) (it_x_k it) with
  | (h, inr _) =>
      match gradients (it_descent it) with
      | inl e => (h, Some e)
      | inr _ =>
          if it_found_inf it then (h, None)
          else backward_step h (configure_optimizers self) (it_descent it)
      end
  | (h, inl e) => (h, Some e)
  end.

(** [trainer.fit]: the iterations in order, up to the first exception. *)
Fixpoint fit (self : t) (h : heap) (its : list iteration) : heap * option Exn.t :=
  match its with
  | [] => (h, None)
  | it :: rest =>
      match fit_iteration self h it with
      | (h, None) => fit self h rest
      | (h, Some e) => (h, Some e)
      end
  end.

End Forward.
End MocoModel.

(** ** [class Classifier(pl.LightningModule)] *)

Module Classifier.
Import Torch Lightly.

Record t := Build {
  backbone : module;
  fc : module;
  validation_step_outputs : list (nat * Q)
}.

(** [__init__(backbone)]: freezes the given backbone, then creates
    [fc = nn.Linear(512, 10)] with initial values [fc_init]. *)
Definition __init__ (h : heap) (backbone : module) (fc_init : list float32) : heap * t :=
  let h := deactivate_requires_grad h backbone in
  let '(h, fc) := new_module h fc_init in
  (h, Build backbone fc []).

(** [configure_optimizers]: SGD over [self.fc.parameters()]. *)
Definition configure_optimizers (self : t) : module := fc self.

(** Outcome of [on_validation_epoch_end]. *)
Inductive epoch_end :=
| NothingLogged
| LoggedAccuracy (acc : Q)
| ZeroDivisor.

(** [total_correct / total_num]. *)
Definition true_divide (total_correct : Q) (total_num : nat) : epoch_end :=
  if decide (total_num = 0) then ZeroDivisor
  else LoggedAccuracy (total_correct / inject_Z (Z.of_nat total_num)).

(** The accumulation loop of [on_validation_epoch_end]. *)
Definition totals (outputs : list (nat * Q)) : nat * Q :=
  foldl (λ '(total_num, total_correct) '(num, correct),
           (total_num + num, (total_correct + correct)%Q))
        (0, 0%Q) outputs.

Definition on_validation_epoch_end (self : t) : t * epoch_end :=
  match validation_step_outputs self with
  | [] => (self, NothingLogged)
  | _ :: _ =>
      let '(total_num, total_correct) := totals (validation_step_outputs self) in
      let acc := true_divide total_correct total_num in
      (Build (backbone self) (fc self) [], acc)
  end.

Section Forward.
(** [classify] is one row of [forward] followed by softmax and
    [torch.max(_, 1)], as a function of the backbone and [fc] values. *)
Context {image : Type}.
Variable classify : list float32 → list float32 → image → nat.

(** [(predicted == y).float().sum()]: the comparison broadcasts. *)
Definition count_correct (predicted y : list nat) : Exn.t + Q :=
  pairs ← broadcast predicted y;
  mret (inject_Z (Z.of_nat (length (filter (λ p, p.1 = p.2) pairs)))).

(** [validation_step(batch, batch_idx)] with [x, y, _ = batch]. *)
Definition validation_step (h : heap) (self : t) (x : list image) (y : list nat)
    : Exn.t + (t * (nat * Q)) :=
  let predicted := classify (read h (backbone self)) (read h (fc self)) <$> x in
  let num := length predicted in
  correct ← count_correct predicted y;
  mret (Build (backbone self) (fc self) (validation_step_outputs self ++ [(num, correct)]),
        (num, correct)).

Record iteration := Iteration {
  it_grad : nat → float32;
  it_update : float32 → float32 → float32
}.

(** One iteration of [trainer.fit]: [training_step] computes the loss
    and leaves the heap alone; then [backward] and [optimizer.step()]
    of plain SGD, one rule for every parameter. *)
Definition fit_iteration (self : t) (h : heap) (it : iteration) : heap :=
  optimizer_step h (configure_optimizers self) (backward h (it_grad it))
    (λ _, it_update it).

Definition fit (self : t) (h : heap) (its : list iteration) : heap :=
  foldl (fit_iteration self) h its.

(** [validation_step] on the batches of a dataloader of labelled
    samples, in order: the default collation of a batch of samples gives
    [x] and [y] of the same length. *)
Fixpoint validation_steps (h : heap) (self : t)
    (dataloader : list (list (image * nat))) : Exn.t + t :=
  match dataloader with
  | [] => mret self
  | batch :: rest =>
      r ← validation_step h self batch.*1 batch.*2;
      validation_steps h r.1 rest
  end.

(** The validation loop of the trainer: [validation_step] on every
    batch, then [on_validation_epoch_end]. *)
Definition validation_loop (h : heap) (self : t)
    (dataloader : list (list (image * nat))) : Exn.t + (t * epoch_end) :=
  s ← validation_steps h self dataloader;
  mret (on_validation_epoch_end s).

(** States the validation loop can reach: batches come from a
    [DataLoader], hence are not empty. *)
Inductive reachable : t → Prop :=
| reach_init h backbone fc_init :
    reachable (__init__ h backbone fc_init).2
| reach_validation_step h self x y self' output :
    reachable self → x ≠ [] →
    validation_step h self x y = inr (self', output) →
    reachable self'
| reach_epoch_end self :
    reachable self →
    reachable (on_validation_epoch_end self).1.

End Forward.
End Classifier.

(** ** Control skeleton of the notebook code *)

Module Py.

(** An argument of a call or the right-hand side of an assignment. *)
Inductive arg :=
| Int (n : Z)
| Float (literal : string)
| Str (s : string)
| Bool (b : bool)
| Name (x : string)
| Expr.

(** Statements. A nested call expression is written as the sequence of
    its calls in evaluation order; a call on the value of the previous
    call has a callee that starts with a dot. *)
Inductive stmt :=
| Skip
| Seq (s1 s2 : stmt)
| Import (module : string)
| Assign (target : string) (value : arg)
| AugAssign (target : string)
| Call (target : option string) (callee : string)
       (args : list arg) (kwargs : list (string * arg))
| Return
| Raise (exn : string)
| If (cond : string) (body orelse : stmt)
| For (var iter : string) (body : stmt)
| Try (body handler : stmt).

Definition block (l : list stmt) : stmt := foldr Seq Skip l.

Record method := Method { method_name : string; method_body : list stmt }.

(** What a code cell holds at top level. *)
Inductive item :=
| Stmt (s : stmt)
| ClassDef (name base : string) (methods : list method).

Abbreviation cell := (list item).
Abbreviation notebook := (list cell).

(** *** Syntactic queries *)

Fixpoint branches (s : stmt) : bool :=
  match s with
  | Seq a b | Try a b => branches a || branches b
  | If _ _ _ => true
  | For _ _ a => branches a
  | _ => false
  end.

Fixpoint loops (s : stmt) : bool :=
  match s with
  | Seq a b | If _ a b | Try a b => loops a || loops b
  | For _ _ _ => true
  | _ => false
  end.

(** Error handling: a handler, or an exception raised by the code itself. *)
Fixpoint handles (s : stmt) : bool :=
  match s with
  | Seq a b | If _ a b => handles a || handles b
  | For _ _ a => handles a
  | Try _ _ | Raise _ => true
  | _ => false
  end.

Fixpoint returns (s : stmt) : bool :=
  match s with
  | Seq a b | If _ a b | Try a b => returns a || returns b
  | For _ _ a => returns a
  | Return => true
  | _ => false
  end.

Definition straight_line (s : stmt) : bool :=
  negb (branches s) && negb (loops s) && negb (handles s).

(** The calls of a statement, in textual order, with their keyword
    arguments. *)
Fixpoint calls (s : stmt) : list (string * list (string * arg)) :=
  match s with
  | Seq a b | If _ a b | Try a b => calls a ++ calls b
  | For _ _ a => calls a
  | Call _ f _ kw => [(f, kw)]
  | _ => []
  end.

Fixpoint imports (s : stmt) : list string :=
  match s with
  | Seq a b | If _ a b | Try a b => imports a ++ imports b
  | For _ _ a => imports a
  | Import m => [m]
  | _ => []
  end.

(** Top-level constant assignments [x = literal]. *)
Fixpoint constants (s : stmt) : list (string * arg) :=
  match s with
  | Seq a b => constants a ++ constants b
  | Assign x v => [(x, v)]
  | _ => []
  end.

(** The statements a cell runs, and the code units of a notebook: every
    cell and every method body. *)
Definition cell_stmts (c : cell) : list stmt :=
  omap (λ i, match i with Stmt s => Some s | ClassDef _ _ _ => None end) c.

Definition cell_methods (c : cell) : list (string * stmt) :=
  flat_map (λ i, match i with
                 | Stmt _ => []
                 | ClassDef name _ ms =>
                     (λ m, (name +:+ "." +:+ method_name m, block (method_body m))) <$> ms
                 end) c.

Definition program (nb : notebook) : stmt := block (flat_map cell_stmts nb).

Definition units (nb : notebook) : list stmt :=
  (block ∘ cell_stmts <$> nb) ++ (snd <$> flat_map cell_methods nb).

(** First entry of an association list under a key. *)
Definition assoc {A} (key : string) (l : list (string * A)) : option A :=
  snd <$> head (filter (λ entry, entry.1 = key) l).

Definition find_method (nb : notebook) (qualified : string) : option stmt :=
  assoc qualified (flat_map cell_methods nb).

(** The last top-level assignment [x = literal] of the notebook. *)
Definition constant (nb : notebook) (x : string) : option arg :=
  assoc x (reverse (constants (program nb))).

(** *** Runs *)

Inductive outcome := Normal | Returned | Raised (exn : string).

(** A call the run made, and the exception it raised if it failed. *)
Record event := Event { callee : string; raised : option string }.

(** What the code does not decide: which library call fails (by its
    position in the run), how a condition evaluates, and how many items
    an iterable yields. *)
Record world := World {
  fails : nat → option string;
  holds : string → nat → bool;
  trips : string → nat
}.

Definition perform (w : world) (f : string) (t : list event) : outcome * list event :=
  match fails w (length t) with
  | Some e => (Raised e, t ++ [Event f (Some e)])
  | None => (Normal, t ++ [Event f None])
  end.

Fixpoint iterate (n : nat) (body : list event → outcome * list event)
    (t : list event) : outcome * list event :=
  match n with
  | 0 => (Normal, t)
  | S n => match body t with
           | (Normal, t1) => iterate n body t1
           | r => r
           end
  end.

Fixpoint exec (w : world) (s : stmt) (t : list event) : outcome * list event :=
  match s with
  | Skip | Assign _ _ | AugAssign _ => (Normal, t)
  | Import m => perform w ("import " +:+ m) t
  | Call _ f _ _ => perform w f t
  | Return => (Returned, t)
  | Raise e => (Raised e, t)
  | Seq a b => match exec w a t with
               | (Normal, t1) => exec w b t1
               | r => r
               end
  | If c a b => if holds w c (length t) then exec w a t else exec w b t
  | For _ it a => iterate (trips w it) (exec w a) t
  | Try a h => match exec w a t with
               | (Raised _, t1) => exec w h t1
               | r => r
               end
  end.

Definition run (w : world) (nb : notebook) : outcome * list event :=
  exec w (program nb) [].

Definition succeeded (ev : event) : Prop := raised ev = None.

(** The shape of what a run adds to the trace: calls that succeeded,
    closed by the failed call when the outcome is its exception. *)
Definition extends (t : list event) (r : outcome * list event) : Prop :=
  ∃ new, r.2 = t ++ new ∧
    match r.1 with
    | Raised e => ∃ before f, new = before ++ [Event f (Some e)] ∧ Forall succeeded before
    | _ => Forall succeeded new
    end.

(** The names under which the calls and imports of a statement appear in
    a trace. *)
Definition called (s : stmt) : list string :=
  (fst <$> calls s) ++ ((λ m, "import " +:+ m) <$> imports s).

(** A unit lets every failed call through: the run of the unit ends
    with that exception and the failed call is the last one made. *)
Definition uncaught (s : stmt) : Prop :=
  ∀ w t out t', exec w s t = (out, t') →
    ∃ new, t' = t ++ new ∧
      ∀ f e, Event f (Some e) ∈ new →
        out = Raised e ∧ ∃ before, new = before ++ [Event f (Some e)] ∧ Forall succeeded before.

End Py.

(** ** [workspace/notebooks/MoCo_cifar-10.ipynb], code cells in order *)

Module MoCoNotebook.
Import Py.
#[local] Open Scope string_scope.

Definition imports_cell : cell := [
  Stmt (Import "copy");
  Stmt (Import "pytorch_lightning");
  Stmt (Import "torch");
  Stmt (Import "torch.nn");
  Stmt (Import "torchvision");
  Stmt (Import "lightly.data");
  Stmt (Import "lightly.loss");
  Stmt (Import "lightly.models.modules.heads");
  Stmt (Import "lightly.models.utils");
  Stmt (Import "lightly.transforms") ].

Definition configuration_cell : cell := [
  Stmt (Assign "num_workers" (Int 8));
  Stmt (Assign "batch_size" (Int 256));
  Stmt (Assign "memory_bank_size" (Int 1024));
  Stmt (Assign "seed" (Int 1));
  Stmt (Assign "max_epochs" (Int 10)) ].

Definition paths_cell : cell := [
  Stmt (Assign "path_to_train" (Str "/data/cifar-10-kaggle/cifar10/cifar10/train"));
  Stmt (Assign "path_to_test" (Str "/data/cifar-10-kaggle/cifar10/cifar10/test")) ].

Definition seed_cell : cell := [
  Stmt (Call None "pl.seed_everything" [Name "seed"] []) ].

Definition moco_transform_cell : cell := [
  Stmt (Call (Some "moco_transform") "MoCoV2Transform" []
          [("input_size", Int 32); ("gaussian_blur", Float "0.0")]) ].

Definition datasets_cell : cell := [
  Stmt (Call None "torchvision.transforms.RandomCrop" [Int 32] [("padding", Int 4)]);
  Stmt (Call None "torchvision.transforms.RandomHorizontalFlip" [] []);
  Stmt (Call None "torchvision.transforms.ToTensor" [] []);
  Stmt (Call None "torchvision.transforms.Normalize" [] [("mean", Expr); ("std", Expr)]);
  Stmt (Call (Some "train_classifier_transforms") "torchvision.transforms.Compose" [Expr] []);
  Stmt (Call None "torchvision.transforms.Resize" [Expr] []);
  Stmt (Call None "torchvision.transforms.ToTensor" [] []);
  Stmt (Call None "torchvision.transforms.Normalize" [] [("mean", Expr); ("std", Expr)]);
  Stmt (Call (Some "test_transforms") "torchvision.transforms.Compose" [Expr] []);
  Stmt (Call (Some "dataset_train_moco") "LightlyDataset" []
          [("input_dir", Name "path_to_train"); ("transform", Name "moco_transform")]);
  Stmt (Call (Some "dataset_train_classifier") "LightlyDataset" []
          [("input_dir", Name "path_to_train");
           ("transform", Name "train_classifier_transforms")]);
  Stmt (Call (Some "dataset_test") "LightlyDataset" []
          [("input_dir", Name "path_to_test"); ("transform", Name "test_transforms")]) ].

Definition dataloaders_cell : cell := [
  Stmt (Call (Some "dataloader_train_moco") "torch.utils.data.DataLoader"
          [Name "dataset_train_moco"]
          [("batch_size", Name "batch_size"); ("shuffle", Bool true);
           ("drop_last", Bool true); ("num_workers", Name "num_workers")]);
  Stmt (Call (Some "dataloader_train_classifier") "torch.utils.data.DataLoader"
          [Name "dataset_train_classifier"]
          [("batch_size", Name "batch_size"); ("shuffle", Bool true);
           ("drop_last", Bool true); ("num_workers", Name "num_workers")]);
  Stmt (Call (Some "dataloader_test") "torch.utils.data.DataLoader"
          [Name "dataset_test"]
          [("batch_size", Name "batch_size"); ("shuffle", Bool false);
           ("drop_last", Bool false); ("num_workers", Name "num_workers")]) ].

(** The helper both classes define to log weight histograms. *)
Definition custom_histogram_weights : method :=
  Method "custom_histogram_weights" [
    Call None "self.named_parameters" [] [];
    For "name, params" "self.named_parameters()"
      (Call None "self.logger.experiment.add_histogram"
         [Name "name"; Name "params"; Name "self.current_epoch"] []) ].

Definition on_train_epoch_end : method :=
  Method "on_train_epoch_end" [ Call None "self.custom_histogram_weights" [] [] ].

Definition MocoModel_class : item :=
  ClassDef "MocoModel" "pl.LightningModule" [
    Method "__init__" [
      Call None "super().__init__" [] [];
      Assign "self.num_ftrs" (Name "num_ftrs");
      Call (Some "mobilenet_v2") "torchvision.models.mobilenet_v2" [] [];
      Call None "mobilenet_v2.children" [] [];
      Call None "list" [Expr] [];
      Call None "nn.AdaptiveAvgPool2d" [] [("output_size", Expr)];
      Call None "nn.Flatten" [] [];
      Call None "nn.Linear" [Int 1280; Name "num_ftrs"] [("bias", Bool false)];
      Call (Some "self.backbone") "nn.Sequential" [Expr; Expr; Expr; Expr] [];
      Call (Some "self.projection_head") "MoCoProjectionHead"
        [Name "num_ftrs"; Int 512; Int 128] [];
      Call (Some "self.backbone_momentum") "copy.deepcopy" [Name "self.backbone"] [];
      Call (Some "self.projection_head_momentum") "copy.deepcopy"
        [Name "self.projection_head"] [];
      Call None "deactivate_requires_grad" [Name "self.backbone_momentum"] [];
      Call None "deactivate_requires_grad" [Name "self.projection_head_momentum"] [];
      Call (Some "self.criterion") "NTXentLoss" []
        [("temperature", Float "0.1"); ("memory_bank_size", Name "memory_bank_size")] ];
    Method "training_step" [
      Assign "(x_q, x_k), _, _" (Name "batch");
      Call None "update_momentum"
        [Name "self.backbone"; Name "self.backbone_momentum"; Float "0.99"] [];
      Call None "update_momentum"
        [Name "self.projection_head"; Name "self.projection_head_momentum"; Float "0.99"] [];
      Call None "self.backbone" [Name "x_q"] [];
      Call (Some "q") ".flatten" [] [("start_dim", Int 1)];
      Call (Some "q") "self.projection_head" [Name "q"] [];
      Call (Some "k, shuffle") "batch_shuffle" [Name "x_k"] [];
      Call None "self.backbone_momentum" [Name "k"] [];
      Call (Some "k") ".flatten" [] [("start_dim", Int 1)];
      Call (Some "k") "self.projection_head_momentum" [Name "k"] [];
      Call (Some "k") "batch_unshuffle" [Name "k"; Name "shuffle"] [];
      Call (Some "loss") "self.criterion" [Name "q"; Name "k"] [];
      Call None "self.log" [Str "train_loss_ssl"; Name "loss"] [];
      Return ];
    on_train_epoch_end;
    custom_histogram_weights;
    Method "configure_optimizers" [
      Call None "self.parameters" [] [];
      Call (Some "optim") "torch.optim.SGD" [Expr]
        [("lr", Float "6e-2"); ("momentum", Float "0.9"); ("weight_decay", Float "5e-4")];
      Call (Some "scheduler") "torch.optim.lr_scheduler.CosineAnnealingLR"
        [Name "optim"; Name "max_epochs"] [];
      Return ] ].

Definition Classifier_class : item :=
  ClassDef "Classifier" "pl.LightningModule" [
    Method "__init__" [
      Call None "super().__init__" [] [];
      Assign "self.backbone" (Name "backbone");
      Call None "deactivate_requires_grad" [Name "backbone"] [];
      Call (Some "self.fc") "nn.Linear" [Int 512; Int 10] [];
      Call (Some "self.criterion") "nn.CrossEntropyLoss" [] [];
      Assign "self.validation_step_outputs" Expr ];
    Method "forward" [
      Call None "self.backbone" [Name "x"] [];
      Call (Some "y_hat") ".flatten" [] [("start_dim", Int 1)];
      Call (Some "y_hat") "self.fc" [Name "y_hat"] [];
      Return ];
    Method "training_step" [
      Assign "x, y, _" (Name "batch");
      Call (Some "y_hat") "self.forward" [Name "x"] [];
      Call (Some "loss") "self.criterion" [Name "y_hat"; Name "y"] [];
      Call None "self.log" [Str "train_loss_fc"; Name "loss"] [];
      Return ];
    on_train_epoch_end;
    custom_histogram_weights;
    Method "validation_step" [
      Assign "x, y, _" (Name "batch");
      Call (Some "y_hat") "self.forward" [Name "x"] [];
      Call (Some "y_hat") "torch.nn.functional.softmax" [Name "y_hat"] [("dim", Int 1)];
      Call (Some "_, predicted") "torch.max" [Name "y_hat"; Int 1] [];
      Assign "num" Expr;
      Call None "(predicted == y).float" [] [];
      Call (Some "correct") ".sum" [] [];
      Call None "self.validation_step_outputs.append" [Expr] [];
      Return ];
    Method "on_validation_epoch_end" [
      If "self.validation_step_outputs"
        (block [
           Assign "total_num" (Int 0);
           Assign "total_correct" (Int 0);
           For "num, correct" "self.validation_step_outputs"
             (block [ AugAssign "total_num"; AugAssign "total_correct" ]);
           Assign "acc" Expr;
           Call None "self.log" [Str "val_acc"; Name "acc"]
             [("on_epoch", Bool true); ("prog_bar", Bool true)];
           Call None "self.validation_step_outputs.clear" [] [] ])
        Skip ];
    Method "configure_optimizers" [
      Call None "self.fc.parameters" [] [];
      Call (Some "optim") "torch.optim.SGD" [Expr] [("lr", Float "30.0")];
      Call (Some "scheduler") "torch.optim.lr_scheduler.CosineAnnealingLR"
        [Name "optim"; Name "max_epochs"] [];
      Return ] ].

Definition train_moco_cell : cell := [
  Stmt (Call (Some "model") "MocoModel" [] []);
  Stmt (Call (Some "trainer") "pl.Trainer" []
          [("max_epochs", Name "max_epochs"); ("devices", Int 1);
           ("accelerator", Str "gpu"); ("precision", Int 16)]);
  Stmt (Call None "trainer.fit" [Name "model"; Name "dataloader_train_moco"] []) ].

Definition train_classifier_cell : cell := [
  Stmt (Call None "model.eval" [] []);
  Stmt (Call (Some "classifier") "Classifier" [Name "model.backbone"] []);
  Stmt (Call (Some "trainer") "pl.Trainer" []
          [("max_epochs", Name "max_epochs"); ("devices", Int 1);
           ("accelerator", Str "gpu")]);
  Stmt (Call None "trainer.fit"
          [Name "classifier"; Name "dataloader_train_classifier"; Name "dataloader_test"]
          []) ].

Definition cells : notebook := [
  imports_cell; configuration_cell; paths_cell; seed_cell; moco_transform_cell;
  datasets_cell; dataloaders_cell; [MocoModel_class]; [Classifier_class];
  train_moco_cell; train_classifier_cell ].

(** The methods of the two subclasses that the training framework calls. *)
Definition hooks : list string := [
  "MocoModel.training_step"; "MocoModel.on_train_epoch_end";
  "MocoModel.configure_optimizers";
  "Classifier.training_step"; "Classifier.on_train_epoch_end";
  "Classifier.validation_step"; "Classifier.on_validation_epoch_end";
  "Classifier.configure_optimizers" ].

End MoCoNotebook.

(** ** The SimCLR notebook on a Detectron2 backbone, code cells in order *)

Module SimCLRNotebook.
Import Py.
#[local] Open Scope string_scope.

(** Two code cells hold only a comment. *)
Definition comment_cell : cell := [].

Definition imports_cell : cell := [
  Stmt (Import "torch");
  Stmt (Import "detectron2");
  Stmt (Import "detectron2.checkpoint");
  Stmt (Import "lightly.data");
  Stmt (Import "lightly.loss");
  Stmt (Import "lightly.models.modules");
  Stmt (Import "lightly.transforms") ].

Definition configuration_cell : cell := [
  Stmt (Assign "num_workers" (Int 8));
  Stmt (Assign "batch_size" (Int 128));
  Stmt (Assign "input_size" (Int 128));
  Stmt (Assign "num_ftrs" (Int 2048));
  Stmt (Assign "seed" (Int 1));
  Stmt (Assign "max_epochs" (Int 5));
  Stmt (Call None "torch.cuda.is_available" [] []);
  Stmt (If "torch.cuda.is_available()"
          (Assign "device" (Str "cuda")) (Assign "device" (Str "cpu"))) ].

Definition paths_cell : cell := [
  Stmt (Assign "data_path"
          (Str "/data/greiburg_groceries/freiburg_groceries_dataset/images"));
  Stmt (Assign "cfg_path" (Str "/workspace/Base-RCNN-FPN.yaml")) ].

Definition SelectStage_class : item :=
  ClassDef "SelectStage" "torch.nn.Module" [
    Method "__init__" [
      Call None "super().__init__" [] [];
      Assign "self.stage" (Name "stage") ];
    Method "forward" [ Return ] ].

Definition cfg_cell : cell := [
  Stmt (Call (Some "cfg") "config.get_cfg" [] []);
  Stmt (Call None "cfg.merge_from_file" [Name "cfg_path"] []);
  Stmt (Assign "cfg.MODEL.DEVICE" (Name "device"));
  Stmt (Assign "cfg.MODEL.WEIGHTS" (Str EmptyString));
  Stmt (Assign "cfg.INPUT.FORMAT" (Str "RGB")) ].

Definition backbone_cell : cell := [
  Stmt (Call (Some "detmodel") "modeling.build_model" [Name "cfg"] []);
  Stmt (Call None "SelectStage" [Str "res5"] []);
  Stmt (Call None "torch.nn.AdaptiveAvgPool2d" [Int 1] []);
  Stmt (Call None "torch.nn.Sequential"
          [Name "detmodel.backbone.bottom_up"; Expr; Expr] []);
  Stmt (Call (Some "simclr_backbone") ".to" [Name "device"] []) ].

Definition projection_head_cell : cell := [
  Stmt (Call None "SimCLRProjectionHead" []
          [("input_dim", Name "num_ftrs"); ("hidden_dim", Name "num_ftrs");
           ("output_dim", Int 128)]);
  Stmt (Call (Some "projection_head") ".to" [Name "device"] []) ].

Definition data_cell : cell := [
  Stmt (Call (Some "transform") "SimCLRTransform" [] [("input_size", Name "input_size")]);
  Stmt (Call (Some "dataset_train_simclr") "LightlyDataset" []
          [("input_dir", Name "data_path"); ("transform", Name "transform")]);
  Stmt (Call (Some "dataloader_train_simclr") "torch.utils.data.DataLoader"
          [Name "dataset_train_simclr"]
          [("batch_size", Name "batch_size"); ("shuffle", Bool true);
           ("drop_last", Bool true); ("num_workers", Name "num_workers")]) ].

Definition training_cell : cell := [
  Stmt (Call (Some "criterion") "NTXentLoss" [] []);
  Stmt (Call None "simclr_backbone.parameters" [] []);
  Stmt (Call None "list" [Expr] []);
  Stmt (Call None "projection_head.parameters" [] []);
  Stmt (Call None "list" [Expr] []);
  Stmt (Call (Some "optimizer") "torch.optim.Adam" [Expr] [("lr", Float "1e-4")]);
  Stmt (Call None "range" [Name "max_epochs"] []);
  Stmt (For "e" "range(max_epochs)"
          (block [
             Assign "mean_loss" (Float "0.0");
             For "(x0, x1), _, _" "dataloader_train_simclr"
               (block [
                  Call (Some "x0") "x0.to" [Name "device"] [];
                  Call (Some "x1") "x1.to" [Name "device"] [];
                  Call None "simclr_backbone" [Name "x0"] [];
                  Call None ".flatten" [] [("start_dim", Int 1)];
                  Call (Some "y0") "projection_head" [Expr] [];
                  Call None "simclr_backbone" [Name "x1"] [];
                  Call None ".flatten" [] [("start_dim", Int 1)];
                  Call (Some "y1") "projection_head" [Expr] [];
                  Call (Some "loss") "criterion" [Name "y0"; Name "y1"] [];
                  Call None "loss.backward" [] [];
                  Call None "optimizer.step" [] [];
                  Call None "optimizer.zero_grad" [] [];
                  Call None "loss.detach" [] [];
                  Call None ".cpu" [] [];
                  Call None ".item" [] [];
                  Call None "len" [Name "dataloader_train_simclr"] [];
                  AugAssign "mean_loss" ]);
             Call None "print" [Expr] [] ])) ].

Definition checkpoint_cell : cell := [
  Stmt (Assign "detmodel.backbone.bottom_up" Expr);
  Stmt (Call (Some "checkpointer") "DetectionCheckpointer" [Name "detmodel"]
          [("save_dir", Str "/workspace/weights")]);
  Stmt (Call None "checkpointer.save"
          [Str "resnet50-detectron-backbone-pre-train-detectron2"] []) ].

Definition cells : notebook := [
  comment_cell; imports_cell; configuration_cell; paths_cell; [SelectStage_class];
  cfg_cell; backbone_cell; projection_head_cell; data_cell; training_cell;
  checkpoint_cell; comment_cell ].

End SimCLRNotebook.

(** ** Reading the notebooks: pipeline stages, checkpoints, concurrency *)

Module Pipeline.
Import Py.
#[local] Open Scope string_scope.

Inductive op :=
| ConstructDataset
| ConstructDataloader
| SubclassTrainingFramework
| ConstructOptimizer
| ConstructScheduler
| TrainerFit
| OptimizerStepInCell
| SaveCheckpoint.

#[export] Instance op_eq_dec : EqDecision op.
Proof. solve_decision. Defined.

Definition op_of_callee (f : string) : option op :=
  if decide (f = "LightlyDataset") then Some ConstructDataset
  else if decide (f = "torch.utils.data.DataLoader") then Some ConstructDataloader
  else if decide (f = "torch.optim.SGD") then Some ConstructOptimizer
  else if decide (f = "torch.optim.Adam") then Some ConstructOptimizer
  else if decide (f = "torch.optim.lr_scheduler.CosineAnnealingLR")
       then Some ConstructScheduler
  else if decide (f = "trainer.fit") then Some TrainerFit
  else if decide (f = "optimizer.step") then Some OptimizerStepInCell
  else if decide (f = "checkpointer.save") then Some SaveCheckpoint
  else None.

Definition ops_of_stmt (s : stmt) : list op := omap (op_of_callee ∘ fst) (calls s).

Definition ops_of_item (i : item) : list op :=
  match i with
  | Stmt s => ops_of_stmt s
  | ClassDef _ base ms =>
      (if decide (base = "pl.LightningModule") then [SubclassTrainingFramework] else [])
      ++ flat_map (λ m, ops_of_stmt (block (method_body m))) ms
  end.

(** The operations of a notebook in the order of its text. *)
Definition ops (nb : notebook) : list op := flat_map (flat_map ops_of_item) nb.

(** Runs of the same operation count once. *)
Fixpoint stages (l : list op) : list op :=
  match l with
  | [] => []
  | x :: rest =>
      match rest with
      | y :: _ => if decide (x = y) then stages rest else x :: stages rest
      | [] => [x]
      end
  end.

(** The sequence the specification gives for both notebooks. *)
Definition pipeline : list op := [
  ConstructDataset; ConstructDataloader; SubclassTrainingFramework;
  ConstructOptimizer; ConstructScheduler; TrainerFit; SaveCheckpoint ].

(** [p] occurs in [l], in this order. *)
Fixpoint occurs_in_order (p l : list op) : bool :=
  match p, l with
  | [], _ => true
  | _ :: _, [] => false
  | x :: p', y :: l' =>
      if decide (x = y) then occurs_in_order p' l' else occurs_in_order p l'
  end.

Definition performs_pipeline (nb : notebook) : Prop :=
  occurs_in_order pipeline (ops nb) = true.

(** Calls that write a model checkpoint. *)
Definition is_checkpoint_save (f : string) : bool :=
  bool_decide (f = "checkpointer.save" ∨ f = "torch.save" ∨
               f = "trainer.save_checkpoint").

Definition checkpoint_saves (t : list event) : list event :=
  filter (λ ev, is_checkpoint_save (callee ev) = true) t.

(** Calls of the hand-written training loop. *)
Definition is_training_call (f : string) : bool :=
  bool_decide (f = "loss.backward" ∨ f = "optimizer.step" ∨
               f = "optimizer.zero_grad" ∨ f = "trainer.fit").

(** A world in which no library call fails. *)
Definition quiet (w : world) : Prop := ∀ k, fails w k = None.

(** Modules and calls that create threads, processes or locks. *)
Definition concurrency_modules : list string := [
  "threading"; "_thread"; "multiprocessing"; "concurrent"; "asyncio";
  "subprocess"; "torch.multiprocessing"; "torch.distributed"; "os" ].

Definition names_concurrency (name : string) : bool :=
  existsb (λ m, String.eqb name m || String.prefix (m +:+ ".") name)
    concurrency_modules.

(** The call passes the keyword argument [key]. *)
Definition passes (key : string) (c : string * list (string * arg)) : bool :=
  match assoc key c.2 with
  | Some _ => true
  | None => false
  end.

(** Every call of a notebook, cells and methods alike. *)
Definition all_calls (nb : notebook) : list (string * list (string * arg)) :=
  flat_map calls (units nb).

Definition all_imports (nb : notebook) : list string :=
  flat_map imports (units nb).

Definition dataloader_calls (nb : notebook) : list (list (string * arg)) :=
  snd <$> filter (λ c, c.1 = "torch.utils.data.DataLoader") (all_calls nb).

(** The value a keyword argument has once a name is resolved against the
    configuration cell. *)
Definition resolve (nb : notebook) (a : arg) : option arg :=
  match a with
  | Name x => constant nb x
  | _ => Some a
  end.

End Pipeline.

(** ** The container: [Dockerfile] and [docker-compose.yaml] *)

Module Container.
#[local] Open Scope string_scope.

#[local] Unset Elimination Schemes.
Inductive yaml :=
| Scalar (s : string)
| Sequence (items : list yaml)
| Mapping (entries : list (string * yaml)).
#[local] Set Elimination Schemes.

Definition docker_compose : yaml :=
  Mapping [
    ("version", Scalar "3.9");
    ("services", Mapping [
      ("main", Mapping [
        ("container_name", Scalar "${USER_NAME}-${PROJECT_NAME}");
        ("image", Scalar "${PROJECT_NAME}:${USER_NAME}");
        ("build", Scalar ".");
        ("user", Scalar "${UID}:${GID}");
        ("environment", Sequence [
           Scalar "DISPLAY=$DISPLAY";
           Scalar "TORCH_HOME=${DATA}";
           Scalar "HOME=/workspace/.home" ]);
        ("volumes", Sequence [
           Scalar "/tmp/.X11-unix:/tmp/.X11-unix";
           Scalar "/dev:/dev";
           Scalar "/etc/passwd:/etc/passwd";
           Mapping [("type", Scalar "bind"); ("source", Scalar "./workspace");
                    ("target", Scalar "/workspace")];
           Mapping [("type", Scalar "bind"); ("source", Scalar "${DATA}");
                    ("target", Scalar "/data");
                    ("volume", Mapping [("nocopy", Scalar "true")])] ]);
        ("deploy", Mapping [
           ("resources", Mapping [
              ("limits", Mapping [("cpus", Scalar "${CPU}");
                                  ("memory", Scalar "${MEMORY}")]);
              ("reservations", Mapping [
                 ("devices", Sequence [
                    Mapping [("driver", Scalar "nvidia");
                             ("capabilities", Sequence [Scalar "gpu"])] ])])])]);
        ("privileged", Scalar "true");
        ("command", Scalar "tail -F anything") ])])].

Definition get (key : string) (y : yaml) : option yaml :=
  match y with
  | Mapping entries => Py.assoc key entries
  | _ => None
  end.

Definition service : option yaml := get "services" docker_compose ≫= get "main".

Definition scalar (y : yaml) : option string :=
  match y with Scalar s => Some s | _ => None end.

(** The command of the service, split into words. *)
Definition command : option (list string) :=
  s ← service; c ← get "command" s; text ← scalar c; Some (String.words text).

(** Keys of a service that give it a network-facing interface. *)
Definition network_keys : list string :=
  ["ports"; "expose"; "network_mode"; "networks"].

Inductive instruction :=
| FROM (image : string)
| LABEL (text : string)
| RUN (text : string)
| WORKDIR (path : string)
| ENV (text : string)
| COPY (source target : string)
| EXPOSE (port : string)
| CMD (text : string)
| ENTRYPOINT (text : string).

Definition Dockerfile : list instruction := [
  FROM "pytorchlightning/pytorch_lightning:base-cuda-py3.9-torch1.13-cuda11.7.1";
  LABEL "maintainer=Condados";
  LABEL "version=v1.0.0";
  LABEL "description=My base docker image";
  RUN ("apt-get update --fix-missing && apt-get install -y v4l-utils libopencv-dev " +:+
       "ffmpeg libsm6 libxext6 wget bzip2 ca-certificates cmake build-essential byobu " +:+
       "curl git-core htop pkg-config python3-dev python3-pip python3-setuptools " +:+
       "python3-virtualenv unzip graphviz iputils-ping && apt-get clean && " +:+
       "rm -rf /var/lib/apt/lists/*");
  RUN "mkdir /workspace";
  RUN "chmod -R a+rwx /workspace";
  WORKDIR "/workspace";
  ENV "HOME=/home";
  RUN "chmod -R a+rwx /home";
  RUN "mkdir /datasets && chmod -R a+rwx /datasets";
  COPY "./requirements.txt" "/workspace/requirements.txt";
  RUN "python3 -m pip install --upgrade pip";
  RUN "pip3 install --no-cache-dir --upgrade -r /workspace/requirements.txt";
  ENV "PYTHONUNBUFFERED=TRUE";
  ENV "PYTHONDONTWRITEBYTECODE=TRUE";
  ENV "PATH=/workspace:${PATH}";
  ENV "PYTHONPATH ${PYTHONPATH}:/workspace";
  ENV "SHELL=/bin/bash" ].

Fixpoint contains (needle text : string) : bool :=
  String.prefix needle text ||
  match text with
  | EmptyString => false
  | String _ rest => contains needle rest
  end.

(** The instruction writes something whose text mentions [name]. *)
Definition writes (name : string) (i : instruction) : bool :=
  match i with
  | RUN text => contains name text
  | COPY _ target => contains name target
  | _ => false
  end.

(** The instruction makes the image start or announce a service. *)
Definition serves (i : instruction) : bool :=
  match i with
  | EXPOSE _ | CMD _ | ENTRYPOINT _ => true
  | _ => false
  end.

(** *** [tail], as its manual describes it

    [-f] follows the file, [--retry] keeps trying to open a file that is
    not there, [-F] is [--follow=name --retry]. *)

Record invocation := Invocation {
  follow : bool;
  retry : bool;
  files : list string
}.

Fixpoint parse_args (args : list string) (i : invocation) : invocation :=
  match args with
  | [] => i
  | a :: rest =>
      parse_args rest
        (if decide (a = "-F") then Invocation true true (files i)
         else if decide (a = "-f") then Invocation true (retry i) (files i)
         else if decide (a = "--retry") then Invocation (follow i) true (files i)
         else Invocation (follow i) (retry i) (files i ++ [a]))
  end.

Definition parse (argv : list string) : option invocation :=
  match argv with
  | program :: args =>
      if decide (program = "tail") then Some (parse_args args (Invocation false false []))
      else None
  | [] => None
  end.

Inductive process := Running | Exited (code : nat).

(** One round of [tail]; [first] tells whether this is the round in
    which [tail] opens the file, [present] whether the file exists now.
    Following without [--retry] gives up only when the file cannot be
    opened; once open, the file is followed whatever becomes of its
    name. *)
Definition round (i : invocation) (first present : bool) (p : process) : process :=
  match p with
  | Exited code => Exited code
  | Running =>
      if follow i then
        if retry i then Running
        else if first then (if present then Running else Exited 1)
        else Running
      else
        if present then Exited 0 else Exited 1
  end.

Fixpoint after (i : invocation) (present : nat → bool) (rounds : nat) : process :=
  match rounds with
  | 0 => Running
  | S n => round i (bool_decide (n = 0)) (present n) (after i present n)
  end.

(** The main process of the container after a number of rounds. *)
Definition container (present : nat → bool) (rounds : nat) : option process :=
  argv ← command; i ← parse argv; Some (after i present rounds).

End Container.

(** ** The SimCLR notebook at the level of data *)

(** [class SelectStage(torch.nn.Module)] *)
Module SelectStage.
#[local] Open Scope string_scope.

Record t := Build { stage : string }.

(** [__init__(self, stage: str = "res5")]. *)
Definition __init__ (stage : option string) : t := Build (default "res5" stage).

(** [forward(self, x)]: [return x[self.stage]]; a missing key raises. *)
Definition forward {F} (self : t) (x : gmap string F) : Exn.t + F :=
  match x !! stage self with
  | Some features => inr features
  | None => inl (Exn.KeyError (stage self))
  end.

End SelectStage.

Module SimCLR.
Import Torch.
#[local] Open Scope string_scope.

(** The detection model [modeling.build_model(cfg)]: the ResNet under
    [detmodel.backbone.bottom_up] and all its other parameters. *)
Record detmodel := Detmodel { bottom_up : module; other : module }.

(** The children of [simclr_backbone]; only the first has parameters. *)
Inductive layer :=
| BottomUp (m : module)
| Select (s : SelectStage.t)
| AdaptiveAvgPool2d (output_size : nat).

Definition layer_parameters (l : layer) : module :=
  match l with
  | BottomUp m => m
  | Select _ | AdaptiveAvgPool2d _ => []
  end.

(** [torch.nn.Sequential(detmodel.backbone.bottom_up, SelectStage("res5"),
    torch.nn.AdaptiveAvgPool2d(1))]. *)
Definition simclr_backbone (d : detmodel) : list layer :=
  [ BottomUp (bottom_up d);
    Select (SelectStage.__init__ (Some "res5"));
    AdaptiveAvgPool2d 1 ].

Definition parameters (s : list layer) : module := flat_map layer_parameters s.

(** The parameter list handed to Adam:
    [list(simclr_backbone.parameters()) + list(projection_head.parameters())]. *)
Definition optimizer_params (d : detmodel) (projection_head : module) : module :=
  parameters (simclr_backbone d) ++ projection_head.

(** [detmodel.backbone.bottom_up = simclr_backbone[0]]. *)
Definition restore_bottom_up (d : detmodel) (s : list layer) : Exn.t + detmodel :=
  match s !! 0 with
  | Some l => inr (Detmodel (layer_parameters l) (other d))
  | None => inl Exn.IndexError
  end.

(** What [checkpointer.save] writes of the detection model: the values
    of its parameters. *)
Definition checkpoint (h : heap) (d : detmodel) : list float32 * list float32 :=
  (read h (bottom_up d), read h (other d)).

Definition Qsum (l : list Q) : Q := foldr Qplus 0%Q l.

(** [a / n] with a Python integer divisor. *)
Definition true_divide (a : Q) (n : nat) : Exn.t + Q :=
  if decide (n = 0) then inl Exn.ZeroDivisionError
  else inr (a / inject_Z (Z.of_nat n))%Q.

Section Forward.
(** The calls of the loop body into the networks and the loss; each
    returns or raises. [criterion] gives the loss as the number
    [loss.detach().cpu().item()] reads. *)
Context {image feature embedding : Type}.
Variable bottom_up_fwd : list float32 → list image → Exn.t + gmap string feature.
Variable pool : nat → feature → Exn.t + feature.
Variable flatten : feature → Exn.t + feature.
Variable head_fwd : list float32 → feature → Exn.t + embedding.
Variable criterion : embedding → embedding → Exn.t + Q.

(** What flows between the children of the [Sequential]. *)
Inductive value :=
| Images (x : list image)
| Stages (x : gmap string feature)
| Features (x : feature).

Definition layer_forward (h : heap) (l : layer) (v : value) : Exn.t + value :=
  match l, v with
  | BottomUp m, Images x => s ← bottom_up_fwd (read h m) x; mret (Stages s)
  | Select s, Stages x => f ← SelectStage.forward s x; mret (Features f)
  | AdaptiveAvgPool2d n, Features f => f ← pool n f; mret (Features f)
  | _, _ => inl Exn.TypeError
  end.

(** [Sequential.forward]: the children in order. *)
Fixpoint forward (h : heap) (s : list layer) (v : value) : Exn.t + value :=
  match s with
  | [] => mret v
  | l :: rest => v ← layer_forward h l v; forward h rest v
  end.

(** [projection_head(simclr_backbone(x).flatten(start_dim=1))]. *)
Definition project (h : heap) (d : detmodel) (projection_head : module)
    (x : list image) : Exn.t + embedding :=
  v ← forward h (simclr_backbone d) (Images x);
  match v with
  | Features f => f ← flatten f; head_fwd (read h projection_head) f
  | _ => inl Exn.TypeError
  end.

(** What one round of the inner loop receives: what the dataloader
    yields, moved to the device (the two views, or the exception raised
    on the way), and what [backward] and Adam do at this step. *)
Record iteration := Iteration {
  it_batch : Exn.t + (list image * list image);
  it_descent : descent
}.

(** The body of the inner loop up to [optimizer.zero_grad()]; returns the
    loss. *)
Definition step (h : heap) (d : detmodel) (projection_head : module)
    (it : iteration) : heap * (Exn.t + Q) :=
  match '(x0, x1) ← it_batch it;
        y0 ← project h d projection_head x0;
        y1 ← project h d projection_head x1;
        criterion y0 y1 with
  | inl e => (h, inl e)
  | inr loss =>
      match backward_step h (optimizer_params d projection_head) (it_descent it) with
      | (h, Some e) => (h, inl e)
      | (h, None) => (h, inr loss)
      end
  end.

(** The inner loop; [len] is [len(dataloader_train_simclr)]. *)
Fixpoint batches (len : nat) (h : heap) (d : detmodel) (projection_head : module)
    (mean_loss : Q) (its : list iteration) : heap * (Exn.t + Q) :=
  match its with
  | [] => (h, inr mean_loss)
  | it :: rest =>
      match step h d projection_head it with
      | (h, inl e) => (h, inl e)
      | (h, inr loss) =>
          match true_divide loss len with
          | inl e => (h, inl e)
          | inr share => batches len h d projection_head (mean_loss + share)%Q rest
          end
      end
  end.

(** One round of the outer loop: [mean_loss = 0.0], the inner loop over
    the dataloader, and the value printed. *)
Definition epoch (h : heap) (d : detmodel) (projection_head : module)
    (dataloader : list iteration) : heap * (Exn.t + Q) :=
  batches (length dataloader) h d projection_head 0%Q dataloader.

(** The rounds of the inner loop by themselves: the heap they leave, the
    losses of the rounds that completed, and the exception of the round
    that raised, if one did. *)
Fixpoint rounds (h : heap) (d : detmodel) (projection_head : module)
    (its : list iteration) : heap * list Q * option Exn.t :=
  match its with
  | [] => (h, [], None)
  | it :: rest =>
      match step h d projection_head it with
      | (h, inr loss) =>
          let '(h, losses, raised) := rounds h d projection_head rest in
          (h, loss :: losses, raised)
      | (h, inl e) => (h, [], Some e)
      end
  end.

(** The outer loop: one dataloader pass per epoch; returns the mean
    losses printed. *)
Fixpoint train (h : heap) (d : detmodel) (projection_head : module)
    (epochs : list (list iteration)) : heap * (Exn.t + list Q) :=
  match epochs with
  | [] => (h, inr [])
  | dataloader :: rest =>
      match epoch h d projection_head dataloader with
      | (h, inl e) => (h, inl e)
      | (h, inr mean_loss) =>
          match train h d projection_head rest with
          | (h, inr printed) => (h, inr (mean_loss :: printed))
          | (h, inl e) => (h, inl e)
          end
      end
  end.

End Forward.
End SimCLR.

(** ** Validation accuracy, sample by sample *)

Module Accuracy.
Import Torch Classifier.

Section Forward.
Context {image : Type}.
Variable classify : list float32 → list float32 → image → nat.

(** The samples whose predicted class is their label. *)
Definition correct (h : heap) (self : t) (samples : list (image * nat)) : nat :=
  length (filter (λ s, classify (read h (backbone self)) (read h (fc self)) s.1 = s.2)
            samples).

(** What [validation_step] appends for a batch of labelled samples. *)
Definition batch_output (h : heap) (self : t) (batch : list (image * nat)) : nat * Q :=
  (length batch, inject_Z (Z.of_nat (correct h self batch))).

End Forward.
End Accuracy.

(** ** Counting the calls of a run *)

Module Count.
Import Py.

(** How often [f] was called in a trace. *)
Definition count (f : string) (t : list event) : nat :=
  length (filter (λ ev, callee ev = f) t).

(** How often code without conditionals calls [f] when it runs to its
    end. *)
Fixpoint made (w : world) (f : string) (s : stmt) : nat :=
  match s with
  | Call _ g _ _ => if decide (g = f) then 1 else 0
  | Import m => if decide ("import " +:+ m = f) then 1 else 0
  | Seq a b => made w f a + made w f b
  | For _ it a => trips w it * made w f a
  | _ => 0
  end.

End Count.

(** ** Paths of the notebooks and mounts of the service *)

Module Mounts.
Import Py Container.
#[local] Open Scope string_scope.

Definition arg_strings (a : arg) : list string :=
  match a with
  | Str s => [s]
  | _ => []
  end.

(** The string literals of a statement. *)
Fixpoint literals (s : stmt) : list string :=
  match s with
  | Seq a b | If _ a b | Try a b => literals a ++ literals b
  | For _ _ a => literals a
  | Assign _ v => arg_strings v
  | Call _ _ args kw => flat_map arg_strings args ++ flat_map (arg_strings ∘ snd) kw
  | _ => []
  end.

Definition is_absolute (path : string) : bool := String.prefix "/" path.

(** The absolute paths a notebook names, cells and methods alike. *)
Definition paths (nb : notebook) : list string :=
  filter (λ s, is_absolute s = true) (flat_map literals (units nb)).

(** What follows the first colon of [source:target]. *)
Fixpoint after_colon (s : string) : string :=
  match s with
  | EmptyString => EmptyString
  | String c rest => if String.eqb (String c EmptyString) ":" then rest else after_colon rest
  end.

(** The container path of a volume entry, short or long syntax. *)
Definition target (volume : yaml) : option string :=
  match volume with
  | Scalar s => Some (after_colon s)
  | Mapping _ => get "target" volume ≫= scalar
  | Sequence _ => None
  end.

Definition targets : list string :=
  match service ≫= get "volumes" with
  | Some (Sequence volumes) => omap target volumes
  | _ => []
  end.

(** The path is a mount target or lies below one. *)
Definition mounted (path : string) : bool :=
  existsb (λ m, String.eqb path m || String.prefix (m +:+ "/") path) targets.

End Mounts.

(* ================================================================== *)
(** * Part II. Properties                                              *)
(* ================================================================== *)

(** Checks a property of every element of a literal list by evaluation. *)
Ltac check_each :=
  repeat (constructor; [by vm_compute|]); constructor.

(** ** Row selection, [argsort] and the shuffle round trip *)

Section Shuffle.
Import Torch Lightly.

#[local] Instance key_le_total : Total key_le.
Proof. intros [a ?] [b ?]. unfold key_le; simpl. lia. Qed.

#[local] Instance key_le_trans : Transitive key_le.
Proof. intros [a ?] [b ?] [c ?]. unfold key_le; simpl. lia. Qed.

Lemma index_select_length {A} (b b' : list A) idx :
  index_select b idx = Some b' → length b' = length idx.
Proof.
  intros H. apply mapM_Some_1, Forall2_length in H. done.
Qed.

Lemma index_select_lookup {A} (b b' : list A) idx j i :
  index_select b idx = Some b' → idx !! j = Some i → b' !! j = b !! i.
Proof.
  intros H Hj. apply mapM_Some_1 in H.
  destruct (Forall2_lookup_l _ _ _ _ _ H Hj) as (y & Hy & Hb).
  by rewrite Hy, Hb.
Qed.

Lemma seq_strongly_sorted k n : StronglySorted le (seq k n).
Proof.
  revert k. induction n as [|n IH]; intros k; simpl; constructor; [apply IH|].
  apply Forall_forall. intros x Hx. apply elem_of_seq in Hx. lia.
Qed.

Lemma keys_strongly_sorted (s : list (nat * nat)) :
  StronglySorted key_le s → StronglySorted le (fst <$> s).
Proof.
  induction 1 as [|a s Hs IH Hall]; simpl; constructor; [done|].
  apply Forall_fmap. eapply Forall_impl; [exact Hall|]. by intros [??].
Qed.

(** The keys of the sorted pairs of a permutation are [0 .. n-1]. *)
Lemma sorted_keys_of_permutation (perm : list nat) :
  perm ≡ₚ seq 0 (length perm) →
  fst <$> merge_sort key_le (zip perm (seq 0 (length perm))) = seq 0 (length perm).
Proof.
  intros Hperm.
  apply (StronglySorted_unique le).
  - apply keys_strongly_sorted, (StronglySorted_merge_sort key_le).
  - apply seq_strongly_sorted.
  - rewrite merge_sort_Permutation, fst_zip; [done|].
    by rewrite length_seq.
Qed.

Lemma sorted_pair_lookup (perm : list nat) k j :
  (k, j) ∈ merge_sort key_le (zip perm (seq 0 (length perm))) →
  perm !! j = Some k.
Proof.
  rewrite merge_sort_Permutation. intros Hin.
  apply list_elem_of_lookup in Hin as [i Hi].
  apply lookup_zip_Some in Hi as [Hk Hj].
  apply lookup_seq in Hj as [-> _]. done.
Qed.

(** [argsort] of a permutation is its inverse: position [k] of the result
    is where [k] sits in the permutation. *)
Lemma argsort_lookup (perm : list nat) k j :
  perm ≡ₚ seq 0 (length perm) →
  argsort perm !! k = Some j → perm !! j = Some k.
Proof.
  intros Hperm Hk. unfold argsort in Hk.
  apply list_lookup_fmap_Some in Hk as ([k' j'] & Hj & Hs); simpl in *; subst.
  pose proof (sorted_keys_of_permutation perm Hperm) as Hkeys.
  assert (fst <$> (merge_sort key_le (zip perm (seq 0 (length perm))) !! k) = Some k') as Hk'
    by (by rewrite Hs).
  rewrite <- list_lookup_fmap, Hkeys in Hk'.
  apply lookup_seq in Hk' as [? _]; simpl in *; subst.
  eapply sorted_pair_lookup, list_elem_of_lookup_2, Hs.
Qed.

Lemma argsort_length (v : list nat) : length (argsort v) = length v.
Proof.
  unfold argsort. rewrite length_fmap, merge_sort_Permutation, length_zip, length_seq. lia.
Qed.

Lemma argsort_Permutation (v : list nat) : argsort v ≡ₚ seq 0 (length v).
Proof.
  unfold argsort. rewrite merge_sort_Permutation, snd_zip; [done|].
  rewrite length_seq. lia.
Qed.

(** Unshuffling with the indices of the shuffle gives back the batch. *)
Lemma batch_unshuffle_inverts {A} (batch shuffled : list A) (shuffle : list nat) :
  shuffle ≡ₚ seq 0 (length batch) →
  index_select batch shuffle = Some shuffled →
  batch_unshuffle shuffled shuffle = Some batch.
Proof.
  intros Hperm Hsel.
  assert (length shuffle = length batch) as Hlen
    by (by rewrite Hperm, length_seq).
  rewrite <- Hlen in Hperm.
  unfold batch_unshuffle, index_select. apply mapM_Some.
  apply Forall2_same_length_lookup_2.
  - rewrite argsort_length. done.
  - intros k j y Hk Hy.
    apply (argsort_lookup _ _ _ Hperm) in Hk.
    by rewrite (index_select_lookup _ _ _ _ _ Hsel Hk).
Qed.

End Shuffle.

(** ** Heap lemmas: what each library operation writes *)

Section HeapFacts.
Import Torch Lightly.

Lemma deactivate_length h m : length (deactivate_requires_grad h m) = length h.
Proof.
  unfold deactivate_requires_grad. revert h.
  induction m as [|p m IH]; intros h; simpl; [done|].
  by rewrite IH, length_alter.
Qed.

Lemma deactivate_lookup h m i :
  deactivate_requires_grad h m !! i =
  if decide (i ∈ m) then (λ t, Tensor (data t) false) <$> h !! i else h !! i.
Proof.
  unfold deactivate_requires_grad. revert h.
  induction m as [|p m IH]; intros h.
  - done.
  - simpl foldl. rewrite IH, list_lookup_alter.
    destruct (decide (i ∈ m)) as [Hin|Hnin];
      destruct (decide (p = i)) as [->|Hne];
      destruct (decide (i ∈ _ :: m)) as [Hin'|Hnin']; try done.
    + by destruct (h !! i).
    + exfalso. apply Hnin'. by left.
    + exfalso. apply Hnin'. by right.
    + exfalso. apply Hnin'. by left.
    + apply elem_of_cons in Hin' as [->|?]; done.
Qed.

Lemma deactivate_data h m i :
  data <$> deactivate_requires_grad h m !! i = data <$> h !! i.
Proof.
  rewrite deactivate_lookup. case_decide; [|done]. by destruct (h !! i).
Qed.

Lemma read_ext h h' m :
  (∀ i, i ∈ m → data <$> h !! i = data <$> h' !! i) → read h m = read h' m.
Proof.
  intros Hext. unfold read. apply list_omap_ext, Forall_Forall2_diag.
  by apply Forall_forall.
Qed.

Lemma read_deactivate h m m' : read (deactivate_requires_grad h m) m' = read h m'.
Proof. apply read_ext. intros i _. apply deactivate_data. Qed.

Lemma omap_cons_Some {A B} (f : A → option B) x y l :
  f x = Some y → omap f (x :: l) = y :: omap f l.
Proof. intros Hx. simpl. by rewrite Hx. Qed.

Lemma omap_lookup_seq {A} (l1 l2 l3 : list A) :
  omap (λ i, (l1 ++ l2 ++ l3) !! i) (seq (length l1) (length l2)) = l2.
Proof.
  revert l1. induction l2 as [|x l2 IH]; intros l1; [done|].
  cbn [length seq].
  rewrite (omap_cons_Some _ _ x) by (by apply list_lookup_middle).
  f_equal. specialize (IH (l1 ++ [x])).
  assert ((l1 ++ [x]) ++ l2 ++ l3 = l1 ++ (x :: l2) ++ l3) as E
    by (by rewrite <- app_assoc).
  rewrite E, length_app, Nat.add_1_r in IH. exact IH.
Qed.

Lemma read_seq (l1 l2 l3 : heap) :
  read (l1 ++ l2 ++ l3) (seq (length l1) (length l2)) = data <$> l2.
Proof.
  unfold read. revert l1. induction l2 as [|x l2 IH]; intros l1; [done|].
  cbn [length seq].
  assert ((l1 ++ (x :: l2) ++ l3) !! length l1 = Some x) as Hx
    by (by apply list_lookup_middle).
  rewrite (omap_cons_Some _ _ (data x)) by (by rewrite Hx).
  rewrite fmap_cons. f_equal. specialize (IH (l1 ++ [x])).
  assert ((l1 ++ [x]) ++ l2 ++ l3 = l1 ++ (x :: l2) ++ l3) as E
    by (by rewrite <- app_assoc).
  rewrite E, length_app, Nat.add_1_r in IH. exact IH.
Qed.

(** Reading a module whose ids are allocated. *)
Lemma read_lookup h m :
  Forall (λ i, i < length h) m →
  length (read h m) = length m ∧
  ∀ j i, m !! j = Some i → ∃ t, h !! i = Some t ∧ read h m !! j = Some (data t).
Proof.
  unfold read. induction 1 as [|i m Hi Hm [IHlen IH]]; [done|].
  destruct (lookup_lt_is_Some_2 h i Hi) as [t Ht].
  rewrite (omap_cons_Some _ _ (data t)) by (by rewrite Ht).
  split; [cbn [length]; by rewrite IHlen|].
  intros [|j] i' Hj.
  - injection Hj as <-. by exists t.
  - exact (IH j i' Hj).
Qed.

(** [optimizer.step()] *)

Lemma optimizer_step_length h params grad upd :
  length (optimizer_step h params grad upd) = length h.
Proof.
  unfold optimizer_step. revert h.
  induction params as [|p params IH]; intros h; simpl; [done|].
  rewrite IH. destruct (grad p); [apply length_alter|done].
Qed.

Lemma optimizer_step_skips h params grad upd i :
  grad i = None → optimizer_step h params grad upd !! i = h !! i.
Proof.
  unfold optimizer_step. intros Hnone. revert h.
  induction params as [|p params IH]; intros h; simpl; [done|].
  rewrite IH. destruct (grad p) eqn:Hp; [|done].
  apply list_lookup_alter_ne. congruence.
Qed.

Lemma optimizer_step_frame h params grad upd i :
  i ∉ params → optimizer_step h params grad upd !! i = h !! i.
Proof.
  unfold optimizer_step. revert h.
  induction params as [|p params IH]; intros h Hnin; simpl; [done|].
  apply not_elem_of_cons in Hnin as [Hne Hnin].
  rewrite IH by done. destruct (grad p); [|done].
  by apply list_lookup_alter_ne.
Qed.

Lemma optimizer_step_requires_grad h params grad upd i :
  requires_grad <$> optimizer_step h params grad upd !! i = requires_grad <$> h !! i.
Proof.
  unfold optimizer_step. revert h.
  induction params as [|p params IH]; intros h; simpl; [done|].
  rewrite IH. destruct (grad p); [|done].
  rewrite list_lookup_alter. case_decide; [subst|done]. by destruct (h !! i).
Qed.

(** A frozen parameter is never rewritten by the optimizer, even when it
    was handed to it. *)
Lemma optimizer_step_frozen h params g upd i :
  requires_grad <$> h !! i = Some false →
  optimizer_step h params (backward h g) upd !! i = h !! i.
Proof.
  intros Hrg. apply optimizer_step_skips. unfold backward.
  destruct (h !! i) as [t|]; [|done]. simpl in *.
  injection Hrg as ->. done.
Qed.

(** [loss.backward(); optimizer.step()], interrupted or not *)

Lemma backward_step_length h params d : length (backward_step h params d).1 = length h.
Proof.
  unfold backward_step. destruct (gradients d); [done|].
  destruct (interrupted d) as [[written e]|]; cbn [fst]; apply optimizer_step_length.
Qed.

Lemma backward_step_frame h params d i :
  i ∉ params → (backward_step h params d).1 !! i = h !! i.
Proof.
  intros Hi. unfold backward_step. destruct (gradients d); [done|].
  destruct (interrupted d) as [[written e]|]; cbn [fst]; apply optimizer_step_frame;
    [|done].
  intros Hin. apply list_elem_of_filter in Hin as [_ Hin]. done.
Qed.

Lemma backward_step_requires_grad h params d i :
  requires_grad <$> (backward_step h params d).1 !! i = requires_grad <$> h !! i.
Proof.
  unfold backward_step. destruct (gradients d); [done|].
  destruct (interrupted d) as [[written e]|]; cbn [fst];
    apply optimizer_step_requires_grad.
Qed.

Lemma backward_step_frozen h params d i :
  requires_grad <$> h !! i = Some false → (backward_step h params d).1 !! i = h !! i.
Proof.
  intros Hrg. unfold backward_step. destruct (gradients d); [done|].
  destruct (interrupted d) as [[written e]|]; cbn [fst];
    by apply optimizer_step_frozen.
Qed.

(** [update_momentum] *)

Lemma momentum_fold_length m h pairs :
  length (foldl (momentum_assign m) h pairs) = length h.
Proof.
  revert h. induction pairs as [|[e p] pairs IH]; intros h; simpl; [done|].
  rewrite IH. destruct (h !! p); [apply length_alter|done].
Qed.

Lemma momentum_fold_frame m h pairs i :
  i ∉ pairs.*1 → foldl (momentum_assign m) h pairs !! i = h !! i.
Proof.
  revert h. induction pairs as [|[e p] pairs IH]; intros h Hnin; simpl; [done|].
  simpl in Hnin. apply not_elem_of_cons in Hnin as [Hne Hnin].
  rewrite IH by done. destruct (h !! p); [|done].
  by apply list_lookup_alter_ne.
Qed.

Lemma momentum_fold_requires_grad m h pairs i :
  requires_grad <$> foldl (momentum_assign m) h pairs !! i = requires_grad <$> h !! i.
Proof.
  revert h. induction pairs as [|[e p] pairs IH]; intros h; simpl; [done|].
  rewrite IH. destruct (h !! p); [|done].
  rewrite list_lookup_alter. case_decide; [subst|done]. by destruct (h !! i).
Qed.

(** The assignment at position [j] writes the momentum rule, and no later
    assignment touches that parameter or reads a rewritten one. *)
Lemma momentum_fold_at m h pairs j e p te tp :
  NoDup pairs.*1 →
  (∀ x, x ∈ pairs.*2 → x ∉ pairs.*1) →
  pairs !! j = Some (e, p) →
  h !! e = Some te → h !! p = Some tp →
  foldl (momentum_assign m) h pairs !! e
  = Some (Tensor (momentum_rule m (data te) (data tp)) (requires_grad te)).
Proof.
  revert h j. induction pairs as [|[e0 p0] pairs IH]; intros h j Hnd Hsep Hj He Hp;
    [done|].
  simpl in Hnd. apply NoDup_cons in Hnd as [Hfresh Hnd].
  destruct j as [|j]; simpl in Hj.
  - injection Hj as -> ->. simpl. rewrite momentum_fold_frame by done.
    rewrite Hp, list_lookup_alter_eq, He. done.
  - assert (e ∈ pairs.*1) as He1.
    { apply list_elem_of_fmap. exists (e, p). split; [done|].
      by eapply list_elem_of_lookup_2. }
    assert (p ∈ pairs.*2) as Hp2.
    { apply list_elem_of_fmap. exists (e, p). split; [done|].
      by eapply list_elem_of_lookup_2. }
    assert (e ≠ e0) by (intros ->; done).
    assert (p ≠ e0).
    { intros ->. apply (Hsep e0); simpl; [by right|by left]. }
    simpl. apply (IH _ j); [done| |done| |].
    + intros x Hx Hx'. apply (Hsep x); simpl; by right.
    + unfold momentum_assign. destruct (h !! p0); [|done].
      by rewrite list_lookup_alter_ne.
    + unfold momentum_assign. destruct (h !! p0); [|done].
      by rewrite list_lookup_alter_ne.
Qed.

End HeapFacts.

(** ** [MocoModel]: construction and the training iteration *)

Section MocoFacts.
Import Torch Lightly MocoModel.

(** The heap and the module ids [__init__] produces, written out. *)
Lemma moco_init_spec h0 bi hi :
  __init__ h0 bi hi =
  let A := (λ v, Tensor v true) <$> bi in
  let B := (λ v, Tensor v true) <$> hi in
  let n := length h0 in
  let a := length bi in
  let b := length hi in
  (deactivate_requires_grad
     (deactivate_requires_grad (h0 ++ A ++ B ++ A ++ B) (seq (n + a + b) a))
     (seq (n + a + b + a) b),
   Build (seq n a) (seq (n + a) b) (seq (n + a + b) a) (seq (n + a + b + a) b)).
Proof.
  unfold __init__, new_module, deepcopy. cbv zeta.
  set (A := (λ v, Tensor v true) <$> bi).
  set (B := (λ v, Tensor v true) <$> hi).
  assert (length A = length bi) as HA by apply length_fmap.
  assert (length B = length hi) as HB by apply length_fmap.
  assert (omap (λ i, ((h0 ++ A) ++ B) !! i) (seq (length h0) (length bi)) = A) as EA.
  { assert ((h0 ++ A) ++ B = h0 ++ A ++ B) as -> by (by rewrite <- app_assoc).
    rewrite <- HA. apply omap_lookup_seq. }
  rewrite EA.
  assert (omap (λ i, (((h0 ++ A) ++ B) ++ A) !! i) (seq (length (h0 ++ A)) (length hi)) = B)
    as EB.
  { assert (((h0 ++ A) ++ B) ++ A = (h0 ++ A) ++ B ++ A) as -> by (by rewrite <- app_assoc).
    rewrite <- HB. apply omap_lookup_seq. }
  rewrite EB.
  rewrite !length_app, HA, HB.
  by rewrite <- !app_assoc.
Qed.

Lemma deactivate_frozen h m i :
  i ∈ m → i < length h →
  requires_grad <$> deactivate_requires_grad h m !! i = Some false.
Proof.
  intros Hin Hlt. rewrite deactivate_lookup, decide_True by done.
  destruct (lookup_lt_is_Some_2 h i Hlt) as [t ->]. done.
Qed.

Lemma deactivate_keeps_frozen h m i :
  requires_grad <$> h !! i = Some false →
  requires_grad <$> deactivate_requires_grad h m !! i = Some false.
Proof.
  intros Hf. rewrite deactivate_lookup. case_decide; [|done].
  destruct (h !! i); [done|discriminate].
Qed.

Lemma parameters_split self :
  parameters self = online_parameters self ++ momentum_parameters self.
Proof.
  unfold parameters, online_parameters, momentum_parameters.
  by rewrite <- app_assoc.
Qed.

Lemma moco_init_wf h0 bi hi : wf (__init__ h0 bi hi).1 (__init__ h0 bi hi).2.
Proof.
  rewrite moco_init_spec. cbv zeta. cbn [fst snd].
  set (A := (λ v, Tensor v true) <$> bi).
  set (B := (λ v, Tensor v true) <$> hi).
  set (n := length h0). set (a := length bi). set (b := length hi).
  assert (length (h0 ++ A ++ B ++ A ++ B) = n + a + b + a + b) as Hlen.
  { rewrite !length_app. subst A B. rewrite !length_fmap. lia. }
  assert (seq n a ++ seq (n + a) b ++ seq (n + a + b) a ++ seq (n + a + b + a) b
          = seq n (a + b + a + b)) as Hall.
  { replace (a + b + a + b) with (a + (b + (a + b))) by lia.
    rewrite !seq_app. repeat f_equal; lia. }
  split; unfold parameters, momentum_parameters; cbn [backbone projection_head
    backbone_momentum projection_head_momentum].
  - rewrite Hall. apply NoDup_seq.
  - rewrite Hall, !deactivate_length, Hlen. apply Forall_seq. intros; lia.
  - by rewrite !length_seq.
  - by rewrite !length_seq.
  - apply Forall_app. split; apply Forall_seq; intros i Hi.
    + apply deactivate_keeps_frozen, deactivate_frozen.
      * apply elem_of_seq. lia.
      * lia.
    + apply deactivate_frozen.
      * apply elem_of_seq. lia.
      * rewrite deactivate_length. lia.
Qed.

Section Step.
Context {image feature embedding : Type}.
Variable backbone_fwd : list float32 → list image → Exn.t + list feature.
Variable head_fwd : list float32 → list feature → Exn.t + list embedding.
Variable criterion : list embedding → list embedding → Exn.t + float32.

#[local] Abbreviation training_step := (training_step backbone_fwd head_fwd criterion).
#[local] Abbreviation fit_iteration := (fit_iteration backbone_fwd head_fwd criterion).
#[local] Abbreviation fit := (fit backbone_fwd head_fwd criterion).

(** The only heap writes of [training_step] are the two momentum
    updates, which together run over the momentum parameters paired with
    the online ones. *)
Lemma training_step_heap h self rp x_q x_k :
  length (backbone_momentum self) = length (backbone self) →
  (training_step h self rp x_q x_k).1
  = foldl (momentum_assign (literal 99 100)) h
      (zip (momentum_parameters self) (online_parameters self)).
Proof.
  intros Hlen. unfold MocoModel.training_step, update_momentum,
    momentum_parameters, online_parameters. cbn [fst].
  by rewrite zip_with_app, foldl_app.
Qed.

Lemma wf_pairs h self :
  wf h self →
  (zip (momentum_parameters self) (online_parameters self)).*1 = momentum_parameters self ∧
  NoDup (momentum_parameters self) ∧
  (∀ x, x ∈ (zip (momentum_parameters self) (online_parameters self)).*2 →
        x ∉ momentum_parameters self).
Proof.
  intros [Hnd _ Hb Hh _].
  assert (length (momentum_parameters self) = length (online_parameters self)) as Hlen.
  { unfold momentum_parameters, online_parameters. rewrite !length_app. lia. }
  rewrite parameters_split in Hnd. apply NoDup_app in Hnd as (_ & Hsep & Hmom).
  split; [apply fst_zip; lia|]. split; [done|].
  rewrite snd_zip by lia. done.
Qed.

Lemma wf_lookup h self i :
  wf h self → i ∈ parameters self → is_Some (h !! i).
Proof.
  intros [_ Halloc _ _ _] Hin. apply lookup_lt_is_Some_2.
  by eapply Forall_forall in Halloc.
Qed.

(** In one [training_step] each momentum parameter is rewritten once, by
    the momentum rule against the online parameter at the same position. *)
Lemma training_step_momentum h self rp x_q x_k j e p :
  wf h self →
  momentum_parameters self !! j = Some e →
  online_parameters self !! j = Some p →
  ∃ te tp, h !! e = Some te ∧ h !! p = Some tp ∧
    (training_step h self rp x_q x_k).1 !! e
    = Some (Tensor (momentum_rule (literal 99 100) (data te) (data tp)) false).
Proof.
  intros Hwf He Hp.
  destruct (wf_pairs _ _ Hwf) as (Hfst & Hnd & Hsep).
  assert (e ∈ momentum_parameters self) as Hein by (by eapply list_elem_of_lookup_2).
  destruct (wf_lookup h self e Hwf) as [te Hte].
  { rewrite parameters_split. apply elem_of_app. by right. }
  destruct (wf_lookup h self p Hwf) as [tp Htp].
  { rewrite parameters_split. apply elem_of_app. left. by eapply list_elem_of_lookup_2. }
  assert (requires_grad te = false) as Hrg.
  { pose proof (wf_frozen _ _ Hwf) as Hfr.
    eapply Forall_forall in Hfr; [|exact Hein]. rewrite Hte in Hfr. by injection Hfr. }
  exists te, tp. split; [done|]. split; [done|].
  rewrite training_step_heap by apply (wf_backbone _ _ Hwf).
  rewrite <- Hrg. apply (momentum_fold_at _ _ _ j e p).
  - by rewrite Hfst.
  - intros x Hx. rewrite Hfst. by apply Hsep.
  - by apply lookup_zip_Some.
  - done.
  - done.
Qed.

Lemma training_step_length h self rp x_q x_k :
  wf h self → length (training_step h self rp x_q x_k).1 = length h.
Proof.
  intros Hwf. rewrite training_step_heap by apply (wf_backbone _ _ Hwf).
  apply momentum_fold_length.
Qed.

Lemma training_step_requires_grad h self rp x_q x_k i :
  wf h self →
  requires_grad <$> (training_step h self rp x_q x_k).1 !! i = requires_grad <$> h !! i.
Proof.
  intros Hwf. rewrite training_step_heap by apply (wf_backbone _ _ Hwf).
  apply momentum_fold_requires_grad.
Qed.

(** [training_step] leaves every online parameter as it was. *)
Lemma training_step_frame h self rp x_q x_k i :
  wf h self → i ∉ momentum_parameters self →
  (training_step h self rp x_q x_k).1 !! i = h !! i.
Proof.
  intros Hwf Hi. rewrite training_step_heap by apply (wf_backbone _ _ Hwf).
  apply momentum_fold_frame.
  destruct (wf_pairs _ _ Hwf) as (-> & _ & _). done.
Qed.

(** What an iteration does to the heap [training_step] leaves: nothing,
    or the optimizer step. *)
Lemma fit_iteration_heap self h it :
  (fit_iteration self h it).1
  = (training_step h self (it_randperm it) (it_x_q it) (it_x_k it)).1 ∨
  (fit_iteration self h it).1
  = (backward_step (training_step h self (it_randperm it) (it_x_q it) (it_x_k it)).1
       (configure_optimizers self) (it_descent it)).1.
Proof.
  unfold MocoModel.fit_iteration.
  destruct (training_step _ _ _ _ _) as [h' [e|out]]; cbn [fst]; [by left|].
  destruct (gradients (it_descent it)); [by left|].
  destruct (it_found_inf it); [by left|by right].
Qed.

(** The optimizer step of an iteration skips the momentum parameters. *)
Lemma fit_iteration_momentum h self it e :
  wf h self → e ∈ momentum_parameters self →
  (fit_iteration self h it).1 !! e
  = (training_step h self (it_randperm it) (it_x_q it) (it_x_k it)).1 !! e.
Proof.
  intros Hwf He.
  destruct (fit_iteration_heap self h it) as [-> | ->]; [done|].
  apply backward_step_frozen. rewrite training_step_requires_grad by done.
  pose proof (wf_frozen _ _ Hwf) as Hfr.
  by eapply Forall_forall in Hfr.
Qed.

Lemma fit_iteration_length h self it :
  wf h self → length (fit_iteration self h it).1 = length h.
Proof.
  intros Hwf.
  destruct (fit_iteration_heap self h it) as [-> | ->];
    rewrite ?backward_step_length; by apply training_step_length.
Qed.

Lemma fit_iteration_requires_grad h self it i :
  wf h self →
  requires_grad <$> (fit_iteration self h it).1 !! i = requires_grad <$> h !! i.
Proof.
  intros Hwf.
  destruct (fit_iteration_heap self h it) as [-> | ->];
    rewrite ?backward_step_requires_grad; by apply training_step_requires_grad.
Qed.

Lemma fit_iteration_wf h self it : wf h self → wf (fit_iteration self h it).1 self.
Proof.
  intros Hwf. pose proof Hwf as [Hnd Halloc Hb Hh Hfr].
  split; try done.
  - by rewrite fit_iteration_length.
  - eapply Forall_impl; [exact Hfr|]. intros i Hi. simpl in *.
    by rewrite fit_iteration_requires_grad.
Qed.

Lemma fit_wf h self its : wf h self → wf (fit self h its).1 self.
Proof.
  revert h. induction its as [|it its IH]; intros h Hwf; [done|].
  simpl. pose proof (fit_iteration_wf h self it Hwf) as Hwf'.
  destruct (fit_iteration self h it) as [h' [e|]]; cbn [fst] in *; [done|].
  by apply IH.
Qed.

Lemma wf_alloc_split h self :
  wf h self →
  Forall (λ i, i < length h) (momentum_parameters self) ∧
  Forall (λ i, i < length h) (online_parameters self) ∧
  length (momentum_parameters self) = length (online_parameters self).
Proof.
  intros [_ Halloc Hb Hh _]. rewrite parameters_split in Halloc.
  apply Forall_app in Halloc as [? ?]. repeat split; try done.
  unfold momentum_parameters, online_parameters. rewrite !length_app. lia.
Qed.

(** List form of the momentum rule over one [training_step]. *)
Lemma training_step_momentum_rule h self rp x_q x_k :
  wf h self →
  read (training_step h self rp x_q x_k).1 (momentum_parameters self)
  = zip_with (momentum_rule (literal 99 100))
      (read h (momentum_parameters self)) (read h (online_parameters self)).
Proof.
  intros Hwf.
  destruct (wf_alloc_split _ _ Hwf) as (Hmom & Honl & Hlen).
  assert (Forall (λ i, i < length (training_step h self rp x_q x_k).1)
            (momentum_parameters self)) as Hmom'
    by (by rewrite training_step_length).
  destruct (read_lookup _ _ Hmom) as [Lmom Rmom].
  destruct (read_lookup _ _ Honl) as [Lonl Ronl].
  destruct (read_lookup _ _ Hmom') as [Lmom' Rmom'].
  apply (list_eq_same_length _ _ (length (momentum_parameters self))).
  - rewrite length_zip_with, Lmom, Lonl. lia.
  - done.
  - intros j x y Hj Hx Hy.
    apply lookup_zip_with_Some in Hy as (old & on & -> & Hold & Hon).
    assert (is_Some (momentum_parameters self !! j)) as [e He]
      by (by apply lookup_lt_is_Some).
    assert (is_Some (online_parameters self !! j)) as [p Hp]
      by (apply lookup_lt_is_Some; lia).
    destruct (Rmom _ _ He) as (te & Hte & Hte').
    destruct (Ronl _ _ Hp) as (tp & Htp & Htp').
    destruct (Rmom' _ _ He) as (t' & Ht' & Ht'').
    destruct (training_step_momentum h self rp x_q x_k j e p Hwf He Hp)
      as (te0 & tp0 & Hte0 & Htp0 & Hstep).
    by simplify_eq.
Qed.

(** List form of the momentum rule over one whole iteration. *)
Lemma fit_iteration_momentum_rule h self it :
  wf h self →
  read (fit_iteration self h it).1 (momentum_parameters self)
  = zip_with (momentum_rule (literal 99 100))
      (read h (momentum_parameters self)) (read h (online_parameters self)).
Proof.
  intros Hwf.
  rewrite <- (training_step_momentum_rule h self (it_randperm it) (it_x_q it) (it_x_k it))
    by done.
  apply read_ext. intros i Hi. by rewrite fit_iteration_momentum.
Qed.

End Step.

(** The values [__init__] gives the four networks. *)
Lemma moco_init_reads h0 backbone_init head_init :
  let h1 := (__init__ h0 backbone_init head_init).1 in
  let self := (__init__ h0 backbone_init head_init).2 in
  read h1 (backbone_momentum self) = backbone_init ∧
  read h1 (backbone self) = backbone_init ∧
  read h1 (projection_head_momentum self) = head_init ∧
  read h1 (projection_head self) = head_init.
Proof.
  intros h1 self. subst h1 self. rewrite moco_init_spec. cbv zeta.
  cbn [fst snd backbone projection_head backbone_momentum projection_head_momentum].
  rewrite !read_deactivate.
  set (A := (λ v, Tensor v true) <$> backbone_init).
  set (B := (λ v, Tensor v true) <$> head_init).
  assert (length A = length backbone_init) as HA by apply length_fmap.
  assert (length B = length head_init) as HB by apply length_fmap.
  assert (data <$> A = backbone_init) as DA.
  { subst A. rewrite <- list_fmap_compose. apply list_fmap_id. }
  assert (data <$> B = head_init) as DB.
  { subst B. rewrite <- list_fmap_compose. apply list_fmap_id. }
  rewrite <- HA, <- HB.
  repeat split.
  - pose proof (read_seq (h0 ++ A ++ B) A B) as R.
    rewrite !length_app in R. rewrite <- !app_assoc in R.
    rewrite Nat.add_assoc in R. by rewrite R.
  - pose proof (read_seq h0 A (B ++ A ++ B)) as R. by rewrite R.
  - pose proof (read_seq (h0 ++ A ++ B ++ A) B []) as R.
    rewrite !length_app in R. rewrite <- !app_assoc in R.
    rewrite app_nil_r in R. rewrite !Nat.add_assoc in R. by rewrite R.
  - pose proof (read_seq (h0 ++ A) B (A ++ B)) as R.
    rewrite !length_app in R. rewrite <- !app_assoc in R. by rewrite R.
Qed.

End MocoFacts.

(** ** The key branch of [MocoModel.training_step] *)

Section KeyBranch.
Import Torch Lightly MocoModel.

Lemma index_select_total {A} (batch : list A) index :
  index ≡ₚ seq 0 (length batch) → is_Some (index_select batch index).
Proof.
  intros Hperm. apply mapM_is_Some, Forall_forall. intros i Hi.
  rewrite Hperm in Hi. apply elem_of_seq in Hi.
  apply lookup_lt_is_Some. lia.
Qed.

(** Selecting the rows of an unshuffled batch with the shuffle gives
    back the batch that was unshuffled: row [shuffle[j]] of the
    unshuffled batch is row [j] of the shuffled one. *)
Lemma unshuffled_rows {A} (encoded unshuffled : list A) (shuffle : list nat) :
  shuffle ≡ₚ seq 0 (length encoded) →
  batch_unshuffle encoded shuffle = Some unshuffled →
  index_select unshuffled shuffle = Some encoded.
Proof.
  intros Hperm Hun.
  assert (length shuffle = length encoded) as Hlen
    by (by rewrite Hperm, length_seq).
  assert (NoDup shuffle) as Hnd by (rewrite Hperm; apply NoDup_seq).
  pose proof Hperm as Hperm'. rewrite <- Hlen in Hperm'.
  unfold batch_unshuffle in Hun.
  pose proof (index_select_length _ _ _ Hun) as Hlen'.
  rewrite argsort_length in Hlen'.
  apply mapM_Some, Forall2_same_length_lookup_2; [lia|].
  intros j i y Hj Hy.
  assert (i < length (argsort shuffle)) as Hi.
  { rewrite argsort_length, Hlen.
    assert (i ∈ seq 0 (length encoded)) as Hin
      by (rewrite <- Hperm; by eapply list_elem_of_lookup_2).
    apply elem_of_seq in Hin. lia. }
  apply lookup_lt_is_Some_2 in Hi as [j' Hj'].
  pose proof (argsort_lookup _ _ _ Hperm' Hj') as Hback.
  assert (j' = j) as -> by (by eapply NoDup_lookup).
  by rewrite (index_select_lookup _ _ _ _ _ Hun Hj').
Qed.

(** The key branch when the draw is a permutation and the momentum
    networks return one row per row: it passes the shuffled batch
    through the momentum backbone and head and unshuffles the result. *)
Lemma keys_spec {image feature embedding}
    (backbone_fwd : list float32 → list image → Exn.t + list feature)
    (head_fwd : list float32 → list feature → Exn.t + list embedding)
    (h : heap) (self : t) (randperm : nat → list nat) (x_k : list image) :
  randperm (length x_k) ≡ₚ seq 0 (length x_k) →
  (∀ ps, returns_rows (backbone_fwd ps)) →
  (∀ ps, returns_rows (head_fwd ps)) →
  ∃ shuffled features encoded k,
    index_select x_k (randperm (length x_k)) = Some shuffled ∧
    backbone_fwd (read h (backbone_momentum self)) shuffled = inr features ∧
    head_fwd (read h (projection_head_momentum self)) features = inr encoded ∧
    keys backbone_fwd head_fwd h self randperm x_k = inr k ∧
    batch_unshuffle encoded (randperm (length x_k)) = Some k ∧
    index_select k (randperm (length x_k)) = Some encoded ∧
    Forall (λ i, ∃ j, randperm (length x_k) !! j = Some i ∧
                      shuffled !! j = x_k !! i ∧ k !! i = encoded !! j)
      (seq 0 (length x_k)) ∧
    batch_unshuffle shuffled (randperm (length x_k)) = Some x_k ∧
    length k = length x_k.
Proof.
  intros Hperm Hb Hh.
  destruct (index_select_total x_k _ Hperm) as [shuffled Hsel].
  destruct (Hb (read h (backbone_momentum self)) shuffled) as (features & Hf & Hlf).
  destruct (Hh (read h (projection_head_momentum self)) features) as (encoded & He & Hle).
  assert (length shuffled = length x_k) as Hls.
  { rewrite (index_select_length _ _ _ Hsel), Hperm. apply length_seq. }
  assert (randperm (length x_k) ≡ₚ seq 0 (length encoded)) as Hperm'
    by (by rewrite Hle, Hlf, Hls).
  assert (length (randperm (length x_k)) = length encoded) as Hlen
    by (by rewrite Hperm', length_seq).
  destruct (index_select_total encoded (argsort (randperm (length x_k)))) as [k Hk].
  { rewrite argsort_Permutation. by rewrite Hlen. }
  exists shuffled, features, encoded, k.
  split; [done|]. split; [done|]. split; [done|].
  split.
  { unfold keys, batch_shuffle. rewrite Hsel. simpl. rewrite Hf. simpl.
    rewrite He. simpl. unfold batch_unshuffle. by rewrite Hk. }
  split; [done|].
  split; [by apply unshuffled_rows|].
  split.
  { apply Forall_seq. intros i Hi.
    destruct (lookup_lt_is_Some_2 (argsort (randperm (length x_k))) i) as [j Hj].
    { rewrite argsort_length, Hperm, length_seq. lia. }
    exists j.
    assert (randperm (length x_k) !! j = Some i) as Hji.
    { apply argsort_lookup; [|done].
      by rewrite Hlen, <- Hperm'. }
    split; [done|].
    split; [by apply (index_select_lookup _ _ _ _ _ Hsel)|].
    by apply (index_select_lookup _ _ _ _ _ Hk). }
  split; [by apply batch_unshuffle_inverts|].
  rewrite (index_select_length _ _ _ Hk), argsort_length, Hperm. apply length_seq.
Qed.

End KeyBranch.
(** The momentum rule on [float32]: the old value 3 against the online
    value 1 gives the [float32] next to 2.98, and a momentum value that
    equals its online value can still move. *)
Example momentum_rule_rounds :
  Float.to_Q (Lightly.momentum_rule (Float.literal 99 100) (Float.of_Z32 3) (Float.of_Z32 1))
    = Some (6249513 # 2097152) ∧
  Float.to_Q (SpecFloat.S754_finite true 11744051 (-24)) = Some (-11744051 # 16777216) ∧
  Float.to_Q (Lightly.momentum_rule (Float.literal 99 100)
                (SpecFloat.S754_finite true 11744051 (-24))
                (SpecFloat.S754_finite true 11744051 (-24)))
    = Some (-2936013 # 4194304).
Proof. by vm_compute. Qed.

(** The model on small inputs: a one-parameter backbone (initial value
    1) and head (initial value 2), iterations with gradient 1 and the
    rule [p - g]. A skipped optimizer step still follows a momentum
    update, and training stops at the iteration that raises. *)
Example moco_iterations :
  let bf := λ (_ : list Float.float32) (x : list nat),
              inr (B := list nat) (A := Exn.t) (S <$> x) in
  let hf := λ (_ : list Float.float32) (x : list nat),
              inr (B := list nat) (A := Exn.t) (Nat.mul 2 <$> x) in
  let cr := λ (_ _ : list nat), inr (B := Float.float32) (A := Exn.t) (Float.of_Z32 0) in
  let sgd := Torch.Descent (inr (λ _, Float.of_Z32 1)) (λ _ p g, Float.sub32 p g) None in
  let it := MocoModel.Iteration [1; 2; 3] [10; 20; 30] (λ _, [2; 0; 1]) sgd false in
  let skipped := MocoModel.Iteration [1; 2; 3] [10; 20; 30] (λ _, [2; 0; 1]) sgd true in
  let bad := MocoModel.Iteration [1; 2; 3] [10; 20; 30] (λ _, [2; 0; 7]) sgd false in
  let st := MocoModel.__init__ [] [Float.of_Z32 1] [Float.of_Z32 2] in
  let run := λ its,
    let r := MocoModel.fit bf hf cr st.2 st.1 its in
    (Float.to_Q <$> Torch.read r.1 (MocoModel.parameters st.2), r.2) in
  run [it] = ([Some 0%Q; Some 1%Q; Some 1%Q; Some 2%Q], None) ∧
  run [it; it]
    = ([Some (-1)%Q; Some 0%Q; Some (4152361 # 4194304); Some (8346665 # 4194304)],
       None) ∧
  run [it; skipped; it]
    = ([Some (-1)%Q; Some 0%Q; Some (8221675 # 8388608); Some (16610283 # 8388608)],
       None) ∧
  run [it; bad; it]
    = ([Some 0%Q; Some 1%Q; Some (4152361 # 4194304); Some (8346665 # 4194304)],
       Some Exn.IndexError).
Proof. repeat split; vm_compute; reflexivity. Qed.

Example shuffle_round_trip :
  Lightly.batch_shuffle (λ _, [2; 0; 1]) [10; 20; 30] = Some ([30; 10; 20], [2; 0; 1]) ∧
  Torch.argsort [2; 0; 1] = [1; 2; 0] ∧
  Lightly.batch_unshuffle [30; 10; 20] [2; 0; 1] = Some [10; 20; 30].
Proof. by vm_compute. Qed.

Example DataLoader_batches :
  Torch.DataLoader [1; 2; 3; 4; 5] 2 false = inr [[1; 2]; [3; 4]; [5]] ∧
  Torch.DataLoader [1; 2; 3; 4; 5] 2 true = inr [[1; 2]; [3; 4]] ∧
  Torch.DataLoader [1; 2; 3; 4; 5] 0 false = inl Exn.ValueError.
Proof. by vm_compute. Qed.

(** C3. The momentum backbone and the momentum projection head start as
    copies of the online networks on fresh tensors, with gradients
    deactivated. From any well-formed state, so in every training
    iteration, [training_step] gives each momentum parameter the value
    of the momentum rule with coefficient 0.99 in [float32] arithmetic
    (its old value times 0.99 plus [1 - 0.99] times the online parameter
    at the same position, each product and the sum rounded), the
    optimizer step of the iteration leaves the momentum parameters as
    [training_step] wrote them, and the state stays well formed. *)
Theorem momentum_encoder_follows_momentum_rule
    {image feature embedding : Type}
    (backbone_fwd : list Float.float32 → list image → Exn.t + list feature)
    (head_fwd : list Float.float32 → list feature → Exn.t + list embedding)
    (criterion : list embedding → list embedding → Exn.t + Float.float32)
    (h0 : list Torch.tensor) (backbone_init head_init : list Float.float32)
    (h : list Torch.tensor) (self : MocoModel.t)
    (it : @MocoModel.iteration image) :
  MocoModel.wf h self →
  let h1 := (MocoModel.__init__ h0 backbone_init head_init).1 in
  let model := (MocoModel.__init__ h0 backbone_init head_init).2 in
  let stepped :=
    (MocoModel.training_step backbone_fwd head_fwd criterion h self
       (MocoModel.it_randperm it) (MocoModel.it_x_q it) (MocoModel.it_x_k it)).1 in
  let h' := (MocoModel.fit_iteration backbone_fwd head_fwd criterion self h it).1 in
  (Torch.read h1 (MocoModel.backbone_momentum model) = backbone_init ∧
   Torch.read h1 (MocoModel.backbone model) = backbone_init ∧
   Torch.read h1 (MocoModel.projection_head_momentum model) = head_init ∧
   Torch.read h1 (MocoModel.projection_head model) = head_init ∧
   Forall (λ i, i ∉ MocoModel.online_parameters model)
     (MocoModel.momentum_parameters model) ∧
   Forall (λ i, Torch.requires_grad <$> h1 !! i = Some false)
     (MocoModel.momentum_parameters model) ∧
   MocoModel.wf h1 model) ∧
  (Torch.read stepped (MocoModel.momentum_parameters self)
   = zip_with
       (λ old online,
          Float.add32
            (Float.mul32 old (Float.to_float32 (Float.literal 99 100)))
            (Float.mul32
               (Float.to_float32 (Float.sub64 (Float.of_Z64 1) (Float.literal 99 100)))
               online))
       (Torch.read h (MocoModel.momentum_parameters self))
       (Torch.read h (MocoModel.online_parameters self)) ∧
   Forall (λ i, h' !! i = stepped !! i) (MocoModel.momentum_parameters self) ∧
   Torch.read h' (MocoModel.momentum_parameters self)
   = Torch.read stepped (MocoModel.momentum_parameters self) ∧
   MocoModel.wf h' self).
Proof.
  intros Hwf h1 model stepped h'.
  pose proof (moco_init_wf h0 backbone_init head_init) as Hwf1.
  fold h1 model in Hwf1.
  pose proof (moco_init_reads h0 backbone_init head_init) as (R1 & R2 & R3 & R4).
  fold h1 model in R1, R2, R3, R4.
  split.
  { do 4 (split; [done|]). split; [|split; [|done]].
    - apply Forall_forall. intros i Hi Hi'.
      pose proof (MocoModel.wf_nodup _ _ Hwf1) as Hnd.
      rewrite parameters_split in Hnd. apply NoDup_app in Hnd as (_ & Hsep & _).
      by apply (Hsep i).
    - apply (MocoModel.wf_frozen _ _ Hwf1). }
  - split; [by apply (training_step_momentum_rule backbone_fwd head_fwd criterion)|].
    split.
    { apply Forall_forall. intros i Hi. by apply fit_iteration_momentum. }
    split; [|by apply fit_iteration_wf].
    unfold h', stepped.
    rewrite fit_iteration_momentum_rule by done.
    by rewrite training_step_momentum_rule.
Qed.

(** An iteration on a heap whose momentum values (3 and 7) differ from
    the online values (1 and 5), with gradient 1 and the rule [p - g]. *)
Lemma momentum_encoder_follows_momentum_rule_witness :
  let backbone_fwd := λ (_ : list Float.float32) (x : list nat),
                        inr (B := list nat) (A := Exn.t) (S <$> x) in
  let head_fwd := λ (_ : list Float.float32) (x : list nat),
                    inr (B := list nat) (A := Exn.t) (Nat.mul 2 <$> x) in
  let criterion := λ (_ _ : list nat), inr (B := Float.float32) (A := Exn.t) (Float.of_Z32 0) in
  let h := [Torch.Tensor (Float.of_Z32 1) true; Torch.Tensor (Float.of_Z32 5) true;
            Torch.Tensor (Float.of_Z32 3) false; Torch.Tensor (Float.of_Z32 7) false] in
  let self := MocoModel.Build [0] [1] [2] [3] in
  let sgd := Torch.Descent (inr (λ _, Float.of_Z32 1)) (λ _ p g, Float.sub32 p g) None in
  let it := MocoModel.Iteration [1; 2; 3] [10; 20; 30] (λ _, [2; 0; 1]) sgd false in
  let h' := (MocoModel.fit_iteration backbone_fwd head_fwd criterion self h it).1 in
  MocoModel.wf h self ∧
  Float.to_Q <$> Torch.read h' (MocoModel.momentum_parameters self)
    = [Some (6249513 # 2097152); Some (7319061 # 1048576)] ∧
  Float.to_Q <$> Torch.read h' (MocoModel.online_parameters self) = [Some 0%Q; Some 4%Q].
Proof.
  intros backbone_fwd head_fwd criterion h self sgd it h'.
  assert (MocoModel.wf h self) as Hwf.
  { split.
    - apply (bool_decide_unpack _). by vm_compute.
    - repeat constructor.
    - done.
    - done.
    - repeat constructor. }
  split; [exact Hwf|].
  destruct (momentum_encoder_follows_momentum_rule backbone_fwd head_fwd criterion
              [] [] [] h self it Hwf) as (_ & Hstep & _ & Hopt & _).
  split.
  - fold h' in Hopt. rewrite Hopt, Hstep. vm_compute. reflexivity.
  - vm_compute. reflexivity.
Defined.

(** C8. In [training_step], when the draw of [batch_shuffle] is a
    permutation and the networks and the loss return, the batch the
    momentum backbone receives is the key batch with its rows selected
    by the shuffle; the output of the momentum head on it is unshuffled
    with the same indices, so selecting the rows of the keys by the
    shuffle gives that output back. Row [i] of the keys is the encoding
    at the row [j] of the shuffled batch where image [i] stood.
    Unshuffling inverts the shuffle, and there is one key per image. *)
Theorem keys_unshuffled_in_input_order
    {image feature embedding : Type}
    (backbone_fwd : list Float.float32 → list image → Exn.t + list feature)
    (head_fwd : list Float.float32 → list feature → Exn.t + list embedding)
    (criterion : list embedding → list embedding → Exn.t + Float.float32)
    (h : list Torch.tensor) (self : MocoModel.t)
    (randperm : nat → list nat) (x_q x_k : list image) :
  randperm (length x_k) ≡ₚ seq 0 (length x_k) →
  (∀ ps, Torch.returns_rows (backbone_fwd ps)) →
  (∀ ps, Torch.returns_rows (head_fwd ps)) →
  (∀ q k, ∃ loss, criterion q k = inr loss) →
  let result := MocoModel.training_step backbone_fwd head_fwd criterion h self randperm x_q x_k in
  let shuffle := randperm (length x_k) in
  ∃ shuffled features encoded out,
    Lightly.batch_shuffle randperm x_k = Some (shuffled, shuffle) ∧
    Torch.index_select x_k shuffle = Some shuffled ∧
    backbone_fwd (Torch.read result.1 (MocoModel.backbone_momentum self)) shuffled
      = inr features ∧
    head_fwd (Torch.read result.1 (MocoModel.projection_head_momentum self)) features
      = inr encoded ∧
    result.2 = inr out ∧
    Lightly.batch_unshuffle encoded shuffle = Some (MocoModel.k_out out) ∧
    Torch.index_select (MocoModel.k_out out) shuffle = Some encoded ∧
    Forall (λ i, ∃ j, shuffle !! j = Some i ∧
                      shuffled !! j = x_k !! i ∧
                      MocoModel.k_out out !! i = encoded !! j)
      (seq 0 (length x_k)) ∧
    Lightly.batch_unshuffle shuffled shuffle = Some x_k ∧
    length (MocoModel.k_out out) = length x_k.
Proof.
  intros Hperm Hb Hh Hc result shuffle.
  set (h' := Lightly.update_momentum
               (Lightly.update_momentum h (MocoModel.backbone self)
                  (MocoModel.backbone_momentum self) (Float.literal 99 100))
               (MocoModel.projection_head self)
               (MocoModel.projection_head_momentum self) (Float.literal 99 100)).
  destruct (keys_spec backbone_fwd head_fwd h' self randperm x_k Hperm Hb Hh)
    as (shuffled & features & encoded & k & Hsel & Hf & He & Hkeys & Hun & Hrows
        & Hrow & Hinv & Hlen).
  destruct (Hb (Torch.read h' (MocoModel.backbone self)) x_q) as (q0 & Hq0 & _).
  destruct (Hh (Torch.read h' (MocoModel.projection_head self)) q0) as (q & Hq & _).
  destruct (Hc q k) as [loss Hloss].
  exists shuffled, features, encoded, (MocoModel.StepOutput q k loss).
  subst result shuffle. unfold MocoModel.training_step. fold h'.
  cbn [fst snd MocoModel.k_out].
  split.
  { unfold Lightly.batch_shuffle. by rewrite Hsel. }
  split; [done|]. split; [done|]. split; [done|].
  split.
  { rewrite Hq0. simpl. rewrite Hq. simpl. rewrite Hkeys. simpl. by rewrite Hloss. }
  done.
Qed.

(** A batch of three keys under the shuffle [2; 0; 1], with a backbone
    whose output depends on the position of a row in the batch: the keys
    differ from what the unshuffled batch would give. *)
Lemma keys_unshuffled_in_input_order_witness :
  let backbone_fwd := λ (_ : list Float.float32) (x : list nat),
                        inr (B := list nat) (A := Exn.t) (imap (λ i v, v + 100 * i) x) in
  let head_fwd := λ (_ : list Float.float32) (x : list nat),
                    inr (B := list nat) (A := Exn.t) (Nat.mul 2 <$> x) in
  let criterion := λ (_ _ : list nat), inr (B := Float.float32) (A := Exn.t) (Float.of_Z32 0) in
  let randperm := λ (_ : nat), [2; 0; 1] in
  let self := MocoModel.Build [] [] [] [] in
  randperm 3 ≡ₚ seq 0 3 ∧
  ∃ out,
    (MocoModel.training_step backbone_fwd head_fwd criterion [] self randperm
       [1; 2; 3] [10; 20; 30]).2 = inr out ∧
    MocoModel.k_out out = [220; 440; 60] ∧
    Torch.index_select (MocoModel.k_out out) [2; 0; 1] = Some [60; 220; 440] ∧
    (k ← backbone_fwd [] [30; 10; 20]; head_fwd [] k) = inr [60; 220; 440] ∧
    (k ← backbone_fwd [] [10; 20; 30]; head_fwd [] k) = inr [20; 240; 460].
Proof.
  intros backbone_fwd head_fwd criterion randperm self.
  assert (randperm 3 ≡ₚ seq 0 3) as Hperm.
  { unfold randperm. simpl.
    apply (Permutation_trans (l' := [0; 2; 1])); [apply perm_swap|].
    apply perm_skip, perm_swap. }
  split; [exact Hperm|].
  destruct (keys_unshuffled_in_input_order backbone_fwd head_fwd criterion [] self
              randperm [1; 2; 3] [10; 20; 30] Hperm)
    as (shuffled & features & encoded & out & _ & Hsel & Hf & He & Hout & Hun & Hrows & _).
  - intros ps batch. eexists. split; [reflexivity|]. apply length_imap.
  - intros ps batch. eexists. split; [reflexivity|]. apply length_fmap.
  - intros q k. by eexists.
  - exists out. split; [exact Hout|].
    cbv in Hsel. injection Hsel as <-.
    cbv in Hf. injection Hf as <-.
    cbv in He. injection He as <-.
    cbv - [MocoModel.k_out] in Hun. injection Hun as Hk.
    rewrite <- Hk in Hrows.
    split; [by rewrite <- Hk|]. split; [by rewrite <- Hk|].
    split; reflexivity.
Defined.

(** ** [Classifier]: frozen backbone and the validation accumulator *)

Section ClassifierFacts.
Import Torch Lightly Classifier.

Lemma classifier_init_spec h backbone fc_init :
  __init__ h backbone fc_init =
  (deactivate_requires_grad h backbone ++ ((λ v, Tensor v true) <$> fc_init),
   Build backbone (seq (length h) (length fc_init)) []).
Proof. unfold __init__, new_module. by rewrite deactivate_length. Qed.

(** Training writes only what [configure_optimizers] handed over. *)
Lemma classifier_fit_frame self h its i :
  i ∉ configure_optimizers self → fit self h its !! i = h !! i.
Proof.
  intros Hi. unfold fit. revert h.
  induction its as [|it its IH]; intros h; [done|].
  simpl. rewrite IH. unfold fit_iteration. by apply optimizer_step_frame.
Qed.

Lemma totals_fold (outputs : list (nat * Q)) n c :
  (foldl (λ '(total_num, total_correct) '(num, correct),
            (total_num + num, (total_correct + correct)%Q)) (n, c) outputs).1
  = n + sum_list outputs.*1.
Proof.
  revert n c. induction outputs as [|[num correct] outputs IH]; intros n c; simpl.
  - lia.
  - rewrite IH. symmetry. apply Nat.add_assoc.
Qed.

Lemma totals_positive (outputs : list (nat * Q)) :
  outputs ≠ [] → Forall (λ o, 0 < o.1) outputs → 0 < (totals outputs).1.
Proof.
  intros Hne Hpos. unfold totals. rewrite totals_fold.
  destruct outputs as [|[num correct] outputs]; [done|].
  apply Forall_cons in Hpos as [Hnum _]. simpl in *. lia.
Qed.

Lemma rev_cons_nonempty {A} (x : A) l : rev (x :: l) ≠ [].
Proof.
  intros Hrev. apply (f_equal length) in Hrev.
  rewrite length_rev in Hrev. discriminate.
Qed.

Lemma batches_from_nonempty {A} batch_size drop_last (cur samples : list A) :
  Forall (λ batch, batch ≠ []) (batches_from batch_size drop_last cur samples).
Proof.
  revert cur. induction samples as [|x rest IH]; intros cur; cbn [batches_from].
  - destruct cur as [|c cur]; [constructor|].
    destruct drop_last; constructor; [apply rev_cons_nonempty|constructor].
  - case_decide; [constructor|]; [apply rev_cons_nonempty|apply IH|apply IH].
Qed.

Lemma DataLoader_batches_nonempty {A} (dataset : list A) batch_size drop_last batches :
  DataLoader dataset batch_size drop_last = inr batches →
  Forall (λ batch, batch ≠ []) batches.
Proof.
  unfold DataLoader. case_decide; [done|]. intros [= <-].
  apply batches_from_nonempty.
Qed.

Lemma DataLoader_positive {A} (dataset : list A) batch_size drop_last :
  0 < batch_size →
  DataLoader dataset batch_size drop_last
  = inr (batches_from batch_size drop_last [] dataset).
Proof. intros Hpos. unfold DataLoader. rewrite decide_False by lia. done. Qed.

(** Tensors of the same size are compared element by element. *)
Lemma broadcast_same_length {A B} (a : list A) (b : list B) :
  length a = length b → broadcast a b = inr (zip a b).
Proof. intros Hlen. unfold broadcast. by rewrite decide_True. Qed.

Section Validation.
Context {image : Type}.
Variable classify : list float32 → list float32 → image → nat.

#[local] Abbreviation reachable := (reachable classify).
#[local] Abbreviation validation_step := (validation_step classify).
#[local] Abbreviation validation_steps := (validation_steps classify).
#[local] Abbreviation validation_loop := (validation_loop classify).

(** A [validation_step] that returns has appended one output, whose
    [num] is the number of rows of [x]. *)
Lemma validation_step_returns h self x y self' output :
  validation_step h self x y = inr (self', output) →
  ∃ correct,
    output = (length x, correct) ∧
    self' = Build (backbone self) (fc self) (validation_step_outputs self ++ [output]).
Proof.
  unfold Classifier.validation_step. rewrite length_fmap.
  destruct (count_correct _ _) as [e|correct]; [done|].
  intros [= <- <-]. by exists correct.
Qed.

(** On a batch of labelled samples [validation_step] returns. *)
Lemma validation_step_collated h self (batch : list (image * nat)) :
  ∃ self' output, validation_step h self batch.*1 batch.*2 = inr (self', output).
Proof.
  unfold Classifier.validation_step, count_correct.
  rewrite broadcast_same_length by (by rewrite !length_fmap).
  by eexists _, _.
Qed.

(** Every accumulated [num] is the size of a batch that was not empty. *)
Lemma reachable_positive self :
  reachable self → Forall (λ o, 0 < o.1) (validation_step_outputs self).
Proof.
  induction 1 as [h backbone fc_init|h self x y self' output Hreach IH Hx Hstep
                  |self Hreach IH].
  - rewrite classifier_init_spec. constructor.
  - apply validation_step_returns in Hstep as (correct & -> & ->).
    simpl. apply Forall_app. split; [done|].
    constructor; [|constructor]. simpl.
    destruct x; [done|simpl; lia].
  - unfold on_validation_epoch_end.
    destruct (validation_step_outputs self) eqn:E.
    + simpl. rewrite E. constructor.
    + destruct (totals _). constructor.
Qed.

Lemma validation_batches_reachable h self (dataloader : list (list (image * nat))) :
  reachable self → Forall (λ batch, batch ≠ []) dataloader →
  ∃ s, validation_steps h self dataloader = inr s ∧ reachable s.
Proof.
  intros Hreach Hall. revert self Hreach.
  induction Hall as [|batch dataloader Hb Hall IH]; intros self Hreach;
    [by exists self|].
  destruct (validation_step_collated h self batch) as (self' & output & Hstep).
  cbn [Classifier.validation_steps]. rewrite Hstep. simpl. apply IH.
  eapply reach_validation_step; [exact Hreach| |exact Hstep]. by destruct batch.
Qed.

Lemma epoch_end_spec self :
  Forall (λ o, 0 < o.1) (validation_step_outputs self) →
  match (on_validation_epoch_end self).2 with
  | NothingLogged => validation_step_outputs self = []
  | LoggedAccuracy acc =>
      validation_step_outputs self ≠ [] ∧
      0 < (totals (validation_step_outputs self)).1 ∧
      (acc == (totals (validation_step_outputs self)).2
              / inject_Z (Z.of_nat (totals (validation_step_outputs self)).1))%Q
  | ZeroDivisor => False
  end ∧
  validation_step_outputs (on_validation_epoch_end self).1 = [].
Proof.
  intros Hpos. unfold on_validation_epoch_end.
  destruct (validation_step_outputs self) as [|o outputs] eqn:E.
  - simpl. by rewrite E.
  - pose proof (totals_positive (o :: outputs) ltac:(done) Hpos) as Htot.
    destruct (totals (o :: outputs)) as [total_num total_correct] eqn:T.
    cbn [fst snd] in *. unfold true_divide.
    rewrite decide_False by lia. repeat split; try done.
Qed.

(** A validation epoch over what a [DataLoader] yields returns, never
    meets a zero divisor and leaves the accumulator empty. *)
Lemma validation_loop_over_dataloader h self (dataset : list (image * nat))
    batch_size drop_last dataloader :
  reachable self →
  DataLoader dataset batch_size drop_last = inr dataloader →
  ∃ s result,
    validation_loop h self dataloader = inr (s, result) ∧
    result ≠ ZeroDivisor ∧ validation_step_outputs s = [].
Proof.
  intros Hreach Hdl. unfold Classifier.validation_loop.
  destruct (validation_batches_reachable h self _ Hreach
              (DataLoader_batches_nonempty _ _ _ _ Hdl)) as (s & -> & Hend).
  destruct (epoch_end_spec _ (reachable_positive _ Hend)) as [Hresult Hempty].
  simpl. destruct (on_validation_epoch_end s) as [s' result] eqn:E.
  exists s', result. cbn [fst snd] in *. split; [done|]. split; [|done].
  intros ->. done.
Qed.

End Validation.
End ClassifierFacts.

(** C7. Training the classifier leaves every backbone parameter as it
    was: [__init__] deactivates the gradient requirement of the backbone,
    [configure_optimizers] hands the optimizer the parameters of [fc]
    only, and an optimizer step writes nothing outside [fc]. *)
Theorem classifier_training_leaves_backbone_unchanged
    (h : list Torch.tensor) (backbone : list nat) (fc_init : list Float.float32)
    (its : list Classifier.iteration) (j : nat) :
  Forall (λ i, i < length h) backbone →
  let h1 := (Classifier.__init__ h backbone fc_init).1 in
  let self := (Classifier.__init__ h backbone fc_init).2 in
  Classifier.backbone self = backbone ∧
  Classifier.configure_optimizers self = Classifier.fc self ∧
  Forall (λ i, i ∉ backbone) (Classifier.fc self) ∧
  Forall (λ i, Torch.requires_grad <$> h1 !! i = Some false ∧
               Torch.data <$> h1 !! i = Torch.data <$> h !! i) backbone ∧
  Forall (λ i, Classifier.fit self h1 its !! i = h1 !! i) backbone ∧
  (j ∈ Classifier.fc self ∨ Classifier.fit self h1 its !! j = h1 !! j).
Proof.
  intros Halloc h1 self. subst h1 self. rewrite classifier_init_spec.
  cbn [fst snd Classifier.backbone Classifier.fc Classifier.configure_optimizers].
  assert (∀ i, i ∈ seq (length h) (length fc_init) → i ∉ backbone) as Hsep.
  { intros i Hi Hi'. apply elem_of_seq in Hi.
    eapply Forall_forall in Halloc; [|exact Hi']. simpl in Halloc. lia. }
  split; [done|]. split; [done|]. split; [by apply Forall_forall|].
  split; [|split].
  - apply Forall_forall. intros i Hi.
    pose proof Halloc as Hlt. eapply Forall_forall in Hlt; [|exact Hi]. simpl in Hlt.
    rewrite lookup_app_l by (by rewrite deactivate_length).
    split; [by apply deactivate_frozen|apply deactivate_data].
  - apply Forall_forall. intros i Hi. apply classifier_fit_frame.
    intros Hi'. by apply (Hsep i).
  - destruct (decide (j ∈ seq (length h) (length fc_init))) as [Hj|Hj]; [by left|].
    right. by apply classifier_fit_frame.
Qed.

(** C6. [on_validation_epoch_end] divides only under the guard that
    [validation_step_outputs] is not empty; every accumulated [num] is
    the size of a non-empty batch, so the divisor [total_num] is
    positive; and after the call the list is empty. *)
Theorem validation_epoch_end_never_divides_by_zero
    {image : Type} (classify : list Float.float32 → list Float.float32 → image → nat)
    (self : Classifier.t) :
  Classifier.reachable classify self →
  let outputs := Classifier.validation_step_outputs self in
  let r := Classifier.on_validation_epoch_end self in
  match r.2 with
  | Classifier.NothingLogged => outputs = []
  | Classifier.LoggedAccuracy acc =>
      outputs ≠ [] ∧
      0 < (Classifier.totals outputs).1 ∧
      (acc == (Classifier.totals outputs).2
              / inject_Z (Z.of_nat (Classifier.totals outputs).1))%Q
  | Classifier.ZeroDivisor => False
  end ∧
  Forall (λ o, 0 < o.1) outputs ∧
  Classifier.validation_step_outputs r.1 = [].
Proof.
  intros Hreach outputs r.
  pose proof (reachable_positive classify self Hreach) as Hpos.
  destruct (epoch_end_spec self Hpos) as [Hresult Hempty].
  split; [exact Hresult|]. by split.
Qed.

(** One optimizer step on a two-parameter backbone and a one-parameter
    [fc]. *)
Lemma classifier_training_leaves_backbone_unchanged_witness :
  let h := [Torch.Tensor (Float.of_Z32 1) true; Torch.Tensor (Float.of_Z32 2) true] in
  let backbone := [0; 1] in
  let fc_init := [Float.of_Z32 5] in
  let its := [Classifier.Iteration (λ _, Float.of_Z32 1) (λ p g, Float.sub32 p g)] in
  Forall (λ i, i < length h) backbone ∧
  Forall (λ i, Classifier.fit (Classifier.__init__ h backbone fc_init).2
                 (Classifier.__init__ h backbone fc_init).1 its !! i
               = (Classifier.__init__ h backbone fc_init).1 !! i) backbone.
Proof.
  intros h backbone fc_init its.
  assert (Forall (λ i, i < length h) backbone) as Halloc
    by (repeat constructor).
  split; [exact Halloc|].
  apply (classifier_training_leaves_backbone_unchanged h backbone fc_init its 0 Halloc).
Defined.

(** The state after one validation batch of two samples, one of them
    classified correctly. *)
Lemma validation_epoch_end_never_divides_by_zero_witness :
  let classify := λ (_ _ : list Float.float32) (x : nat), x in
  let self := Classifier.Build [] [0] [(2, 1%Q)] in
  Classifier.validation_step classify [] (Classifier.__init__ [] [] [Float.of_Z32 1]).2
    [3; 4] [3; 0] = inr (self, (2, 1%Q)) ∧
  Classifier.reachable classify self ∧
  (Classifier.on_validation_epoch_end self).2 ≠ Classifier.ZeroDivisor ∧
  Classifier.validation_step_outputs (Classifier.on_validation_epoch_end self).1 = [].
Proof.
  intros classify self.
  assert (Classifier.validation_step classify []
            (Classifier.__init__ [] [] [Float.of_Z32 1]).2 [3; 4] [3; 0]
          = inr (self, (2, 1%Q))) as Hstep by reflexivity.
  assert (Classifier.reachable classify self) as Hreach.
  { apply (Classifier.reach_validation_step classify []
             (Classifier.__init__ [] [] [Float.of_Z32 1]).2 [3; 4] [3; 0] self (2, 1%Q));
      [apply Classifier.reach_init|discriminate|exact Hstep]. }
  split; [exact Hstep|]. split; [exact Hreach|].
  pose proof (validation_epoch_end_never_divides_by_zero classify self Hreach)
    as (Hresult & _ & Hempty).
  split; [|exact Hempty].
  intros Hzero. unfold self in Hresult, Hzero. by rewrite Hzero in Hresult.
Defined.

(** ** Runs of the control skeleton *)

Section RunFacts.
Import Py.

Lemma extends_refl t out :
  (∀ e, out ≠ Raised e) → extends t (out, t).
Proof.
  intros Hout. exists []. split; [by rewrite app_nil_r|].
  simpl. destruct out; [constructor..|]. by destruct (Hout exn).
Qed.

Lemma perform_extends w f t : extends t (perform w f t).
Proof.
  unfold perform. destruct (fails w (length t)) as [e|]; simpl.
  - exists [Event f (Some e)]. split; [done|]. exists [], f. by split.
  - exists [Event f None]. split; [done|]. simpl. by repeat constructor.
Qed.

(** Running on after a part that ended normally. *)
Lemma extends_trans t out1 t1 r :
  extends t (out1, t1) → (∀ e, out1 ≠ Raised e) → extends t1 r → extends t r.
Proof.
  intros (new1 & Ht1 & Hnew1) Hout (new2 & Ht2 & Hnew2). simpl in *.
  assert (Forall succeeded new1) as Hok.
  { destruct out1; try done. by destruct (Hout exn). }
  exists (new1 ++ new2). split; [by rewrite Ht2, Ht1, app_assoc|].
  destruct r.1.
  - by apply Forall_app.
  - by apply Forall_app.
  - destruct Hnew2 as (before & f & -> & Hbefore).
    exists (new1 ++ before), f. split; [by rewrite app_assoc|by apply Forall_app].
Qed.

Lemma iterate_extends n body t :
  (∀ t0, extends t0 (body t0)) → extends t (iterate n body t).
Proof.
  intros Hbody. revert t. induction n as [|n IH]; intros t; simpl.
  - by apply extends_refl.
  - pose proof (Hbody t) as Hstep.
    destruct (body t) as [[| |e] t1]; [|done..].
    eapply extends_trans; [exact Hstep|done|apply IH].
Qed.

(** Code without a handler and without a [raise] of its own only ever
    extends the trace. *)
Lemma exec_extends w s t : handles s = false → extends t (exec w s t).
Proof.
  revert t. induction s as [|a IHa b IHb| | | | | | |c a IHa b IHb|v it a IHa|a IHa h IHh];
    intros t Hh; simpl in *; try done;
    try (by apply extends_refl); try apply perform_extends.
  - apply orb_false_iff in Hh as [Ha Hb].
    pose proof (IHa t Ha) as Hstep.
    destruct (exec w a t) as [[| |e] t1]; [|done..].
    eapply extends_trans; [exact Hstep|done|by apply IHb].
  - apply orb_false_iff in Hh as [Ha Hb].
    destruct (holds w c (length t)); [by apply IHa|by apply IHb].
  - apply iterate_extends. intros t0. by apply IHa.
Qed.

Lemma extends_uncaught s :
  (∀ w t, extends t (exec w s t)) → uncaught s.
Proof.
  intros Hext w t out t' Hexec.
  destruct (Hext w t) as (new & Ht & Hnew). rewrite Hexec in Ht, Hnew. simpl in *.
  exists new. split; [done|]. intros f e Hin.
  assert (∀ l, Forall succeeded l → Event f (Some e) ∉ l) as Hnot.
  { intros l Hl Hin'. eapply Forall_forall in Hl; [|exact Hin']. done. }
  destruct out as [| |e'].
  - by destruct (Hnot new).
  - by destruct (Hnot new).
  - destruct Hnew as (before & f' & -> & Hbefore).
    apply elem_of_app in Hin as [Hin|Hin]; [by destruct (Hnot before)|].
    apply list_elem_of_singleton in Hin. injection Hin as -> ->.
    split; [done|]. by exists before.
Qed.

Lemma exec_uncaught s : handles s = false → uncaught s.
Proof. intros Hh. apply extends_uncaught. intros w t. by apply exec_extends. Qed.

(** A handler does swallow a failure: the property is not vacuous. *)
Lemma handler_catches : ¬ uncaught (Try (Call None "f" [] []) Skip).
Proof.
  intros Hun.
  destruct (Hun (World (λ _, Some "Error"%string) (λ _ _, true) (λ _, 0)) []
              Normal [Event "f" (Some "Error"%string)] eq_refl)
    as (new & Hnew & Hlast).
  simpl in Hnew. subst new.
  destruct (Hlast "f"%string "Error"%string) as [Hout _]; [by left|done].
Qed.

(** The events a run adds are calls and imports of the code. *)
Lemma perform_called w f t :
  ∃ new, (perform w f t).2 = t ++ new ∧ Forall (λ ev, callee ev = f) new.
Proof.
  unfold perform. destruct (fails w (length t)); simpl; eexists; split; try done;
    by repeat constructor.
Qed.

Lemma iterate_called n body t (P : event → Prop) :
  (∀ t0, ∃ new, (body t0).2 = t0 ++ new ∧ Forall P new) →
  ∃ new, (iterate n body t).2 = t ++ new ∧ Forall P new.
Proof.
  intros Hbody. revert t. induction n as [|n IH]; intros t; simpl.
  - exists []. by rewrite app_nil_r.
  - destruct (Hbody t) as (new1 & Ht1 & Hnew1).
    destruct (body t) as [[| |e] t1]; simpl in *; [|by eauto..].
    destruct (IH t1) as (new2 & Ht2 & Hnew2).
    exists (new1 ++ new2). rewrite Ht2, Ht1, app_assoc. split; [done|].
    by apply Forall_app.
Qed.

Lemma exec_called w s t :
  ∃ new, (exec w s t).2 = t ++ new ∧ Forall (λ ev, callee ev ∈ called s) new.
Proof.
  revert t.
  assert (∀ (P Q : event → Prop) t r, (∀ ev, P ev → Q ev) →
            (∃ new, r = t ++ new ∧ Forall P new) →
            ∃ new : list event, r = t ++ new ∧ Forall Q new) as Hweak.
  { intros P Q t r HPQ (new & ? & Hnew). exists new. split; [done|].
    by eapply Forall_impl. }
  assert (∀ a b x, x ∈ called a ∨ x ∈ called b →
                   x ∈ (fst <$> calls a ++ calls b) ++
                       ((λ m, "import " +:+ m) <$> imports a ++ imports b)) as Hsub.
  { intros a b x. unfold called. rewrite !fmap_app, !elem_of_app. tauto. }
  induction s as [|a IHa b IHb|m|x v|x|tg f args kw| |e|c a IHa b IHb|v it a IHa|a IHa h IHh];
    intros t; simpl;
    try (exists []; by rewrite app_nil_r).
  - destruct (IHa t) as (new1 & Ht1 & Hnew1).
    destruct (exec w a t) as [[| |e] t1]; simpl in *.
    + destruct (IHb t1) as (new2 & Ht2 & Hnew2).
      exists (new1 ++ new2). rewrite Ht2, Ht1, app_assoc. split; [done|].
      apply Forall_app. split; (eapply Forall_impl; [eassumption|]);
        intros ev Hev; apply Hsub; tauto.
    + eapply Hweak; [|by eauto]. intros ev Hev. apply Hsub; tauto.
    + eapply Hweak; [|by eauto]. intros ev Hev. apply Hsub; tauto.
  - eapply Hweak; [|apply perform_called]. intros ev ->. simpl.
    unfold called. simpl. by left.
  - eapply Hweak; [|apply perform_called]. intros ev ->. simpl.
    unfold called. simpl. by left.
  - destruct (holds w c (length t)).
    + eapply Hweak; [|apply IHa]. intros ev Hev. apply Hsub; tauto.
    + eapply Hweak; [|apply IHb]. intros ev Hev. apply Hsub; tauto.
  - apply iterate_called. intros t0. apply IHa.
  - destruct (IHa t) as (new1 & Ht1 & Hnew1).
    destruct (exec w a t) as [[| |e] t1]; simpl in *.
    + eapply Hweak; [|by eauto]. intros ev Hev. apply Hsub; tauto.
    + eapply Hweak; [|by eauto]. intros ev Hev. apply Hsub; tauto.
    + destruct (IHh t1) as (new2 & Ht2 & Hnew2).
      exists (new1 ++ new2). rewrite Ht2, Ht1, app_assoc. split; [done|].
      apply Forall_app. split; (eapply Forall_impl; [eassumption|]);
        intros ev Hev; apply Hsub; tauto.
Qed.

(** When no call fails, code that neither returns nor raises runs to its
    end. *)
Lemma iterate_quiet n body t :
  (∀ t0, (body t0).1 = Normal) → (iterate n body t).1 = Normal.
Proof.
  intros Hbody. revert t. induction n as [|n IH]; intros t; simpl; [done|].
  pose proof (Hbody t) as Hstep. destruct (body t) as [out t1]. simpl in Hstep.
  subst out. apply IH.
Qed.

Lemma exec_quiet w s t :
  Pipeline.quiet w → returns s = false → handles s = false →
  (exec w s t).1 = Normal.
Proof.
  intros Hq. revert t.
  induction s as [|a IHa b IHb| | | | | | |c a IHa b IHb|v it a IHa|a IHa h IHh];
    intros t Hr Hh; simpl in *; try done;
    try (unfold perform; by rewrite Hq).
  - apply orb_false_iff in Hr as [??]. apply orb_false_iff in Hh as [??].
    pose proof (IHa t) as Hstep.
    destruct (exec w a t) as [out t1]. simpl in Hstep. rewrite Hstep by done.
    by apply IHb.
  - apply orb_false_iff in Hr as [??]. apply orb_false_iff in Hh as [??].
    destruct (holds w c (length t)); [by apply IHa|by apply IHb].
  - apply iterate_quiet. intros t0. by apply IHa.
Qed.

Lemma exec_block_app w l1 l2 t :
  exec w (block (l1 ++ l2)) t =
  match exec w (block l1) t with
  | (Normal, t1) => exec w (block l2) t1
  | r => r
  end.
Proof.
  revert t. induction l1 as [|s l1 IH]; intros t; simpl; [done|].
  destruct (exec w s t) as [[| |e] t1]; [apply IH|done..].
Qed.

End RunFacts.

(** ** Claims about the notebooks as a whole *)

Section NotebookFacts.
Import Py Pipeline.

Lemma forallb_Forall {A} (f : A → bool) (l : list A) :
  forallb f l = true → Forall (λ x, f x = true) l.
Proof.
  induction l as [|x l IH]; simpl; [constructor|].
  intros [Hx Hl]%andb_true_iff. constructor; [done|by apply IH].
Qed.

Lemma units_unhandled :
  Forall (λ s, handles s = false) (units MoCoNotebook.cells ++ units SimCLRNotebook.cells).
Proof.
  eapply Forall_impl; [apply (forallb_Forall (negb ∘ handles)); by vm_compute|].
  intros s Hs. simpl in Hs. by apply negb_true_iff.
Qed.

Lemma filter_none {A} (P : A → Prop) `{∀ x, Decision (P x)} (l : list A) :
  Forall (λ x, ¬ P x) l → filter P l = [].
Proof.
  induction 1 as [|x l Hx Hl IH]; [done|].
  rewrite filter_cons, decide_False by done. exact IH.
Qed.

(** Code that calls no checkpoint writer adds no checkpoint write to the
    trace. *)
Lemma exec_saves_nothing w s t :
  forallb (negb ∘ is_checkpoint_save) (called s) = true →
  ∃ new, (exec w s t).2 = t ++ new ∧ checkpoint_saves new = [].
Proof.
  intros Hnone. apply forallb_Forall in Hnone.
  destruct (exec_called w s t) as (new & Ht & Hnew).
  exists new. split; [done|]. apply filter_none.
  eapply Forall_impl; [exact Hnew|]. intros ev Hev Hsave. simpl in *.
  eapply Forall_forall in Hnone; [|exact Hev]. simpl in Hnone.
  rewrite Hsave in Hnone. done.
Qed.

(** Whatever fails, a run of the SimCLR notebook makes no checkpoint call
    before its last event. *)
Lemma simclr_checkpoint_call_is_last w :
  ∃ before last,
    (run w SimCLRNotebook.cells).2 = before ++ last ∧
    checkpoint_saves before = [] ∧
    (last = [] ∨ ∃ r, last = [Event "checkpointer.save" r]).
Proof.
  set (l1 := flat_map cell_stmts (take 10 SimCLRNotebook.cells)).
  set (l2 := cell_stmts SimCLRNotebook.checkpoint_cell).
  change (run w SimCLRNotebook.cells) with (exec w (block (l1 ++ l2)) []).
  rewrite exec_block_app.
  assert (forallb (negb ∘ is_checkpoint_save) (called (block l1)) = true)
    as Hsaves by (by vm_compute).
  destruct (exec_saves_nothing w (block l1) [] Hsaves) as (new & Ht & Hnew).
  destruct (exec w (block l1) []) as [out t1]. simpl in Ht. subst t1.
  assert (∀ ev, is_checkpoint_save (callee ev) = false →
                checkpoint_saves (new ++ [ev]) = []) as Hsnoc.
  { intros ev Hev. unfold checkpoint_saves in *.
    rewrite filter_app, Hnew, filter_cons, decide_False; [done|]. by rewrite Hev. }
  destruct out; [|exists new, []; rewrite app_nil_r; by eauto..].
  simpl. unfold perform at 1.
  destruct (fails w (length new)) as [e|]; simpl.
  - exists (new ++ [Event "DetectionCheckpointer" (Some e)]), [].
    rewrite app_nil_r. split; [done|]. split; [by apply Hsnoc|by left].
  - unfold perform.
    destruct (fails w _) as [e|]; simpl;
      exists (new ++ [Event "DetectionCheckpointer" None]); eexists;
      (split; [reflexivity|]); (split; [by apply Hsnoc|]); right; by eexists.
Qed.

End NotebookFacts.

(** C1 as stated fails: neither notebook performs the whole sequence
    dataset, dataloader, framework subclass, optimizer, scheduler,
    trainer, checkpoint. The MoCo notebook never saves a checkpoint; the
    SimCLR notebook has no framework subclass, no scheduler and no
    trainer. *)
Lemma notebooks_do_not_share_pipeline :
  ¬ Pipeline.performs_pipeline MoCoNotebook.cells ∧
  ¬ Pipeline.performs_pipeline SimCLRNotebook.cells.
Proof. split; unfold Pipeline.performs_pipeline; by vm_compute. Qed.

(** C1, amended. The MoCo notebook constructs datasets, then dataloaders,
    then defines two LightningModule subclasses, each constructing its
    optimizer and scheduler in [configure_optimizers], and hands training
    to [trainer.fit]; it saves no checkpoint. The SimCLR notebook
    constructs a dataset, a dataloader and an optimizer, steps the
    optimizer in a loop of its own, and saves a checkpoint. *)
Theorem notebook_pipelines :
  Pipeline.stages (Pipeline.ops MoCoNotebook.cells) =
    [ Pipeline.ConstructDataset; Pipeline.ConstructDataloader;
      Pipeline.SubclassTrainingFramework; Pipeline.ConstructOptimizer;
      Pipeline.ConstructScheduler;
      Pipeline.SubclassTrainingFramework; Pipeline.ConstructOptimizer;
      Pipeline.ConstructScheduler;
      Pipeline.TrainerFit ] ∧
  Pipeline.stages (Pipeline.ops SimCLRNotebook.cells) =
    [ Pipeline.ConstructDataset; Pipeline.ConstructDataloader;
      Pipeline.ConstructOptimizer; Pipeline.OptimizerStepInCell;
      Pipeline.SaveCheckpoint ] ∧
  Pipeline.occurs_in_order
    [ Pipeline.ConstructDataset; Pipeline.ConstructDataloader;
      Pipeline.SubclassTrainingFramework; Pipeline.ConstructOptimizer;
      Pipeline.ConstructScheduler; Pipeline.TrainerFit ]
    (Pipeline.ops MoCoNotebook.cells) = true.
Proof. by vm_compute. Qed.

(** C2 as stated fails: [Classifier.on_validation_epoch_end] is a hook and
    it branches on [self.validation_step_outputs]. *)
Lemma validation_epoch_end_branches :
  Py.branches <$> Py.find_method MoCoNotebook.cells "Classifier.on_validation_epoch_end"
    = Some true ∧
  ¬ Forall (λ h, Py.straight_line <$> Py.find_method MoCoNotebook.cells h = Some true)
      MoCoNotebook.hooks.
Proof.
  split; [by vm_compute|]. intros Hall.
  pose proof (Forall_lookup_1 _ _ 6 "Classifier.on_validation_epoch_end"%string
                Hall eq_refl) as Hhook.
  vm_compute in Hhook. discriminate.
Qed.

(** C2, amended. No hook handles or raises an error. Every hook except
    [Classifier.on_validation_epoch_end] is straight-line code; that one
    has a conditional with a loop inside. The helper
    [custom_histogram_weights], which [on_train_epoch_end] calls, loops
    over the named parameters. *)
Theorem hooks_straight_line_but_validation_epoch_end :
  Forall (λ h, Py.handles <$> Py.find_method MoCoNotebook.cells h = Some false)
    MoCoNotebook.hooks ∧
  Forall (λ h, Py.straight_line <$> Py.find_method MoCoNotebook.cells h
               = Some (negb (bool_decide (h = "Classifier.on_validation_epoch_end"%string))))
    MoCoNotebook.hooks ∧
  (λ s, (Py.branches s, Py.loops s))
    <$> Py.find_method MoCoNotebook.cells "Classifier.on_validation_epoch_end"
    = Some (true, true) ∧
  Py.loops <$> Py.find_method MoCoNotebook.cells "MocoModel.custom_histogram_weights"
    = Some true ∧
  Py.loops <$> Py.find_method MoCoNotebook.cells "Classifier.custom_histogram_weights"
    = Some true.
Proof.
  unfold MoCoNotebook.hooks.
  split; [check_each|]. split; [check_each|]. by vm_compute.
Qed.

(** C4. No cell and no method of either notebook has an exception
    handler. Whenever a library call made by one of them fails, the cell
    or method ends with that exception and the failed call is the last
    thing it did. The same holds for running the cells of a notebook in
    order. *)
Theorem repository_code_catches_nothing :
  Forall (λ s, Py.handles s = false ∧ Py.uncaught s)
    (Py.units MoCoNotebook.cells ++ Py.units SimCLRNotebook.cells) ∧
  Py.uncaught (Py.program MoCoNotebook.cells) ∧
  Py.uncaught (Py.program SimCLRNotebook.cells).
Proof.
  split; [|split].
  - eapply Forall_impl; [apply units_unhandled|].
    intros s Hs. simpl in *. split; [done|by apply exec_uncaught].
  - apply exec_uncaught. by vm_compute.
  - apply exec_uncaught. by vm_compute.
Qed.

(** C5 as stated fails: a run of the MoCo notebook in which every call
    succeeds does not write a checkpoint from the notebook's code. *)
Lemma moco_run_writes_no_checkpoint :
  let w := Py.World (λ _, None) (λ _ _, true) (λ _, 1) in
  Pipeline.quiet w ∧
  length (Pipeline.checkpoint_saves (Py.run w MoCoNotebook.cells).2) ≠ 1.
Proof. split; [done|by vm_compute]. Qed.

(** C5, amended. When no call fails, a run of the SimCLR notebook ends
    with its one call of [checkpointer.save]: every call of the training
    loop comes before it and no checkpoint is written earlier. The code of
    the MoCo notebook, cells and methods, never calls a checkpoint
    writer. *)
Theorem simclr_saves_checkpoint_once_after_training (w : Py.world) :
  Pipeline.quiet w →
  (∃ before,
     Py.run w SimCLRNotebook.cells
       = (Py.Normal, before ++ [Py.Event "checkpointer.save" None]) ∧
     Pipeline.checkpoint_saves before = []) ∧
  Pipeline.checkpoint_saves (Py.run w MoCoNotebook.cells).2 = [] ∧
  Forall (λ s, Forall (λ c, Pipeline.is_checkpoint_save c.1 = false) (Py.calls s))
    (Py.units MoCoNotebook.cells).
Proof.
  intros Hq. split; [|split].
  - set (l1 := flat_map Py.cell_stmts (take 10 SimCLRNotebook.cells)).
    set (l2 := Py.cell_stmts SimCLRNotebook.checkpoint_cell).
    change (Py.run w SimCLRNotebook.cells) with (Py.exec w (Py.block (l1 ++ l2)) []).
    rewrite exec_block_app.
    assert (Py.returns (Py.block l1) = false) as Hret by (by vm_compute).
    assert (Py.handles (Py.block l1) = false) as Hhan by (by vm_compute).
    assert (forallb (negb ∘ Pipeline.is_checkpoint_save) (Py.called (Py.block l1)) = true)
      as Hsaves by (by vm_compute).
    pose proof (exec_quiet w (Py.block l1) [] Hq Hret Hhan) as Hnormal.
    destruct (exec_saves_nothing w (Py.block l1) [] Hsaves) as (new & Ht & Hnew).
    destruct (Py.exec w (Py.block l1) []) as [out t1]. simpl in Hnormal, Ht.
    subst out t1. simpl. unfold Py.perform. rewrite !Hq.
    exists (new ++ [Py.Event "DetectionCheckpointer" None]). split; [done|].
    unfold Pipeline.checkpoint_saves in *. rewrite filter_app, Hnew. done.
  - assert (forallb (negb ∘ Pipeline.is_checkpoint_save)
              (Py.called (Py.program MoCoNotebook.cells)) = true)
      as Hsaves by (by vm_compute).
    destruct (exec_saves_nothing w (Py.program MoCoNotebook.cells) [] Hsaves)
      as (new & Ht & Hnew).
    unfold Py.run. by rewrite Ht.
  - assert (forallb (λ s, forallb (λ c, negb (Pipeline.is_checkpoint_save c.1)) (Py.calls s))
              (Py.units MoCoNotebook.cells) = true) as Hall by (by vm_compute).
    apply forallb_Forall in Hall.
    eapply Forall_impl; [exact Hall|]. intros s Hs. simpl in Hs.
    apply forallb_Forall in Hs. eapply Forall_impl; [exact Hs|].
    intros c Hc. simpl in Hc. by apply negb_true_iff.
Qed.

(** A run in which no call fails and every loop makes two rounds. *)
Lemma simclr_saves_checkpoint_once_after_training_witness :
  let w := Py.World (λ _, None) (λ _ _, true) (λ _, 2) in
  Pipeline.quiet w ∧
  ∃ before,
    Py.run w SimCLRNotebook.cells
      = (Py.Normal, before ++ [Py.Event "checkpointer.save" None]) ∧
    Pipeline.checkpoint_saves before = [].
Proof.
  intros w.
  assert (Pipeline.quiet w) as Hq by (intros k; reflexivity).
  split; [exact Hq|].
  exact (proj1 (simclr_saves_checkpoint_once_after_training w Hq)).
Defined.

(** ** The container *)

Section ContainerFacts.
Import Container.

(** With [--follow] and [--retry], [tail] goes on whether or not the file
    is there. *)
Lemma tail_follow_retry_runs i present rounds :
  follow i = true → retry i = true → after i present rounds = Running.
Proof.
  intros Hf Hr. induction rounds as [|n IH]; simpl; [done|].
  rewrite IH. unfold round. rewrite Hf, Hr. by destruct (present n).
Qed.

(** Without [--retry] the same command ends at once when the file is not
    there. *)
Lemma tail_follow_alone_exits :
  (i ← parse (String.words "tail -f anything"); Some (after i (λ _, false) 1))
  = Some (Exited 1).
Proof. by vm_compute. Qed.

(** Once [tail -f] has opened the file it goes on, whatever becomes of
    the file's name. *)
Lemma tail_follow_keeps_open :
  (i ← parse (String.words "tail -f anything");
   Some (after i (λ n, bool_decide (n = 0)) 3))
  = Some Running.
Proof. by vm_compute. Qed.

End ContainerFacts.

(** C9. The command of the compose service is [tail -F] on the file
    [anything], which no instruction of the image build writes; whether
    or not that file ever appears, the process is still running after any
    number of rounds. The image build sets no command, entry point or
    exposed port, and the service has no [ports], [expose],
    [network_mode] or [networks] entry. *)
Theorem compose_container_idles_without_ports (present : nat → bool) (rounds : nat) :
  Container.command = Some ["tail"; "-F"; "anything"]%string ∧
  (Container.command ≫= Container.parse)
    = Some (Container.Invocation true true ["anything"%string]) ∧
  Container.container present rounds = Some Container.Running ∧
  Forall (λ key, (Container.service ≫= Container.get key) = None)
    Container.network_keys ∧
  Forall (λ i, Container.writes "anything" i = false ∧ Container.serves i = false)
    Container.Dockerfile.
Proof.
  assert (Container.command = Some ["tail"; "-F"; "anything"]%string) as Hcmd
    by (by vm_compute).
  split; [exact Hcmd|]. split; [by rewrite Hcmd|]. split; [|split].
  - unfold Container.container. rewrite Hcmd. simpl.
    by rewrite tail_follow_retry_runs.
  - unfold Container.network_keys. check_each.
  - unfold Container.Dockerfile. check_each.
Qed.

(** C10. Every dataloader the notebooks construct is given
    [num_workers = num_workers], which the configuration cell sets to 8,
    and [num_workers] is passed to nothing else. No cell and no method
    imports or calls anything that creates threads, processes or locks.
    Both trainers are given one device. *)
Theorem num_workers_is_the_only_concurrency_setting :
  (λ kw, Py.assoc "num_workers" kw ≫= Pipeline.resolve MoCoNotebook.cells)
    <$> Pipeline.dataloader_calls MoCoNotebook.cells
    = [Some (Py.Int 8); Some (Py.Int 8); Some (Py.Int 8)] ∧
  (λ kw, Py.assoc "num_workers" kw ≫= Pipeline.resolve SimCLRNotebook.cells)
    <$> Pipeline.dataloader_calls SimCLRNotebook.cells
    = [Some (Py.Int 8)] ∧
  fst <$> filter (λ c, Pipeline.passes "num_workers" c = true)
            (Pipeline.all_calls MoCoNotebook.cells ++ Pipeline.all_calls SimCLRNotebook.cells)
    = replicate 4 "torch.utils.data.DataLoader"%string ∧
  filter (λ c, Pipeline.names_concurrency c.1 = true)
    (Pipeline.all_calls MoCoNotebook.cells ++ Pipeline.all_calls SimCLRNotebook.cells) = [] ∧
  filter (λ m, Pipeline.names_concurrency m = true)
    (Pipeline.all_imports MoCoNotebook.cells ++ Pipeline.all_imports SimCLRNotebook.cells) = [] ∧
  (λ c, Py.assoc "devices" c.2)
    <$> filter (λ c, c.1 = "pl.Trainer"%string) (Pipeline.all_calls MoCoNotebook.cells)
    = [Some (Py.Int 1); Some (Py.Int 1)].
Proof. repeat split; by vm_compute. Qed.

(* ================================================================== *)
(** * Part III. Further properties of the code                         *)
(* ================================================================== *)

(** ** [MocoModel]: what a step writes, and how far *)

Section MocoMore.
Import Torch Lightly MocoModel.
Context {image feature embedding : Type}.
Variable backbone_fwd : list float32 → list image → Exn.t + list feature.
Variable head_fwd : list float32 → list feature → Exn.t + list embedding.
Variable criterion : list embedding → list embedding → Exn.t + float32.

#[local] Abbreviation training_step := (training_step backbone_fwd head_fwd criterion).
#[local] Abbreviation fit_iteration := (fit_iteration backbone_fwd head_fwd criterion).
#[local] Abbreviation fit := (fit backbone_fwd head_fwd criterion).

Lemma zip_fst_elem (l k : list nat) x : x ∈ (zip l k).*1 → x ∈ l.
Proof.
  intros ([a b] & -> & Hin)%list_elem_of_fmap. by eapply elem_of_zip_l.
Qed.

Lemma read_app h m1 m2 : read h (m1 ++ m2) = read h m1 ++ read h m2.
Proof. unfold read. apply omap_app. Qed.

(** Training keeps the heap's size and every [requires_grad] flag. *)
Lemma fit_length_flags h self its i :
  wf h self →
  length (fit self h its).1 = length h ∧
  requires_grad <$> (fit self h its).1 !! i = requires_grad <$> h !! i.
Proof.
  revert h. induction its as [|it its IH]; intros h Hwf; [done|].
  simpl.
  pose proof (fit_iteration_wf backbone_fwd head_fwd criterion h self it Hwf) as Hwf'.
  pose proof (fit_iteration_length backbone_fwd head_fwd criterion h self it Hwf) as Hlen.
  pose proof (fit_iteration_requires_grad backbone_fwd head_fwd criterion h self it i Hwf)
    as Hrg.
  destruct (fit_iteration self h it) as [h' [e|]]; cbn [fst] in *; [done|].
  destruct (IH h' Hwf') as [Hlen' Hrg'].
  split; [by rewrite Hlen'|by rewrite Hrg'].
Qed.

(** After [__init__] the online parameters require gradients. *)
Lemma moco_init_online_trainable h0 backbone_init head_init :
  let h1 := (__init__ h0 backbone_init head_init).1 in
  let self := (__init__ h0 backbone_init head_init).2 in
  Forall (λ i, requires_grad <$> h1 !! i = Some true) (online_parameters self).
Proof.
  intros h1 self. subst h1 self. rewrite moco_init_spec. cbv zeta.
  unfold online_parameters.
  cbn [fst snd backbone projection_head].
  set (A := (λ v, Tensor v true) <$> backbone_init).
  set (B := (λ v, Tensor v true) <$> head_init).
  set (n := length h0). set (a := length backbone_init). set (b := length head_init).
  assert (length A = a) as HA by apply length_fmap.
  assert (length B = b) as HB by apply length_fmap.
  assert (seq n a ++ seq (n + a) b = seq n (a + b)) as -> by (by rewrite seq_app).
  apply Forall_seq. intros i Hi.
  rewrite !deactivate_lookup.
  rewrite (decide_False (P := i ∈ seq (n + a + b + a) b))
    by (rewrite elem_of_seq; lia).
  rewrite (decide_False (P := i ∈ seq (n + a + b) a))
    by (rewrite elem_of_seq; lia).
  rewrite lookup_app_r by (fold n; lia).
  rewrite (app_assoc A B), lookup_app_l by (rewrite length_app; fold n; lia).
  assert (Forall (λ t, requires_grad t = true) (A ++ B)) as Hall.
  { apply Forall_app. split; subst A B; apply Forall_fmap, Forall_true; done. }
  destruct (lookup_lt_is_Some_2 (A ++ B) (i - length h0)) as [t Ht].
  { rewrite length_app. fold n. lia. }
  rewrite Ht. simpl. f_equal. by eapply Forall_lookup_1 in Hall.
Qed.

(** A parameter handed once to the optimizer is rewritten once. *)
Lemma optimizer_step_at h params grad upd p t gv :
  NoDup params → p ∈ params → grad p = Some gv → h !! p = Some t →
  optimizer_step h params grad upd !! p
  = Some (Tensor (upd p (data t) gv) (requires_grad t)).
Proof.
  unfold optimizer_step. revert h.
  induction params as [|q params IH]; intros h Hnd Hin Hg Hp; [by inversion Hin|].
  apply NoDup_cons in Hnd as [Hq Hnd]. simpl.
  destruct (decide (p = q)) as [->|Hne].
  - rewrite Hg. fold (optimizer_step
      (alter (λ t0, Tensor (upd q (data t0) gv) (requires_grad t0)) q h) params grad upd).
    rewrite optimizer_step_frame by done.
    by rewrite list_lookup_alter_eq, Hp.
  - apply elem_of_cons in Hin as [?|Hin]; [done|].
    apply IH; try done.
    destruct (grad q); [|done]. by rewrite list_lookup_alter_ne.
Qed.

End MocoMore.

(** After [__init__] and any training, the online parameters require
    gradients. *)
Lemma fit_online_trainable
    {image feature embedding : Type}
    (backbone_fwd : list Float.float32 → list image → Exn.t + list feature)
    (head_fwd : list Float.float32 → list feature → Exn.t + list embedding)
    (criterion : list embedding → list embedding → Exn.t + Float.float32)
    (h0 : list Torch.tensor) (backbone_init head_init : list Float.float32)
    (its : list (@MocoModel.iteration image)) :
  let h1 := (MocoModel.__init__ h0 backbone_init head_init).1 in
  let self := (MocoModel.__init__ h0 backbone_init head_init).2 in
  Forall (λ i, Torch.requires_grad
                 <$> (MocoModel.fit backbone_fwd head_fwd criterion self h1 its).1 !! i
               = Some true)
    (MocoModel.online_parameters self).
Proof.
  intros h1 self.
  pose proof (moco_init_wf h0 backbone_init head_init) as Hwf. fold h1 self in Hwf.
  pose proof (moco_init_online_trainable h0 backbone_init head_init) as Hon.
  fold h1 self in Hon. eapply Forall_impl; [exact Hon|]. intros i Hi. simpl in *.
  by rewrite (proj2 (fit_length_flags backbone_fwd head_fwd criterion h1 self its i Hwf)).
Qed.

(** X1. [MocoModel.training_step] writes momentum parameters only: the
    heap keeps its size, every tensor keeps its [requires_grad] flag, and
    a tensor outside the two momentum networks is left as it was. *)
Theorem training_step_writes_momentum_only
    {image feature embedding : Type}
    (backbone_fwd : list Float.float32 → list image → Exn.t + list feature)
    (head_fwd : list Float.float32 → list feature → Exn.t + list embedding)
    (criterion : list embedding → list embedding → Exn.t + Float.float32)
    (h : list Torch.tensor) (self : MocoModel.t)
    (randperm : nat → list nat) (x_q x_k : list image) (i : nat) :
  let h' := (MocoModel.training_step backbone_fwd head_fwd criterion h self
               randperm x_q x_k).1 in
  length h' = length h ∧
  Torch.requires_grad <$> h' !! i = Torch.requires_grad <$> h !! i ∧
  (i ∈ MocoModel.momentum_parameters self ∨ h' !! i = h !! i).
Proof.
  intros h'. subst h'. unfold MocoModel.training_step, Lightly.update_momentum.
  cbn [fst]. split; [by rewrite !momentum_fold_length|].
  split; [by rewrite !momentum_fold_requires_grad|].
  destruct (decide (i ∈ MocoModel.momentum_parameters self)) as [Hi|Hi]; [by left|].
  right. unfold MocoModel.momentum_parameters in Hi.
  rewrite !momentum_fold_frame; [done| |].
  - intros Hin%zip_fst_elem. apply Hi, elem_of_app. by left.
  - intros Hin%zip_fst_elem. apply Hi, elem_of_app. by right.
Qed.

(** X4. Training keeps the heap's size and every [requires_grad] flag:
    after any number of iterations the online parameters still require
    gradients and the momentum parameters still do not. *)
Theorem training_keeps_flags
    {image feature embedding : Type}
    (backbone_fwd : list Float.float32 → list image → Exn.t + list feature)
    (head_fwd : list Float.float32 → list feature → Exn.t + list embedding)
    (criterion : list embedding → list embedding → Exn.t + Float.float32)
    (h0 : list Torch.tensor) (backbone_init head_init : list Float.float32)
    (its : list (@MocoModel.iteration image)) :
  let h1 := (MocoModel.__init__ h0 backbone_init head_init).1 in
  let self := (MocoModel.__init__ h0 backbone_init head_init).2 in
  let hn := (MocoModel.fit backbone_fwd head_fwd criterion self h1 its).1 in
  length hn = length h1 ∧
  Forall (λ i, Torch.requires_grad <$> hn !! i = Some true)
    (MocoModel.online_parameters self) ∧
  Forall (λ i, Torch.requires_grad <$> hn !! i = Some false)
    (MocoModel.momentum_parameters self).
Proof.
  intros h1 self hn.
  pose proof (moco_init_wf h0 backbone_init head_init) as Hwf. fold h1 self in Hwf.
  split; [|split].
  - by apply (fit_length_flags backbone_fwd head_fwd criterion h1 self its 0).
  - apply fit_online_trainable.
  - apply (MocoModel.wf_frozen _ _ (fit_wf backbone_fwd head_fwd criterion h1 self its Hwf)).
Qed.

(** X5. In an iteration that completes, with the gradients [g] that
    [backward] left: when the gradient scaler found no overflow, the
    optimizer has rewritten every online parameter exactly once, by its
    rule for that parameter applied to the value the parameter had
    before the iteration and to its gradient; when the scaler found an
    overflow, every online parameter keeps its value. *)
Theorem online_parameters_updated_once
    {image feature embedding : Type}
    (backbone_fwd : list Float.float32 → list image → Exn.t + list feature)
    (head_fwd : list Float.float32 → list feature → Exn.t + list embedding)
    (criterion : list embedding → list embedding → Exn.t + Float.float32)
    (h0 : list Torch.tensor) (backbone_init head_init : list Float.float32)
    (its : list (@MocoModel.iteration image))
    (it : @MocoModel.iteration image) (g : nat → Float.float32) :
  let h1 := (MocoModel.__init__ h0 backbone_init head_init).1 in
  let self := (MocoModel.__init__ h0 backbone_init head_init).2 in
  let hn := (MocoModel.fit backbone_fwd head_fwd criterion self h1 its).1 in
  let r := MocoModel.fit_iteration backbone_fwd head_fwd criterion self hn it in
  r.2 = None →
  Torch.gradients (MocoModel.it_descent it) = inr g →
  Torch.read r.1 (MocoModel.online_parameters self)
  = if MocoModel.it_found_inf it
    then Torch.read hn (MocoModel.online_parameters self)
    else zip_with (λ p old, Torch.rule (MocoModel.it_descent it) p old (g p))
           (MocoModel.online_parameters self)
           (Torch.read hn (MocoModel.online_parameters self)).
Proof.
  intros h1 self hn r Hdone Hg.
  pose proof (moco_init_wf h0 backbone_init head_init) as Hwf1. fold h1 self in Hwf1.
  pose proof (fit_wf backbone_fwd head_fwd criterion h1 self its Hwf1) as Hwf.
  fold hn in Hwf.
  pose proof (fit_iteration_wf backbone_fwd head_fwd criterion hn self it Hwf) as Hwf'.
  fold r in Hwf'.
  destruct (wf_alloc_split _ _ Hwf) as (_ & Honl & _).
  destruct (wf_alloc_split _ _ Hwf') as (_ & Honl' & _).
  destruct (read_lookup _ _ Honl) as [Lonl Ronl].
  destruct (read_lookup _ _ Honl') as [Lonl' Ronl'].
  pose proof (MocoModel.wf_nodup _ _ Hwf) as Hnd.
  pose proof Hnd as Hnd'. rewrite parameters_split in Hnd'.
  apply NoDup_app in Hnd' as (_ & Hsep & _).
  assert (∀ p, p ∈ MocoModel.online_parameters self →
            (MocoModel.training_step backbone_fwd head_fwd criterion hn self
               (MocoModel.it_randperm it) (MocoModel.it_x_q it)
               (MocoModel.it_x_k it)).1 !! p = hn !! p) as Hframe.
  { intros p Hp. apply training_step_frame; [done|by apply Hsep]. }
  subst r. unfold MocoModel.fit_iteration in *.
  destruct (MocoModel.training_step _ _ _ _ _ _ _ _) as [hs [e|out]];
    cbn [fst snd] in *; [done|].
  rewrite Hg in *.
  destruct (MocoModel.it_found_inf it); cbn [fst snd] in *.
  { apply read_ext. intros p Hp. by rewrite Hframe. }
  unfold Torch.backward_step in *. rewrite Hg in *.
  destruct (Torch.interrupted (MocoModel.it_descent it)) as [[written e]|];
    cbn [fst snd] in *; [done|].
  apply (list_eq_same_length _ _ (length (MocoModel.online_parameters self))).
  - rewrite length_zip_with, Lonl. lia.
  - done.
  - intros j x y Hj Hx Hy.
    apply lookup_zip_with_Some in Hy as (p & old & -> & Hp & Hold).
    destruct (Ronl _ _ Hp) as (t & Ht & Hread).
    destruct (Ronl' _ _ Hp) as (t' & Ht' & Hread').
    assert (p ∈ MocoModel.online_parameters self) as Hin
      by (by eapply list_elem_of_lookup_2).
    assert (Torch.requires_grad t = true) as Hflag.
    { pose proof (fit_online_trainable backbone_fwd head_fwd criterion h0 backbone_init
                    head_init its) as Hon.
      cbv zeta in Hon. fold h1 self in Hon. fold hn in Hon.
      eapply Forall_forall in Hon; [|exact Hin].
      rewrite Ht in Hon. by injection Hon. }
    rewrite (optimizer_step_at hs _ _ _ p t (g p)) in Ht'.
    + rewrite Hread in Hold. rewrite Hread' in Hx. by simplify_eq.
    + done.
    + unfold MocoModel.configure_optimizers. rewrite parameters_split.
      apply elem_of_app. by left.
    + unfold Torch.backward. rewrite Hframe, Ht by done. simpl. by rewrite Hflag.
    + by rewrite Hframe.
Qed.

(** The first iteration after [__init__], with gradient 1 for every
    parameter and the rule [p - g]. *)
Lemma online_parameters_updated_once_witness :
  let bf := λ (_ : list Float.float32) (x : list nat),
              inr (B := list nat) (A := Exn.t) (S <$> x) in
  let hf := λ (_ : list Float.float32) (x : list nat),
              inr (B := list nat) (A := Exn.t) (Nat.mul 2 <$> x) in
  let cr := λ (_ _ : list nat), inr (B := Float.float32) (A := Exn.t) (Float.of_Z32 0) in
  let g := λ (_ : nat), Float.of_Z32 1 in
  let sgd := Torch.Descent (inr g) (λ _ p g, Float.sub32 p g) None in
  let it := MocoModel.Iteration [1; 2; 3] [10; 20; 30] (λ _, [2; 0; 1]) sgd false in
  let st := MocoModel.__init__ [] [Float.of_Z32 1] [Float.of_Z32 2] in
  let r := MocoModel.fit_iteration bf hf cr st.2 (MocoModel.fit bf hf cr st.2 st.1 []).1 it in
  r.2 = None ∧
  Torch.gradients (MocoModel.it_descent it) = inr g ∧
  Float.to_Q <$> Torch.read r.1 (MocoModel.online_parameters st.2) = [Some 0%Q; Some 1%Q].
Proof.
  intros bf hf cr g sgd it st r.
  assert (r.2 = None) as Hdone by (vm_compute; reflexivity).
  split; [exact Hdone|]. split; [reflexivity|].
  pose proof (online_parameters_updated_once bf hf cr [] [Float.of_Z32 1] [Float.of_Z32 2]
                [] it g Hdone eq_refl) as Hupd.
  cbv zeta in Hupd. unfold r, st. rewrite Hupd.
  vm_compute. reflexivity.
Defined.

(** ** The classifier stage on top of the trained model *)

Section ClassifierMore.
Import Torch Lightly Classifier.

Lemma totals_bounds (outputs : list (nat * Q)) n c :
  Forall (λ o, (0 <= o.2 <= inject_Z (Z.of_nat o.1))%Q) outputs →
  (0 <= c <= inject_Z (Z.of_nat n))%Q →
  let r := foldl (λ '(total_num, total_correct) '(num, correct),
                    (total_num + num, (total_correct + correct)%Q)) (n, c) outputs in
  (0 <= r.2 <= inject_Z (Z.of_nat r.1))%Q.
Proof.
  intros Hall. revert n c.
  induction Hall as [|[num correct] outputs Ho Hall IH]; intros n c Hc; [done|].
  simpl. apply IH. simpl in Ho.
  rewrite Nat2Z.inj_add, inject_Z_plus. lra.
Qed.

Lemma totals_snd (outputs : list (nat * Q)) n c :
  Qeq (foldl (λ '(total_num, total_correct) '(num, correct),
                (total_num + num, (total_correct + correct)%Q)) (n, c) outputs).2
      (c + SimCLR.Qsum outputs.*2)%Q.
Proof.
  revert n c. induction outputs as [|[num correct] outputs IH]; intros n c; simpl.
  - ring.
  - rewrite IH. symmetry. apply Qplus_assoc.
Qed.

(** When every accumulated count of correct predictions lies between 0
    and its [num], and every [num] is positive, the accuracy is a
    fraction. *)
Lemma epoch_end_fraction self :
  Forall (λ o, 0 < o.1) (validation_step_outputs self) →
  Forall (λ o, (0 <= o.2 <= inject_Z (Z.of_nat o.1))%Q) (validation_step_outputs self) →
  match (on_validation_epoch_end self).2 with
  | LoggedAccuracy acc => (0 <= acc <= 1)%Q
  | NothingLogged => validation_step_outputs self = []
  | ZeroDivisor => False
  end.
Proof.
  intros Hpos Hbounds.
  destruct (epoch_end_spec self Hpos) as [Hresult _].
  destruct (on_validation_epoch_end self).2 as [|acc|]; [done| |done].
  destruct Hresult as (_ & Htot & ->).
  assert (0 <= 0 <= inject_Z (Z.of_nat 0))%Q as Hzero by (split; apply Qle_refl).
  pose proof (totals_bounds (validation_step_outputs self) 0 0 Hbounds Hzero) as Hb.
  cbv zeta in Hb.
  fold (totals (validation_step_outputs self)) in Hb.
  destruct (totals (validation_step_outputs self)) as [n c].
  cbn [fst snd] in *.
  assert (0 < inject_Z (Z.of_nat n))%Q as Hn.
  { change 0%Q with (inject_Z 0). rewrite <- Zlt_Qlt. lia. }
  destruct Hb as [Hc0 Hcn].
  split.
  - apply Qle_shift_div_l; [done|]. lra.
  - apply Qle_shift_div_r; [done|]. lra.
Qed.

Section Validation.
Context {image : Type}.
Variable classify : list float32 → list float32 → image → nat.

#[local] Abbreviation validation_step := (validation_step classify).
#[local] Abbreviation validation_steps := (validation_steps classify).
#[local] Abbreviation validation_loop := (validation_loop classify).
#[local] Abbreviation batch_output := (Accuracy.batch_output classify).
#[local] Abbreviation correct := (Accuracy.correct classify).

Lemma zip_predictions (f : image → nat) (samples : list (image * nat)) :
  zip (f <$> samples.*1) samples.*2 = (λ s, (f s.1, s.2)) <$> samples.
Proof.
  induction samples as [|[x y] samples IH]; [done|].
  rewrite !fmap_cons. cbn [zip zip_with fst snd]. by f_equal.
Qed.

Lemma length_filter_fmap {A B} (P : B → Prop) `{∀ b, Decision (P b)}
    (g : A → B) (l : list A) :
  length (filter P (g <$> l)) = length (filter (λ a, P (g a)) l).
Proof.
  induction l as [|a l IH]; [done|].
  rewrite fmap_cons, !filter_cons.
  destruct (decide (P (g a))); cbn [length]; by rewrite IH.
Qed.

(** On a batch of labelled samples the comparison pairs every
    prediction with the label of its sample. *)
Lemma count_correct_samples h self (samples : list (image * nat)) :
  count_correct (classify (read h (backbone self)) (read h (fc self)) <$> samples.*1)
    samples.*2
  = inr (inject_Z (Z.of_nat (correct h self samples))).
Proof.
  unfold count_correct, Accuracy.correct.
  rewrite broadcast_same_length by (by rewrite !length_fmap).
  simpl. do 3 f_equal.
  rewrite zip_predictions. apply length_filter_fmap.
Qed.

Lemma validation_step_samples h self (batch : list (image * nat)) :
  validation_step h self batch.*1 batch.*2
  = inr (Build (backbone self) (fc self)
           (validation_step_outputs self ++ [batch_output h self batch]),
         batch_output h self batch).
Proof.
  unfold Classifier.validation_step. rewrite count_correct_samples. simpl.
  unfold Accuracy.batch_output. by rewrite !length_fmap.
Qed.

Lemma validation_fold h self (dataloader : list (list (image * nat))) :
  validation_steps h self dataloader
  = inr (Build (backbone self) (fc self)
           (validation_step_outputs self ++ (batch_output h self <$> dataloader))).
Proof.
  revert self. induction dataloader as [|batch dataloader IH]; intros self.
  - simpl. rewrite app_nil_r. by destruct self.
  - cbn [Classifier.validation_steps]. rewrite validation_step_samples. simpl.
    rewrite IH. simpl. by rewrite <- app_assoc.
Qed.

(** After [on_validation_epoch_end] the accumulator is empty and the
    networks are the same. *)
Lemma epoch_end_state self :
  (on_validation_epoch_end self).1 = Build (backbone self) (fc self) [].
Proof.
  unfold on_validation_epoch_end.
  destruct self as [b f [|o outputs]]; simpl; [done|].
  by destruct (totals _).
Qed.

Lemma validation_loop_returns h self dataloader :
  validation_loop h self dataloader
  = inr (on_validation_epoch_end
           (Build (backbone self) (fc self)
              (validation_step_outputs self ++ (batch_output h self <$> dataloader)))).
Proof. unfold Classifier.validation_loop. by rewrite validation_fold. Qed.

Lemma batch_outputs_bounds h self (dataloader : list (list (image * nat))) :
  Forall (λ o, (0 <= o.2 <= inject_Z (Z.of_nat o.1))%Q) (batch_output h self <$> dataloader).
Proof.
  apply Forall_fmap, Forall_true. intros batch. simpl. split.
  - change 0%Q with (inject_Z 0). rewrite <- Zle_Qle. lia.
  - rewrite <- Zle_Qle. apply inj_le. apply length_filter.
Qed.

Lemma batch_outputs_positive h self (dataloader : list (list (image * nat))) :
  Forall (λ batch, batch ≠ []) dataloader →
  Forall (λ o, 0 < o.1) (batch_output h self <$> dataloader).
Proof.
  intros Hne. apply Forall_fmap. eapply Forall_impl; [exact Hne|].
  intros [|s batch] Hb; [done|]. simpl. lia.
Qed.

Lemma correct_concat h self (dataloader : list (list (image * nat))) :
  (SimCLR.Qsum (batch_output h self <$> dataloader).*2
   == inject_Z (Z.of_nat (correct h self (concat dataloader))))%Q.
Proof.
  induction dataloader as [|batch dataloader IH]; simpl; [reflexivity|].
  rewrite IH. unfold Accuracy.correct.
  rewrite filter_app, length_app, Nat2Z.inj_add, inject_Z_plus. reflexivity.
Qed.

Lemma lengths_concat h self (dataloader : list (list (image * nat))) :
  sum_list (batch_output h self <$> dataloader).*1 = length (concat dataloader).
Proof.
  induction dataloader as [|batch dataloader IH]; simpl; [done|].
  rewrite length_app. f_equal. exact IH.
Qed.

End Validation.

(** A dataloader that keeps the last batch yields every sample, in
    order. *)
Lemma batches_from_concat {A} batch_size (cur samples : list A) :
  concat (batches_from batch_size false cur samples) = rev cur ++ samples.
Proof.
  revert cur. induction samples as [|x rest IH]; intros cur; cbn [batches_from].
  - destruct cur; simpl; by rewrite ?app_nil_r.
  - case_decide; simpl; rewrite IH; simpl; by rewrite <- ?app_assoc.
Qed.

Lemma DataLoader_concat {A} (dataset : list A) batch_size dataloader :
  DataLoader dataset batch_size false = inr dataloader → concat dataloader = dataset.
Proof.
  unfold DataLoader. case_decide; [done|]. intros [= <-].
  by rewrite batches_from_concat.
Qed.

End ClassifierMore.

(** X6. The classifier is built on the MoCo model's own backbone
    tensors, not on a copy: constructing it freezes that backbone in
    place, and neither its construction nor its training changes the
    value of any parameter of the MoCo model. *)
Theorem classifier_stage_keeps_moco_model
    {image feature embedding : Type}
    (backbone_fwd : list Float.float32 → list image → Exn.t + list feature)
    (head_fwd : list Float.float32 → list feature → Exn.t + list embedding)
    (criterion : list embedding → list embedding → Exn.t + Float.float32)
    (h0 : list Torch.tensor) (backbone_init head_init fc_init : list Float.float32)
    (moco_its : list (@MocoModel.iteration image))
    (classifier_its : list Classifier.iteration) :
  let h1 := (MocoModel.__init__ h0 backbone_init head_init).1 in
  let model := (MocoModel.__init__ h0 backbone_init head_init).2 in
  let h2 := (MocoModel.fit backbone_fwd head_fwd criterion model h1 moco_its).1 in
  let h3 := (Classifier.__init__ h2 (MocoModel.backbone model) fc_init).1 in
  let classifier := (Classifier.__init__ h2 (MocoModel.backbone model) fc_init).2 in
  let h4 := Classifier.fit classifier h3 classifier_its in
  Classifier.backbone classifier = MocoModel.backbone model ∧
  Forall (λ i, i ∉ MocoModel.parameters model) (Classifier.fc classifier) ∧
  Torch.read h4 (MocoModel.parameters model) = Torch.read h2 (MocoModel.parameters model) ∧
  Forall (λ i, Torch.requires_grad <$> h4 !! i = Some false) (MocoModel.backbone model).
Proof.
  intros h1 model h2 h3 classifier h4.
  pose proof (moco_init_wf h0 backbone_init head_init) as Hwf1. fold h1 model in Hwf1.
  pose proof (fit_wf backbone_fwd head_fwd criterion h1 model moco_its Hwf1) as Hwf.
  fold h2 in Hwf.
  pose proof (MocoModel.wf_alloc _ _ Hwf) as Halloc.
  assert (∀ i, i ∈ MocoModel.parameters model → i < length h2) as Hlt.
  { intros i Hi. by eapply Forall_forall in Halloc. }
  subst h4 h3 classifier. rewrite classifier_init_spec.
  cbn [fst snd Classifier.backbone Classifier.fc].
  assert (∀ i, i ∈ MocoModel.parameters model →
               i ∉ seq (length h2) (length fc_init)) as Hfresh.
  { intros i Hi Hin. apply elem_of_seq in Hin. specialize (Hlt i Hi). lia. }
  split; [done|]. split; [|split].
  - apply Forall_forall. intros i Hi Hin. by apply (Hfresh i).
  - apply read_ext. intros i Hi.
    rewrite classifier_fit_frame by (by apply Hfresh).
    rewrite lookup_app_l by (rewrite deactivate_length; by apply Hlt).
    apply deactivate_data.
  - apply Forall_forall. intros i Hi.
    assert (i ∈ MocoModel.parameters model) as Hin.
    { unfold MocoModel.parameters. apply elem_of_app. by left. }
    rewrite classifier_fit_frame by (by apply Hfresh).
    rewrite lookup_app_l by (rewrite deactivate_length; by apply Hlt).
    apply deactivate_frozen; [done|by apply Hlt].
Qed.






(** ** The SimCLR training loop *)

Section SimCLRFacts.
Import Torch SimCLR.

Lemma optimizer_params_spec d projection_head :
  optimizer_params d projection_head = bottom_up d ++ projection_head.
Proof.
  unfold optimizer_params, parameters, simclr_backbone. simpl.
  by rewrite app_nil_r.
Qed.

Context {image feature embedding : Type}.
Variable bottom_up_fwd : list float32 → list image → Exn.t + gmap string feature.
Variable pool : nat → feature → Exn.t + feature.
Variable flatten : feature → Exn.t + feature.
Variable head_fwd : list float32 → feature → Exn.t + embedding.
Variable criterion : embedding → embedding → Exn.t + Q.

#[local] Abbreviation step := (step bottom_up_fwd pool flatten head_fwd criterion).
#[local] Abbreviation batches := (batches bottom_up_fwd pool flatten head_fwd criterion).
#[local] Abbreviation epoch := (epoch bottom_up_fwd pool flatten head_fwd criterion).
#[local] Abbreviation rounds := (rounds bottom_up_fwd pool flatten head_fwd criterion).
#[local] Abbreviation train := (train bottom_up_fwd pool flatten head_fwd criterion).

(** A round writes nothing but what the optimizer was handed, however
    it ends. *)
Lemma step_frame h d projection_head it i :
  length (step h d projection_head it).1 = length h ∧
  (i ∈ optimizer_params d projection_head ∨ (step h d projection_head it).1 !! i = h !! i).
Proof.
  unfold SimCLR.step.
  destruct (_ ≫= _) as [e|loss]; cbn [fst]; [split; [done|by right]|].
  pose proof (backward_step_length h (optimizer_params d projection_head) (it_descent it))
    as Hlen.
  pose proof (backward_step_frame h (optimizer_params d projection_head) (it_descent it) i)
    as Hframe.
  destruct (backward_step h _ _) as [h' [e|]]; cbn [fst] in *;
    (split; [done|]);
    (destruct (decide (i ∈ optimizer_params d projection_head)); [by left|right; auto]).
Qed.

Lemma batches_frame len h d projection_head mean its i :
  length (batches len h d projection_head mean its).1 = length h ∧
  (i ∈ optimizer_params d projection_head ∨
   (batches len h d projection_head mean its).1 !! i = h !! i).
Proof.
  revert h mean. induction its as [|it its IH]; intros h mean; simpl.
  { split; [done|by right]. }
  destruct (step_frame h d projection_head it i) as [Hlen Hi].
  destruct (step h d projection_head it) as [h' [e|loss]]; cbn [fst snd] in *; [done|].
  destruct (true_divide loss len) as [e|share]; cbn [fst snd]; [done|].
  destruct (IH h' (mean + share)%Q) as [Hlen' Hi'].
  split; [by rewrite Hlen'|].
  destruct Hi as [?|Hi]; [by left|]. destruct Hi' as [?|Hi']; [by left|].
  right. by rewrite Hi'.
Qed.

Lemma train_frame h d projection_head epochs i :
  length (train h d projection_head epochs).1 = length h ∧
  (i ∈ optimizer_params d projection_head ∨
   (train h d projection_head epochs).1 !! i = h !! i).
Proof.
  revert h. induction epochs as [|dataloader epochs IH]; intros h; simpl.
  { split; [done|by right]. }
  unfold SimCLR.epoch.
  destruct (batches_frame (length dataloader) h d projection_head 0 dataloader i)
    as [Hlen Hi].
  destruct (batches _ h d projection_head 0 dataloader) as [h' [e|mean]];
    cbn [fst snd] in *; [done|].
  destruct (IH h') as [Hlen' Hi'].
  destruct (train h' d projection_head epochs) as [h'' [e|printed]]; cbn [fst snd] in *.
  - split; [by rewrite Hlen'|].
    destruct Hi as [?|Hi]; [by left|]. destruct Hi' as [?|Hi']; [by left|].
    right. by rewrite Hi'.
  - split; [by rewrite Hlen'|].
    destruct Hi as [?|Hi]; [by left|]. destruct Hi' as [?|Hi']; [by left|].
    right. by rewrite Hi'.
Qed.

(** The inner loop against its rounds: it ends as they do, and adds
    each loss divided by [len]; the division is only reached inside the
    loop, where [len] is not zero. *)
Lemma batches_rounds len h d projection_head mean its :
  its = [] ∨ len ≠ 0 →
  (batches len h d projection_head mean its).1 = (rounds h d projection_head its).1.1 ∧
  match (batches len h d projection_head mean its).2,
        (rounds h d projection_head its).2 with
  | inr m, None =>
      length (rounds h d projection_head its).1.2 = length its ∧
      (m == mean + Qsum (rounds h d projection_head its).1.2 / inject_Z (Z.of_nat len))%Q
  | inl e, Some e' =>
      e = e' ∧ length (rounds h d projection_head its).1.2 < length its
  | _, _ => False
  end.
Proof.
  intros Hlen. revert h mean. induction its as [|it its IH]; intros h mean; simpl.
  { split; [done|]. split; [done|]. unfold Qdiv. ring. }
  destruct Hlen as [?|Hlen]; [done|].
  destruct (step h d projection_head it) as [h' [e|loss]]; cbn [fst snd].
  { split; [done|]. split; [done|]. simpl. lia. }
  unfold true_divide. rewrite decide_False by done.
  specialize (IH (or_intror Hlen) h' (mean + loss / inject_Z (Z.of_nat len))%Q).
  destruct (rounds h' d projection_head its) as [[h'' losses] raised].
  cbn [fst snd] in *. destruct IH as [IHh IH]. split; [done|].
  destruct (batches len h' d projection_head _ its) as [h3 [e|m]], raised as [e'|];
    cbn [fst snd] in *; try done.
  - destruct IH as [-> IH]. split; [done|]. simpl. lia.
  - destruct IH as [IHlen IHm]. split; [simpl; by rewrite IHlen|].
    rewrite IHm. simpl. unfold Qdiv. ring.
Qed.

(** Training that returns has printed one mean loss per epoch. *)
Lemma train_printed h d projection_head epochs :
  match (train h d projection_head epochs).2 with
  | inl _ => True
  | inr printed => length printed = length epochs
  end.
Proof.
  revert h. induction epochs as [|dataloader epochs IH]; intros h; simpl; [done|].
  destruct (epoch h d projection_head dataloader) as [h' [e|mean]];
    cbn [fst snd] in *; [done|].
  specialize (IH h').
  destruct (train h' d projection_head epochs) as [h'' [e|printed]]; cbn [fst snd] in *;
    [done|]. simpl. by rewrite IH.
Qed.

End SimCLRFacts.


(** X11. SimCLR training writes parameters of the ResNet and of the
    projection head only, however it ends: the rest of the detection
    model goes into the checkpoint as it was before training, the heap
    keeps its size, and [detmodel.backbone.bottom_up = simclr_backbone[0]]
    puts back the very module that was trained. Training that returns has
    printed one mean loss per epoch. *)
Theorem simclr_training_writes_backbone_and_head_only
    {image feature embedding : Type}
    (bottom_up_fwd : list Float.float32 → list image → Exn.t + gmap string feature)
    (pool : nat → feature → Exn.t + feature) (flatten : feature → Exn.t + feature)
    (head_fwd : list Float.float32 → feature → Exn.t + embedding)
    (criterion : embedding → embedding → Exn.t + Q)
    (h : list Torch.tensor) (d : SimCLR.detmodel) (projection_head : list nat)
    (epochs : list (list (@SimCLR.iteration image))) :
  Forall (λ i, i ∉ SimCLR.bottom_up d ++ projection_head) (SimCLR.other d) →
  let r := SimCLR.train bottom_up_fwd pool flatten head_fwd criterion h d projection_head
             epochs in
  SimCLR.optimizer_params d projection_head = SimCLR.bottom_up d ++ projection_head ∧
  SimCLR.restore_bottom_up d (SimCLR.simclr_backbone d) = inr d ∧
  length r.1 = length h ∧
  (SimCLR.checkpoint r.1 d).2 = (SimCLR.checkpoint h d).2 ∧
  match r.2 with
  | inl _ => True
  | inr printed => length printed = length epochs
  end.
Proof.
  intros Hsep r. subst r.
  split; [apply optimizer_params_spec|]. split; [by destruct d|].
  split; [|split].
  - apply (train_frame bottom_up_fwd pool flatten head_fwd criterion h d projection_head
             epochs 0).
  - unfold SimCLR.checkpoint. cbn [snd]. apply read_ext. intros i Hi.
    destruct (train_frame bottom_up_fwd pool flatten head_fwd criterion h d
                projection_head epochs i) as [_ [Hin|Heq]]; [|by rewrite Heq].
    rewrite optimizer_params_spec in Hin.
    eapply Forall_forall in Hsep; [|exact Hi]. done.
  - apply train_printed.
Qed.

(** A detection model with one ResNet parameter and one other parameter,
    a one-parameter head, and two epochs: one batch that completes, then
    a batch in which Adam raises after it has rewritten the head. *)
Lemma simclr_training_writes_backbone_and_head_only_witness :
  let bottom_up_fwd := λ (_ : list Float.float32) (x : list nat),
    inr (A := Exn.t) ({[ "res5"%string := length x ]} : gmap string nat) in
  let pool := λ (_ : nat) (f : nat), inr (A := Exn.t) f in
  let flat := λ (f : nat), inr (A := Exn.t) f in
  let head_fwd := λ (_ : list Float.float32) (f : nat), inr (A := Exn.t) f in
  let criterion := λ (_ _ : nat), inr (A := Exn.t) 1%Q in
  let h := [Torch.Tensor (Float.of_Z32 1) true; Torch.Tensor (Float.of_Z32 2) true;
            Torch.Tensor (Float.of_Z32 3) true] in
  let d := SimCLR.Detmodel [0] [1] in
  let adam := Torch.Descent (inr (λ _, Float.of_Z32 1)) (λ _ p g, Float.sub32 p g) None in
  let failing := Torch.Descent (inr (λ _, Float.of_Z32 1)) (λ _ p g, Float.sub32 p g)
                   (Some ([2], Exn.RuntimeError)) in
  let epochs := [[SimCLR.Iteration (inr ([7; 8], [9; 10])) adam];
                 [SimCLR.Iteration (inr ([7; 8], [9; 10])) failing]] in
  let r := SimCLR.train bottom_up_fwd pool flat head_fwd criterion h d [2] epochs in
  Forall (λ i, i ∉ SimCLR.bottom_up d ++ [2]) (SimCLR.other d) ∧
  (SimCLR.checkpoint r.1 d).2 = (SimCLR.checkpoint h d).2 ∧
  Float.to_Q <$> Torch.read r.1 [0; 1; 2] = [Some 0%Q; Some 2%Q; Some 1%Q] ∧
  r.2 = inl Exn.RuntimeError.
Proof.
  intros bottom_up_fwd pool flat head_fwd criterion h d adam failing epochs r.
  assert (Forall (λ i, i ∉ SimCLR.bottom_up d ++ [2]) (SimCLR.other d)) as Hsep.
  { repeat constructor. simpl. intros Hin.
    apply elem_of_cons in Hin as [?|Hin]; [done|].
    apply elem_of_cons in Hin as [?|Hin]; [done|]. by apply elem_of_nil in Hin. }
  split; [exact Hsep|].
  split.
  - exact (proj1 (proj2 (proj2 (proj2
      (simclr_training_writes_backbone_and_head_only bottom_up_fwd pool flat head_fwd
         criterion h d [2] epochs Hsep))))).
  - split; vm_compute; reflexivity.
Defined.

(** ** How often a run calls what *)

Section CountFacts.
Import Py Count.

Lemma count_app f t1 t2 : count f (t1 ++ t2) = count f t1 + count f t2.
Proof. unfold count. by rewrite filter_app, length_app. Qed.

Lemma perform_made w f g t :
  Pipeline.quiet w →
  perform w g t = (Normal, t ++ [Event g None]) ∧
  count f [Event g None] = if decide (g = f) then 1 else 0.
Proof.
  intros Hq. unfold perform. rewrite Hq. split; [done|].
  unfold count. rewrite filter_cons. simpl. by destruct (decide (g = f)).
Qed.

Lemma iterate_made n body t (k : string → nat) :
  (∀ t0, ∃ new, body t0 = (Normal, t0 ++ new) ∧ ∀ f, count f new = k f) →
  ∃ new, iterate n body t = (Normal, t ++ new) ∧ ∀ f, count f new = n * k f.
Proof.
  intros Hbody. revert t. induction n as [|n IH]; intros t; simpl.
  - exists []. by rewrite app_nil_r.
  - destruct (Hbody t) as (new1 & -> & Hnew1).
    destruct (IH (t ++ new1)) as (new2 & -> & Hnew2).
    exists (new1 ++ new2). rewrite app_assoc. split; [done|].
    intros f. by rewrite count_app, Hnew1, Hnew2.
Qed.

(** When no call fails, code without conditionals, handlers and returns
    runs to its end and calls [f] as often as its loops say. *)
Lemma exec_made w s t :
  Pipeline.quiet w → branches s = false → handles s = false → returns s = false →
  ∃ new, exec w s t = (Normal, t ++ new) ∧ ∀ f, count f new = made w f s.
Proof.
  intros Hq. revert t.
  induction s as [|a IHa b IHb|m|x v|x|tg g args kw| |e|c a IHa b IHb|v it a IHa|a IHa h IHh];
    intros t Hb Hh Hr; simpl in *; try done;
    try (exists []; by rewrite app_nil_r).
  - apply orb_false_iff in Hb as [??]. apply orb_false_iff in Hh as [??].
    apply orb_false_iff in Hr as [??].
    destruct (IHa t) as (new1 & -> & Hnew1); try done.
    destruct (IHb (t ++ new1)) as (new2 & -> & Hnew2); try done.
    exists (new1 ++ new2). rewrite app_assoc. split; [done|].
    intros f. by rewrite count_app, Hnew1, Hnew2.
  - eexists. split; [by apply perform_made|]. intros f.
    by apply (perform_made w f _ t).
  - eexists. split; [by apply perform_made|]. intros f.
    by apply (perform_made w f _ t).
  - apply iterate_made. intros t0. by apply IHa.
Qed.

End CountFacts.

(** X12. When no call fails, the training cell of the SimCLR notebook
    runs to its end: it constructs the optimizer once, and for [epochs]
    rounds of the outer loop over [batches] batches it calls
    [loss.backward], [optimizer.step] and [optimizer.zero_grad] once per
    batch, the projection head twice per batch, and [print] once per
    epoch. *)
Theorem simclr_loop_call_counts (w : Py.world) (t : list Py.event) :
  Pipeline.quiet w →
  let epochs := Py.trips w "range(max_epochs)" in
  let batches := Py.trips w "dataloader_train_simclr" in
  ∃ new,
    Py.exec w (Py.block (Py.cell_stmts SimCLRNotebook.training_cell)) t
      = (Py.Normal, t ++ new) ∧
    Count.count "torch.optim.Adam" new = 1 ∧
    Count.count "loss.backward" new = epochs * batches ∧
    Count.count "optimizer.step" new = epochs * batches ∧
    Count.count "optimizer.zero_grad" new = epochs * batches ∧
    Count.count "projection_head" new = 2 * (epochs * batches) ∧
    Count.count "print" new = epochs.
Proof.
  intros Hq epochs batches.
  destruct (exec_made w (Py.block (Py.cell_stmts SimCLRNotebook.training_cell)) t Hq)
    as (new & Hexec & Hcount); [by vm_compute..|].
  exists new. split; [exact Hexec|]. rewrite !Hcount.
  repeat split.
  - transitivity (S (epochs * (batches * 0 + 0) + 0)); [by vm_compute|lia].
  - transitivity (epochs * (batches * 1 + 0) + 0); [by vm_compute|lia].
  - transitivity (epochs * (batches * 1 + 0) + 0); [by vm_compute|lia].
  - transitivity (epochs * (batches * 1 + 0) + 0); [by vm_compute|lia].
  - transitivity (epochs * (batches * 2 + 0) + 0); [by vm_compute|lia].
  - transitivity (epochs * (batches * 0 + 1) + 0); [by vm_compute|lia].
Qed.

(** Five epochs of three batches. *)
Lemma simclr_loop_call_counts_witness :
  let w := Py.World (λ _, None) (λ _ _, true)
             (λ it, if decide (it = "range(max_epochs)"%string) then 5 else 3) in
  Pipeline.quiet w ∧
  ∃ new,
    Py.exec w (Py.block (Py.cell_stmts SimCLRNotebook.training_cell)) []
      = (Py.Normal, [] ++ new) ∧
    Count.count "optimizer.step" new = 15.
Proof.
  intros w.
  assert (Pipeline.quiet w) as Hq by (intros k; reflexivity).
  split; [exact Hq|].
  destruct (simclr_loop_call_counts w [] Hq) as (new & Hexec & _ & _ & Hstep & _).
  exists new. split; [exact Hexec|exact Hstep].
Defined.

(** X13. [custom_histogram_weights], which both classes define alike,
    asks for the named parameters once and logs one histogram for each
    of them, when no call fails. *)
Theorem histogram_per_named_parameter (w : Py.world) (t : list Py.event) :
  Pipeline.quiet w →
  Py.find_method MoCoNotebook.cells "MocoModel.custom_histogram_weights"
    = Some (Py.block (Py.method_body MoCoNotebook.custom_histogram_weights)) ∧
  Py.find_method MoCoNotebook.cells "Classifier.custom_histogram_weights"
    = Some (Py.block (Py.method_body MoCoNotebook.custom_histogram_weights)) ∧
  ∃ new,
    Py.exec w (Py.block (Py.method_body MoCoNotebook.custom_histogram_weights)) t
      = (Py.Normal, t ++ new) ∧
    Count.count "self.named_parameters" new = 1 ∧
    Count.count "self.logger.experiment.add_histogram" new
      = Py.trips w "self.named_parameters()" ∧
    length new = 1 + Py.trips w "self.named_parameters()".
Proof.
  intros Hq. split; [by vm_compute|]. split; [by vm_compute|].
  destruct (exec_made w (Py.block (Py.method_body MoCoNotebook.custom_histogram_weights))
              t Hq) as (new & Hexec & Hcount); [by vm_compute..|].
  exists new. split; [exact Hexec|].
  assert (Count.count "self.named_parameters" new = 1) as H1.
  { rewrite Hcount.
    transitivity (S (Py.trips w "self.named_parameters()" * 0 + 0)); [by vm_compute|lia]. }
  assert (Count.count "self.logger.experiment.add_histogram" new
          = Py.trips w "self.named_parameters()") as H2.
  { rewrite Hcount.
    transitivity (Py.trips w "self.named_parameters()" * 1 + 0); [by vm_compute|lia]. }
  split; [exact H1|]. split; [exact H2|].
  destruct (exec_called w (Py.block (Py.method_body MoCoNotebook.custom_histogram_weights)) t)
    as (new' & Hnew' & Hcalled).
  rewrite Hexec in Hnew'. simpl in Hnew'. apply app_inv_head in Hnew'. subst new'.
  rewrite <- H1, <- H2. unfold Count.count. clear H1 H2 Hcount Hexec.
  induction Hcalled as [|ev new Hev Hcalled IH]; [done|].
  rewrite !filter_cons. simpl.
  assert (Py.callee ev = "self.named_parameters"%string ∨
          Py.callee ev = "self.logger.experiment.add_histogram"%string) as [->| ->].
  { vm_compute in Hev.
    apply elem_of_cons in Hev as [?|Hev]; [by left|].
    apply elem_of_cons in Hev as [?|Hev]; [by right|]. by apply elem_of_nil in Hev. }
  - rewrite decide_True by done. rewrite decide_False by done. simpl. lia.
  - rewrite decide_False by done. rewrite decide_True by done. simpl. lia.
Qed.

(** A model with four named parameters. *)
Lemma histogram_per_named_parameter_witness :
  let w := Py.World (λ _, None) (λ _ _, true) (λ _, 4) in
  Pipeline.quiet w ∧
  ∃ new,
    Py.exec w (Py.block (Py.method_body MoCoNotebook.custom_histogram_weights)) []
      = (Py.Normal, [] ++ new) ∧
    Count.count "self.logger.experiment.add_histogram" new = 4.
Proof.
  intros w.
  assert (Pipeline.quiet w) as Hq by (intros k; reflexivity).
  split; [exact Hq|].
  destruct (histogram_per_named_parameter w [] Hq)
    as (_ & _ & new & Hexec & _ & Hhist & _).
  exists new. split; [exact Hexec|exact Hhist].
Defined.

(** X14. Every absolute path the notebooks name - the datasets, the
    Detectron2 configuration file and the checkpoint directory - lies
    below a directory the compose service mounts from the host, [/data]
    or [/workspace]. *)
Theorem notebook_paths_are_mounted :
  Mounts.targets
    = ["/tmp/.X11-unix"; "/dev"; "/etc/passwd"; "/workspace"; "/data"]%string ∧
  Forall (λ path, Mounts.mounted path = true ∧
                  (String.prefix "/data/" path || String.prefix "/workspace/" path) = true)
    (Mounts.paths MoCoNotebook.cells ++ Mounts.paths SimCLRNotebook.cells) ∧
  length (Mounts.paths MoCoNotebook.cells) = 2 ∧
  length (Mounts.paths SimCLRNotebook.cells) = 3.
Proof.
  split; [by vm_compute|]. split; [|by vm_compute].
  assert (Mounts.paths MoCoNotebook.cells ++ Mounts.paths SimCLRNotebook.cells
          = ["/data/cifar-10-kaggle/cifar10/cifar10/train";
             "/data/cifar-10-kaggle/cifar10/cifar10/test";
             "/data/greiburg_groceries/freiburg_groceries_dataset/images";
             "/workspace/Base-RCNN-FPN.yaml"; "/workspace/weights"]%string) as ->
    by (by vm_compute).
  check_each.
Qed.


Section EpochEndTrace.
Import Py.

Lemma iterate_silent n t :
  iterate n (λ t0, (Normal, t0)) t = (Normal, t).
Proof. revert t. induction n as [|n IH]; intros t; simpl; [done|apply IH]. Qed.

End EpochEndTrace.

(** X16. What [Classifier.on_validation_epoch_end] calls depends on its
    guard alone: when [self.validation_step_outputs] is empty it calls
    nothing at all, and otherwise it logs once and then clears the list,
    however many outputs the loop in between adds up. *)
Theorem validation_epoch_end_calls (w : Py.world) (t : list Py.event) :
  Pipeline.quiet w →
  ∃ body,
    Py.find_method MoCoNotebook.cells "Classifier.on_validation_epoch_end" = Some body ∧
    Py.exec w body t
    = (Py.Normal,
       t ++ if Py.holds w "self.validation_step_outputs" (length t)
            then [Py.Event "self.log" None;
                  Py.Event "self.validation_step_outputs.clear" None]
            else []).
Proof.
  intros Hq. eexists. split; [by vm_compute|].
  simpl. destruct (Py.holds w "self.validation_step_outputs" (length t)).
  - simpl. rewrite (iterate_silent _ t). simpl.
    unfold Py.perform. rewrite !Hq. by rewrite <- app_assoc.
  - by rewrite app_nil_r.
Qed.

(** A run whose guard holds and whose loop sees three outputs. *)
Lemma validation_epoch_end_calls_witness :
  let w := Py.World (λ _, None) (λ _ _, true) (λ _, 3) in
  Pipeline.quiet w ∧
  ∃ body,
    Py.find_method MoCoNotebook.cells "Classifier.on_validation_epoch_end" = Some body ∧
    Py.exec w body []
    = (Py.Normal, [Py.Event "self.log" None;
                   Py.Event "self.validation_step_outputs.clear" None]).
Proof.
  intros w.
  assert (Pipeline.quiet w) as Hq by (intros k; reflexivity).
  split; [exact Hq|].
  destruct (validation_epoch_end_calls w [] Hq) as (body & Hfind & Hexec).
  exists body. split; [exact Hfind|exact Hexec].
Defined.

(** The SimCLR loop on small inputs: two batches with loss 1, a
    backbone whose output lacks the stage, a loss that raises, and an
    empty dataloader. *)
Example simclr_epoch_runs :
  let pool := λ (_ : nat) (f : nat), inr (A := Exn.t) f in
  let flat := λ (f : nat), inr (A := Exn.t) f in
  let head_fwd := λ (_ : list Float.float32) (f : nat), inr (A := Exn.t) f in
  let criterion := λ (_ _ : nat), inr (A := Exn.t) 1%Q in
  let raising := λ (_ _ : nat), inl (B := Q) Exn.RuntimeError in
  let h := [Torch.Tensor (Float.of_Z32 1) true; Torch.Tensor (Float.of_Z32 2) true;
            Torch.Tensor (Float.of_Z32 3) false] in
  let d := SimCLR.Detmodel [0] [1] in
  let adam := Torch.Descent (inr (λ _, Float.of_Z32 1)) (λ _ p g, Float.sub32 p g) None in
  let it := SimCLR.Iteration (inr ([7; 8], [9; 10])) adam in
  let good := λ (_ : list Float.float32) (x : list nat),
    inr (A := Exn.t) ({[ "res5"%string := length x ]} : gmap string nat) in
  let bad := λ (_ : list Float.float32) (x : list nat),
    inr (A := Exn.t) ({[ "res4"%string := length x ]} : gmap string nat) in
  (let r := SimCLR.epoch good pool flat head_fwd criterion h d [2] [it; it] in
   (Float.to_Q <$> (Torch.data <$> r.1), r.2)
   = ([Some (-1)%Q; Some 2%Q; Some 3%Q], inr (0 + 1 / 2 + 1 / 2)%Q)) ∧
  SimCLR.epoch bad pool flat head_fwd criterion h d [2] [it; it]
    = (h, inl (Exn.KeyError "res5")) ∧
  SimCLR.epoch good pool flat head_fwd raising h d [2] [it; it]
    = (h, inl Exn.RuntimeError) ∧
  SimCLR.epoch good pool flat head_fwd criterion h d [2] [] = (h, inr 0%Q).
Proof. repeat split; vm_compute; reflexivity. Qed.
